(** * YCY-Control: the randomized control engine ([core/random_controller.py])

    A shallow embedding of [RandomController] and of the part of
    [YCY_FJB_Device] it calls, followed by the properties of the engine.

    - Python [int] is [Z]; channel names and mode names are [string].
    - The [limits] dict is an insertion-ordered association list: the
      validation loop of [start] walks [limits.items()] in order and raises at
      the first offending entry, so the order decides which message is raised.
    - Durations ([float] seconds) are binary64 floating-point numbers, the
      kernel's primitive [float], with their rounding: [0.6] is the double
      nearest to 0.6, and [inhale_duration * 0.6] is rounded as Python rounds
      it.  Where the code passes the [int]s 10, 1 and 0 as seconds they are
      written as the floats of the same value.
    - [async def] bodies are trees of effects ([coro]); an event loop
      ([resume]) runs tasks one suspension point at a time. *)

From Stdlib Require Import Floats List ZArith String Bool Lia Arith.
From Stdlib Require Uint63.
Import ListNotations.

#[local] Set Warnings "-inexact-float".

Local Open Scope string_scope.
Local Open Scope Z_scope.

(** ** Data model *)

(** [Dict[str, Tuple[int, int]]] *)
Definition limits_t := list (string * (Z * Z)).

(** [limits[channel]]: the pair stored under the key, if any. *)
Fixpoint dict_get (channel : string) (limits : limits_t) : option (Z * Z) :=
  match limits with
  | [] => None
  | (k, v) :: rest => if String.eqb k channel then Some v else dict_get channel rest
  end.

(** [channel in limits] *)
Definition dict_mem (channel : string) (limits : limits_t) : bool :=
  match dict_get channel limits with Some _ => true | None => false end.

(** [x in xs] on a list of strings. *)
Definition str_in (x : string) (xs : list string) : bool :=
  existsb (String.eqb x) xs.

(** [v in exclude_values] *)
Definition z_in (v : Z) (xs : list Z) : bool := existsb (Z.eqb v) xs.

(** [range(a, b)] *)
Definition range (a b : Z) : list Z :=
  map (fun i => a + Z.of_nat i) (seq 0 (Z.to_nat (b - a))).

(** Handle of an [asyncio.Task] in the event loop's task table. *)
Definition task_id := nat.

(** The fields set by [RandomController.__init__] (the borrowed [device] lives
    in the event loop's world). *)
Record controller := mkController {
  is_running : bool;
  mode : option string;
  limits : limits_t;
  auto_loop : bool;
  task : option task_id;
  b_channel_timer : option task_id;
  last_b_command_time : float
}.

Definition default_limits : limits_t :=
  [("A", (0, 20)); ("B", (1, 20)); ("C", (0, 20))].

(** [RandomController.__init__] *)
Definition __init__ : controller :=
  {| is_running := false;
     mode := None;
     limits := default_limits;
     auto_loop := true;
     task := None;
     b_channel_timer := None;
     last_b_command_time := 0%float |}.

(** The dict returned by the [status] property. *)
Record status_t := mkStatus {
  st_is_running : bool;
  st_mode : option string;
  st_limits : limits_t
}.

(** [RandomController.status] *)
Definition status (self : controller) : status_t :=
  {| st_is_running := is_running self;
     st_mode := mode self;
     st_limits := limits self |}.

(** ** Exceptions *)

(** The messages of the [ValueError]s of the two modules, by raise site. *)
Inductive value_msg : Type :=
| BadMode                       (* start: mode is neither 'speed' nor 'mode' *)
| MissingChannel                (* start: A, B or C absent from limits *)
| BadLimitsA                    (* start: A pair outside 0..40 or inverted *)
| BadLimits (channel : string)  (* start: other pair outside 0..20 or inverted *)
| BadMotor                      (* device: motor is not A, B or C *)
| BadLevel (motor : string)     (* device: speed level out of range *)
| BadModeValue.                 (* device: mode value outside 0..7 *)

Inductive exn : Type :=
| ValueError (m : value_msg)
| KeyError (key : string)
| RuntimeError                  (* device: not connected *)
| BleakError                    (* the BLE write itself failed *)
| CancelledError.               (* asyncio.CancelledError, a BaseException *)

(** [except Exception] catches everything but [CancelledError]. *)
Definition is_Exception (e : exn) : bool :=
  match e with CancelledError => false | _ => true end.

(** ** Parameter validation of [start] *)

(** [0 <= min_val <= max_val <= bound] *)
Definition chain_ok (min_val max_val bound : Z) : bool :=
  (0 <=? min_val) && (min_val <=? max_val) && (max_val <=? bound).

(** The loop [for channel, (min_val, max_val) in limits.items()] of [start]:
    the first offending entry raises. *)
Fixpoint check_items (items : limits_t) : option exn :=
  match items with
  | [] => None
  | (channel, (min_val, max_val)) :: rest =>
      if String.eqb channel "A" then
        if negb (chain_ok min_val max_val 40) then Some (ValueError BadLimitsA)
        else check_items rest
      else
        if negb (chain_ok min_val max_val 20) then Some (ValueError (BadLimits channel))
        else check_items rest
  end.

(** ** Random value generation *)

(** The list [possible_values] built by [_generate_random_value] before the
    draw, for a channel whose limits are [(min_val, max_val)]. *)
Definition possible_values (channel : string) (min_val max_val : Z)
    (exclude_values : list Z) : list Z :=
  if String.eqb channel "A" then
    let pause := if min_val =? 0 then [0] else [] in
    let forward_min := Z.max 1 min_val in
    let forward_max := Z.min 20 max_val in
    let forward :=
      if forward_min <=? forward_max then range forward_min (forward_max + 1) else [] in
    let reverse_min := Z.max 21 min_val in
    let reverse_max := Z.min 40 max_val in
    let reverse :=
      if reverse_min <=? reverse_max then range reverse_min (reverse_max + 1) else [] in
    filter (fun v => negb (z_in v exclude_values)) (pause ++ forward ++ reverse)
  else
    filter (fun v => negb (z_in v exclude_values)) (range min_val (max_val + 1)).

(** ** Channel-B release duration *)

(** Python's two-argument [min(a, b)]: [b] only when [b < a]. *)
Definition py_min (a b : float) : float := if (b <? a)%float then b else a.

(** Python's two-argument [max(a, b)]: [b] only when [b > a]. *)
Definition py_max (a b : float) : float := if (a <? b)%float then b else a.

(** The two assignments to [exhale_duration] in
    [_handle_b_channel_exhale_cycle]. *)
Definition exhale_duration (inhale_duration : float) : float :=
  let exhale_duration := (inhale_duration * 0.6)%float in
  py_max 0.5 (py_min exhale_duration 3.0).

(** ** The device collaborator ([core/ycy_fjb.py]) *)

(** A call of [device.set_speed(motor, level)] or
    [device.set_mode(motor, mode_value)]. *)
Inductive dev_op : Type :=
| set_speed (motor : string) (level : Z)
| set_mode (motor : string) (mode_value : Z).

(** The argument checks that open [set_speed] and [set_mode]. *)
Definition device_check (op : dev_op) : option exn :=
  match op with
  | set_speed motor level =>
      if negb (str_in motor ["A"; "B"; "C"]) then Some (ValueError BadMotor)
      else if String.eqb motor "A" then
        if negb ((0 <=? level) && (level <=? 40)) then Some (ValueError (BadLevel "A"))
        else None
      else
        if negb ((0 <=? level) && (level <=? 20)) then Some (ValueError (BadLevel motor))
        else None
  | set_mode motor mode_value =>
      if negb (str_in motor ["A"; "B"; "C"]) then Some (ValueError BadMotor)
      else if negb ((0 <=? mode_value) && (mode_value <=? 7))
      then Some (ValueError BadModeValue)
      else None
  end.

(** ** Coroutines *)

Inductive level : Type := DEBUG | INFO | ERROR.

(** The log statements of [random_controller.py], by site. *)
Inductive log_msg : Type :=
| StartedLoop (mode : string)      (* start, auto_loop *)
| StartedOnce (mode : string)      (* start, single shot *)
| Stopped                          (* stop *)
| AutoExhale                       (* _handle_b_channel_exhale *)
| AutoExhaleFailed (e : exn)
| ExhaleBegin (d : float)              (* _handle_b_channel_exhale_cycle *)
| ExhaleDone
| ExhaleCycleFailed (e : exn)
| LoopStarted                      (* _random_loop *)
| NewRound (mode : option string)
| Holding (d : float)
| CycleEndExhale
| LoopError (e : exn)
| Traceback
| OnceError (e : exn)              (* _execute_once *)
| SpeedSet (a b c : Z)             (* _execute_speed_mode *)
| ModeSet (channel : string) (v : Z). (* _execute_mode_mode *)

(** Operations that complete without giving up the event loop. *)
Inductive instant : Type -> Type :=
| GetSelf : instant controller                          (* read a field of self *)
| Update (f : controller -> controller) : instant unit  (* assign fields of self *)
| RandBelow (n : nat) : instant nat                     (* random._randbelow(n) *)
| Random : instant float                                    (* random.random() *)
| Logger (l : level) (m : log_msg) : instant unit
| CreateTask : instant task_id     (* asyncio.create_task(self._random_loop()) *)
| TaskDone (t : task_id) : instant bool                 (* task.done() *)
| TaskCancel (t : task_id) : instant unit               (* task.cancel() *)
| LoopTime : instant float.            (* asyncio.get_event_loop().time() *)

(** What an [await] can suspend on. *)
Inductive awaitable : Type :=
| Device (op : dev_op)    (* await self.device.set_speed / set_mode *)
| ASleep (d : float)          (* await asyncio.sleep(d) *)
| ATask (t : task_id).    (* await task *)

(** The body of an [async def]: a tree of operations.  An [Await] node
    continues with [None] when the awaited thing completes and with
    [Some e] when [e] is raised at the [await]. *)
Inductive coro (R : Type) : Type :=
| Ret (r : R)
| Raise (e : exn)
| Do {X : Type} (i : instant X) (k : X -> coro R)
| Await (a : awaitable) (k : option exn -> coro R)
| OutOfFuel.

Arguments Ret {R} r.
Arguments Raise {R} e.
Arguments Do {R X} i k.
Arguments Await {R} a k.
Arguments OutOfFuel {R}.

Fixpoint bind {R S : Type} (c : coro R) (f : R -> coro S) : coro S :=
  match c with
  | Ret r => f r
  | Raise e => Raise e
  | Do i k => Do i (fun x => bind (k x) f)
  | Await a k => Await a (fun r => bind (k r) f)
  | OutOfFuel => OutOfFuel
  end.

(** [try: c except ...: h]; [h e = None] when no clause matches [e]. *)
Fixpoint try_except {R : Type} (c : coro R) (h : exn -> option (coro R)) : coro R :=
  match c with
  | Ret r => Ret r
  | Raise e => match h e with Some c' => c' | None => Raise e end
  | Do i k => Do i (fun x => try_except (k x) h)
  | Await a k => Await a (fun r => try_except (k r) h)
  | OutOfFuel => OutOfFuel
  end.

Definition do {X : Type} (i : instant X) : coro X := Do i Ret.

Definition await (a : awaitable) : coro unit :=
  Await a (fun r => match r with None => Ret tt | Some e => Raise e end).

(** [except Exception as e: h e] *)
Definition except_Exception {R : Type} (h : exn -> coro R) (e : exn) : option (coro R) :=
  if is_Exception e then Some (h e) else None.

(** [except asyncio.CancelledError: h] *)
Definition except_CancelledError {R : Type} (h : coro R) (e : exn) : option (coro R) :=
  match e with CancelledError => Some h | _ => None end.

Declare Scope coro_scope.
Delimit Scope coro_scope with coro.
Notation "x <- c ;; k" := (bind c (fun x => k))
  (at level 61, c at next level, right associativity) : coro_scope.
Notation "c ;; k" := (bind c (fun _ => k))
  (at level 61, right associativity) : coro_scope.
Local Open Scope coro_scope.

Definition pass : coro unit := Ret tt.

(** [self.mode == m] *)
Definition mode_is (self : controller) (m : string) : bool :=
  match mode self with Some m' => String.eqb m' m | None => false end.

(** ** The methods of [RandomController] *)

(** [random.choice(seq)]: [seq[random._randbelow(len(seq))]]. *)
Definition random_choice (xs : list Z) : coro Z :=
  i <- do (RandBelow (List.length xs)) ;;
  Ret (nth i xs 0).

(** [random.randint(a, b)]: [a + random._randbelow(b - a + 1)]. *)
Definition random_randint (a b : Z) : coro Z :=
  i <- do (RandBelow (Z.to_nat (b - a + 1))) ;;
  Ret (a + Z.of_nat i).

(** [random.uniform(a, b)]: [a + (b - a) * random.random()]. *)
Definition random_uniform (a b : float) : coro float :=
  u <- do Random ;;
  Ret (a + (b - a) * u)%float.

Definition set_session (m : string) (l : limits_t) (al : bool) (self : controller)
    : controller :=
  {| is_running := is_running self; mode := Some m; limits := l; auto_loop := al;
     task := task self; b_channel_timer := b_channel_timer self;
     last_b_command_time := last_b_command_time self |}.

Definition set_is_running (b : bool) (self : controller) : controller :=
  {| is_running := b; mode := mode self; limits := limits self;
     auto_loop := auto_loop self; task := task self;
     b_channel_timer := b_channel_timer self;
     last_b_command_time := last_b_command_time self |}.

Definition set_task (t : option task_id) (self : controller) : controller :=
  {| is_running := is_running self; mode := mode self; limits := limits self;
     auto_loop := auto_loop self; task := t;
     b_channel_timer := b_channel_timer self;
     last_b_command_time := last_b_command_time self |}.

Definition set_b_channel_timer (t : option task_id) (self : controller) : controller :=
  {| is_running := is_running self; mode := mode self; limits := limits self;
     auto_loop := auto_loop self; task := task self;
     b_channel_timer := t;
     last_b_command_time := last_b_command_time self |}.

Definition set_last_b_command_time (q : float) (self : controller) : controller :=
  {| is_running := is_running self; mode := mode self; limits := limits self;
     auto_loop := auto_loop self; task := task self;
     b_channel_timer := b_channel_timer self;
     last_b_command_time := q |}.

(** [RandomController.stop] *)
Definition stop : coro unit :=
  do (Update (set_is_running false)) ;;
  self <- do GetSelf ;;
  match task self with
  | Some t =>
      finished <- do (TaskDone t) ;;
      if negb finished then
        do (TaskCancel t) ;;
        try_except (await (ATask t)) (except_CancelledError pass)
      else pass
  | None => pass
  end ;;
  self <- do GetSelf ;;
  (if mode_is self "speed" then
     await (Device (set_speed "A" 0)) ;;
     await (Device (set_speed "B" 0)) ;;
     await (Device (set_speed "C" 0))
   else
     await (Device (set_mode "A" 0)) ;;
     await (Device (set_mode "B" 0)) ;;
     await (Device (set_mode "C" 0))) ;;
  self <- do GetSelf ;;
  match b_channel_timer self with
  | Some t =>
      do (TaskCancel t) ;;
      do (Update (set_b_channel_timer None))
  | None => pass
  end ;;
  do (Logger INFO Stopped).

(** [RandomController._generate_random_value] *)
Definition _generate_random_value (channel : string) (exclude_values : option (list Z))
    : coro Z :=
  self <- do GetSelf ;;
  match dict_get channel (limits self) with
  | None => Raise (KeyError channel)
  | Some (min_val, max_val) =>
      let exclude_values := match exclude_values with Some l => l | None => [] end in
      let possible := possible_values channel min_val max_val exclude_values in
      match possible with
      | [] => Ret min_val
      | _ :: _ => random_choice possible
      end
  end.

(** [RandomController._generate_frequency_delay] *)
Definition _generate_frequency_delay : coro float := random_uniform 3.0 11.0.

(** [RandomController._handle_b_channel_exhale] *)
Definition _handle_b_channel_exhale : coro unit :=
  try_except
    (self <- do GetSelf ;;
     if mode_is self "speed" then
       await (Device (set_speed "B" 0)) ;;
       do (Logger DEBUG AutoExhale)
     else pass)
    (except_Exception (fun e => do (Logger ERROR (AutoExhaleFailed e)))).

(** [RandomController._handle_b_channel_exhale_cycle] *)
Definition _handle_b_channel_exhale_cycle (inhale_duration : float) : coro unit :=
  try_except
    (let d := exhale_duration inhale_duration in
     do (Logger DEBUG (ExhaleBegin d)) ;;
     await (Device (set_speed "B" 0)) ;;
     await (ASleep d) ;;
     do (Logger DEBUG ExhaleDone))
    (except_Exception (fun e => do (Logger ERROR (ExhaleCycleFailed e)))).

(** [RandomController._execute_speed_mode] *)
Definition _execute_speed_mode : coro unit :=
  a <- _generate_random_value "A" None ;;
  b <- _generate_random_value "B" None ;;
  c <- _generate_random_value "C" None ;;
  await (Device (set_speed "A" a)) ;;
  await (Device (set_speed "C" c)) ;;
  await (Device (set_speed "B" (if b >? 0 then b else 0))) ;;
  (if b >? 0 then
     now <- do LoopTime ;;
     do (Update (set_last_b_command_time now))
   else pass) ;;
  do (Logger INFO (SpeedSet a (if b >? 0 then b else 0) c)).

(** [RandomController._execute_mode_mode] *)
Definition _execute_mode_mode : coro unit :=
  a <- random_randint 1 7 ;;
  b <- random_randint 1 7 ;;
  c <- random_randint 1 7 ;;
  await (Device (set_mode "A" a)) ;;
  do (Logger DEBUG (ModeSet "A" a)) ;;
  await (Device (set_mode "B" b)) ;;
  do (Logger DEBUG (ModeSet "B" b)) ;;
  await (Device (set_mode "C" c)) ;;
  do (Logger DEBUG (ModeSet "C" c)).

(** [RandomController._schedule_exhale] *)
Definition _schedule_exhale (delay : float) : coro unit :=
  await (ASleep delay) ;;
  _handle_b_channel_exhale.

(** The [if self.mode == 'speed': ... elif self.mode == 'mode': ...] that
    opens a cycle. *)
Definition execute_cycle : coro unit :=
  self <- do GetSelf ;;
  if mode_is self "speed" then _execute_speed_mode
  else if mode_is self "mode" then _execute_mode_mode
  else pass.

(** One pass through the body of the [while] of [_random_loop], with its
    [try]/[except Exception]. *)
Definition loop_iteration : coro unit :=
  try_except
    (self <- do GetSelf ;;
     do (Logger INFO (NewRound (mode self))) ;;
     execute_cycle ;;
     hold_duration <- _generate_frequency_delay ;;
     do (Logger INFO (Holding hold_duration)) ;;
     await (ASleep hold_duration) ;;
     self <- do GetSelf ;;
     if mode_is self "speed" then
       do (Logger INFO CycleEndExhale) ;;
       _handle_b_channel_exhale_cycle hold_duration
     else pass)
    (except_Exception (fun e =>
       do (Logger ERROR (LoopError e)) ;;
       do (Logger ERROR Traceback) ;;
       await (ASleep 1))).

(** [while self.is_running and self.auto_loop:], unrolled at most [fuel]
    times; a loop that would go on beyond that ends in [OutOfFuel]. *)
Fixpoint while_running (fuel : nat) : coro unit :=
  self <- do GetSelf ;;
  if is_running self && auto_loop self then
    match fuel with
    | O => OutOfFuel
    | S fuel' => loop_iteration ;; while_running fuel'
    end
  else pass.

(** [RandomController._random_loop] *)
Definition _random_loop (fuel : nat) : coro unit :=
  do (Logger INFO LoopStarted) ;;
  while_running fuel.

(** [RandomController._execute_once] *)
Definition _execute_once : coro unit :=
  try_except
    (execute_cycle ;;
     await (ASleep 10) ;;
     self <- do GetSelf ;;
     if mode_is self "speed" then _handle_b_channel_exhale_cycle 10
     else pass)
    (except_Exception (fun e => do (Logger ERROR (OnceError e)))).

(** [RandomController.start], after its parameter checks. *)
Definition start_session (mode : string) (limits : limits_t) (auto_loop : bool)
    : coro unit :=
  do (Update (set_session mode limits auto_loop)) ;;
  self <- do GetSelf ;;
  (if is_running self then stop else pass) ;;
  do (Update (set_is_running true)) ;;
  if auto_loop then
    t <- do CreateTask ;;
    do (Update (set_task (Some t))) ;;
    do (Logger INFO (StartedLoop mode))
  else
    _execute_once ;;
    do (Logger INFO (StartedOnce mode)).

(** [RandomController.start] *)
Definition start (mode : string) (limits : limits_t) (auto_loop : bool) : coro unit :=
  if negb (str_in mode ["speed"; "mode"]) then Raise (ValueError BadMode)
  else if negb (forallb (fun channel => dict_mem channel limits) ["A"; "B"; "C"])
  then Raise (ValueError MissingChannel)
  else match check_items limits with
       | Some e => Raise e
       | None => start_session mode limits auto_loop
       end.

(** ** The event loop

    asyncio runs one task at a time and switches only at an [await] that
    really suspends: a BLE write in flight, a sleep, a task not yet done. *)

(** What the engine did, in order: calls of the device, sleeps begun, log
    records. *)
Inductive event : Type :=
| Called (op : dev_op)
| Slept (d : float)
| Logged (l : level) (m : log_msg).

Inductive outcome : Type :=
| Done                (* returned *)
| Failed (e : exn)    (* an exception left the coroutine *)
| Cancelled           (* CancelledError left the coroutine *)
| Exhausted.          (* the model's loop bound was reached *)

Inductive tstate : Type :=
| Ready (c : coro unit)
| Blocked (a : awaitable) (res : option exn) (k : option exn -> coro unit)
| Finished (o : outcome).

(** A task: where it stands, and whether [cancel()] was requested and not
    yet delivered. *)
Record tcb := mkTcb { state : tstate; must_cancel : bool }.

(** Everything the engine does not decide: the random source, the BLE link,
    the clock, and how far the model unrolls [_random_loop]. *)
Record env := mkEnv {
  rnd_below : nat -> nat;
  rnd_unit : nat -> float;
  link_ok : nat -> bool;
  clock : nat -> float;
  loop_fuel : nat
}.

Record world := mkWorld {
  ctl : controller;               (* the RandomController instance *)
  connected : bool;               (* device._connected *)
  tasks : list tcb;               (* task table, indexed by task_id *)
  trace : list (task_id * event); (* oldest first, with the acting task *)
  draws : nat;                    (* random draws made so far *)
  writes : nat                    (* BLE writes issued so far *)
}.

Definition with_ctl (c : controller) (w : world) : world :=
  mkWorld c (connected w) (tasks w) (trace w) (draws w) (writes w).
Definition with_tasks (ts : list tcb) (w : world) : world :=
  mkWorld (ctl w) (connected w) ts (trace w) (draws w) (writes w).
Definition emit (t : task_id) (e : event) (w : world) : world :=
  mkWorld (ctl w) (connected w) (tasks w) (trace w ++ [(t, e)]) (draws w) (writes w).
Definition next_draw (w : world) : world :=
  mkWorld (ctl w) (connected w) (tasks w) (trace w) (S (draws w)) (writes w).
Definition next_write (w : world) : world :=
  mkWorld (ctl w) (connected w) (tasks w) (trace w) (draws w) (S (writes w)).

(** [device.connect()] or [device.disconnect()], called by the application:
    the engine reads [device._connected] and never sets it. *)
Definition with_connected (b : bool) (w : world) : world :=
  mkWorld (ctl w) b (tasks w) (trace w) (draws w) (writes w).

Fixpoint replace_nth {A : Type} (n : nat) (x : A) (l : list A) : list A :=
  match l, n with
  | [], _ => []
  | _ :: rest, O => x :: rest
  | y :: rest, S n' => y :: replace_nth n' x rest
  end.

Definition task_state (t : task_id) (w : world) : option tstate :=
  option_map state (nth_error (tasks w) t).

(** [task.done()] *)
Definition task_done (t : task_id) (w : world) : bool :=
  match task_state t w with
  | Some (Finished _) => true
  | _ => false
  end.

(** [task.cancel()]: a request, delivered when the task next runs; nothing
    for a task that is done. *)
Definition request_cancel (t : task_id) (w : world) : world :=
  match nth_error (tasks w) t with
  | Some (mkTcb (Finished _) _) => w
  | Some (mkTcb s _) => with_tasks (replace_nth t (mkTcb s true) (tasks w)) w
  | None => w
  end.

(** What [await task] gives once the task is done. *)
Definition await_result (o : outcome) : option exn :=
  match o with
  | Done => None
  | Failed e => Some e
  | Cancelled => Some CancelledError
  | Exhausted => None
  end.

(** [random._randbelow(n)] read off the environment's raw draw. *)
Definition below (n raw : nat) : nat := match n with O => O | S _ => Nat.modulo raw n end.

(** [random.random()], in [0, 1), read off the environment's raw draw. *)
Definition unit_interval (raw : float) : float :=
  if ((0 <=? raw) && (raw <? 1))%float then raw else 0%float.

Section EventLoop.

Variable E : env.

(** An operation that does not suspend, done by task [me]. *)
Definition perform {X : Type} (me : task_id) (i : instant X) (w : world) : world * X :=
  match i in instant X return world * X with
  | GetSelf => (w, ctl w)
  | Update f => (with_ctl (f (ctl w)) w, tt)
  | RandBelow n => (next_draw w, below n (rnd_below E (draws w)))
  | Random => (next_draw w, unit_interval (rnd_unit E (draws w)))
  | Logger l m => (emit me (Logged l m) w, tt)
  | CreateTask =>
      (with_tasks (tasks w ++ [mkTcb (Ready (_random_loop (loop_fuel E))) false]) w,
       List.length (tasks w))
  | TaskDone t => (w, task_done t w)
  | TaskCancel t => (request_cancel t w, tt)
  | LoopTime => (w, clock E (List.length (trace w)))
  end.

(** Run task [me] from [c] to its next suspension or to its end.
    [Device op]: the device checks its arguments and the connection
    ([set_speed]/[set_mode], [_send_speed_control]/[_send_mode_control])
    and raises at once, or issues the BLE write and suspends on it. *)
Fixpoint run (me : task_id) (c : coro unit) (w : world) {struct c} : world * tstate :=
  match c with
  | Ret _ => (w, Finished Done)
  | Raise CancelledError => (w, Finished Cancelled)
  | Raise e => (w, Finished (Failed e))
  | OutOfFuel => (w, Finished Exhausted)
  | Do i k => let (w', x) := perform me i w in run me (k x) w'
  | Await (Device op) k =>
      let w' := emit me (Called op) w in
      match device_check op with
      | Some e => run me (k (Some e)) w'
      | None =>
          if connected w then
            (next_write w',
             Blocked (Device op) (if link_ok E (writes w) then None else Some BleakError) k)
          else run me (k (Some RuntimeError)) w'
      end
  | Await (ASleep d) k => (emit me (Slept d) w, Blocked (ASleep d) None k)
  | Await (ATask t) k =>
      match task_state t w with
      | Some (Finished o) => run me (k (await_result o)) w
      | _ => (w, Blocked (ATask t) None k)
      end
  end.

Definition put_task (t : task_id) (s : tstate) (w : world) : world :=
  with_tasks (replace_nth t (mkTcb s false) (tasks w)) w.

Definition run_task (t : task_id) (c : coro unit) (w : world) : world :=
  let (w', s) := run t c w in put_task t s w'.

(** The loop gives task [t] its turn.  A pending [cancel()] is delivered
    as [CancelledError] at the [await] the task is suspended on (a task
    that never ran is cancelled outright); otherwise the task goes on
    with the result of what it awaited, or stays suspended on a task
    that is not done. *)
Definition resume (t : task_id) (w : world) : world :=
  match nth_error (tasks w) t with
  | None => w
  | Some (mkTcb (Finished _) _) => w
  | Some (mkTcb (Ready c) cancel) =>
      if cancel then put_task t (Finished Cancelled) w else run_task t c w
  | Some (mkTcb (Blocked a res k) cancel) =>
      if cancel then run_task t (k (Some CancelledError)) w
      else match a with
           | ATask t' =>
               match task_state t' w with
               | Some (Finished o) => run_task t (k (await_result o)) w
               | _ => w
               end
           | _ => run_task t (k res) w
           end
  end.

(** A caller outside the engine (the GUI, the CLI) hands a coroutine to
    the loop, or the loop gives a task its turn. *)
Inductive action : Type :=
| Invoke (c : coro unit)
| Step (t : task_id).

Definition act (a : action) (w : world) : world :=
  match a with
  | Invoke c => with_tasks (tasks w ++ [mkTcb (Ready c) false]) w
  | Step t => resume t w
  end.

Definition exec (schedule : list action) (w : world) : world :=
  fold_left (fun w a => act a w) schedule w.

End EventLoop.

(** A device that is connected (or not) and a controller fresh from
    [__init__]; no task yet. *)
Definition boot (is_connected : bool) : world :=
  mkWorld __init__ is_connected [] [] 0 0.

(** The device calls in a trace, in order. *)
Definition calls (tr : list (task_id * event)) : list dev_op :=
  flat_map (fun te => match snd te with Called op => [op] | _ => [] end) tr.

(** The device calls made by task [t]. *)
Definition calls_of (t : task_id) (tr : list (task_id * event)) : list dev_op :=
  calls (filter (fun te => Nat.eqb (fst te) t) tr).

Definition outcome_of (t : task_id) (w : world) : option outcome :=
  match task_state t w with
  | Some (Finished o) => Some o
  | _ => None
  end.

(** The tasks that are not done. *)
Definition live (w : world) : list task_id :=
  filter (fun t => negb (task_done t w)) (seq 0 (List.length (tasks w))).

(** A call of a plain [def] method (one that never awaits): its result or
    the exception it raises, and the world after it. *)
Fixpoint call_sync {R : Type} (E : env) (me : task_id) (c : coro R) (w : world)
    : option (world * (R + exn)) :=
  match c with
  | Ret r => Some (w, inl r)
  | Raise e => Some (w, inr e)
  | Do i k => let (w', x) := perform E me i w in call_sync E me (k x) w'
  | Await _ _ => None
  | OutOfFuel => None
  end.

(** ** The specification's vocabulary *)

(** The A-channel domain: {0} when the configured min is 0, the forward
    sub-range and the reverse sub-range. *)
Definition in_A_domain (min_val max_val v : Z) : Prop :=
  (min_val = 0 /\ v = 0)
  \/ Z.max 1 min_val <= v <= Z.min 20 max_val
  \/ Z.max 21 min_val <= v <= Z.min 40 max_val.

(** The per-channel range invariant of ChannelLimits. *)
Definition pair_ok (channel : string) (min_val max_val : Z) : Prop :=
  0 <= min_val <= max_val /\ max_val <= (if String.eqb channel "A" then 40 else 20).

(** ** Sample environments and inputs *)

(** A clock that reads [n] seconds at the [n]-th event. *)
Definition seconds (n : nat) : float := of_uint63 (Uint63.of_Z (Z.of_nat n)).

(** A link that never fails; raw draw [5 n + 3] at the [n]-th draw. *)
Definition steady (fuel : nat) : env :=
  mkEnv (fun n => 5 * n + 3)%nat (fun _ => 0.5%float) (fun _ => true) seconds fuel.

(** The limits of the module's first usage example. *)
Definition example_limits : limits_t :=
  [("A", (0, 15)); ("B", (1, 10)); ("C", (0, 8))].

(** ** Policies: what every run of the engine keeps

    A policy says what may hold of the controller whenever a task gives up
    the loop, which device calls may be made, which exceptions may leave a
    task, and whether tasks may return, be created or be cancelled.  [wp]
    is the condition on a coroutine body, started with the controller in
    state [s] and run to its end whatever the other tasks, the random
    source and the link do in between, under which it meets the policy. *)

Record policy := mkPolicy {
  inv : controller -> Prop;
  call_ok : dev_op -> Prop;
  raise_ok : exn -> Prop;
  done_ok : Prop;
  spawn_ok : Prop;
  cancel_ok : task_id -> Prop
}.

Definition result_ok (P : policy) (a : awaitable) (r : option exn) : Prop :=
  match r with
  | None => True
  | Some e =>
      e = CancelledError \/
      match a with
      | Device op => device_check op = Some e \/ e = RuntimeError \/ e = BleakError
      | ASleep _ => False
      | ATask _ => raise_ok P e
      end
  end.

Fixpoint wp (P : policy) {R : Type} (c : coro R)
    (Q : controller -> R -> Prop) (X : controller -> exn -> Prop)
    (s : controller) {struct c} : Prop :=
  match c with
  | Ret r => Q s r
  | Raise e => X s e
  | OutOfFuel => inv P s
  | Do i k =>
      match i in instant T return (T -> coro R) -> Prop with
      | GetSelf => fun k => wp P (k s) Q X s
      | Update f => fun k => wp P (k tt) Q X (f s)
      | RandBelow n => fun k => forall x, (n <> O -> (x < n)%nat) -> wp P (k x) Q X s
      | Random => fun k =>
          forall u, ((0 <=? u) && (u <? 1))%float = true -> wp P (k u) Q X s
      | Logger _ _ => fun k => wp P (k tt) Q X s
      | CreateTask => fun k => spawn_ok P /\ forall t, wp P (k t) Q X s
      | TaskDone _ => fun k => forall b, wp P (k b) Q X s
      | TaskCancel t => fun k => cancel_ok P t /\ wp P (k tt) Q X s
      | LoopTime => fun k => forall q, wp P (k q) Q X s
      end k
  | Await a k =>
      inv P s
      /\ match a with Device op => call_ok P op | _ => True end
      /\ forall r s', inv P s' -> result_ok P a r -> wp P (k r) Q X s'
  end.

Definition task_post (P : policy) : controller -> unit -> Prop :=
  fun s _ => inv P s /\ done_ok P.
Definition task_exn (P : policy) : controller -> exn -> Prop :=
  fun s e => inv P s /\ (e = CancelledError \/ raise_ok P e).
Definition task_wp (P : policy) (c : coro unit) (s : controller) : Prop :=
  wp P c (task_post P) (task_exn P) s.

Definition tstate_ok (P : policy) (st : tstate) : Prop :=
  match st with
  | Ready c => forall s, inv P s -> task_wp P c s
  | Blocked a res k =>
      result_ok P a res /\ forall r s, inv P s -> result_ok P a r -> task_wp P (k r) s
  | Finished (Failed e) => raise_ok P e
  | Finished _ => True
  end.

(** The state a task is left in by a turn: as [tstate_ok], and it has
    returned only if the policy lets tasks return. *)
Definition turn_ok (P : policy) (st : tstate) : Prop :=
  match st with
  | Finished Done => done_ok P
  | _ => tstate_ok P st
  end.

(** Every task but [me] is in a state the policy accepts. *)
Definition others_ok (P : policy) (me : task_id) (w : world) : Prop :=
  forall t tc, t <> me -> nth_error (tasks w) t = Some tc -> tstate_ok P (state tc).

Definition tasks_ok (P : policy) (w : world) : Prop :=
  forall t tc, nth_error (tasks w) t = Some tc -> tstate_ok P (state tc).

Definition unfinished (t : task_id) (w : world) : Prop :=
  forall o, task_state t w <> Some (Finished o).

Definition calls_ok (P : policy) (w : world) : Prop :=
  Forall (call_ok P) (calls (trace w)).

Definition winv (P : policy) (w : world) : Prop :=
  inv P (ctl w) /\ tasks_ok P w /\ calls_ok P w.

(** What a turn may do to the task table: states stay, [cancel()] may be
    requested of the tasks the policy allows, new tasks are ready to run,
    and there are new tasks only if the policy allows. *)
Definition frame (P : policy) (w w' : world) : Prop :=
  (forall t tc, nth_error (tasks w) t = Some tc ->
     exists tc', nth_error (tasks w') t = Some tc' /\ state tc' = state tc
       /\ (must_cancel tc' = must_cancel tc \/ cancel_ok P t))
  /\ (forall t tc, nth_error (tasks w) t = None -> nth_error (tasks w') t = Some tc ->
       exists c, state tc = Ready c)
  /\ (~ spawn_ok P -> List.length (tasks w') = List.length (tasks w))
  /\ connected w' = connected w.

(** [frame] for every task but [me]. *)
Definition frame_but (P : policy) (me : task_id) (w w' : world) : Prop :=
  (forall t tc, t <> me -> nth_error (tasks w) t = Some tc ->
     exists tc', nth_error (tasks w') t = Some tc' /\ state tc' = state tc
       /\ (must_cancel tc' = must_cancel tc \/ cancel_ok P t))
  /\ (forall t tc, t <> me -> nth_error (tasks w) t = None ->
       nth_error (tasks w') t = Some tc -> exists c, state tc = Ready c)
  /\ (~ spawn_ok P -> List.length (tasks w') = List.length (tasks w))
  /\ connected w' = connected w.

(** In Mode mode: only [set_mode] calls with a value from 1 to 7. *)
Definition mode_call (op : dev_op) : Prop :=
  exists channel v, op = set_mode channel v /\ In channel ["A"; "B"; "C"] /\ 1 <= v <= 7.

Definition mode_policy : policy :=
  {| inv := fun s => mode s = Some "mode";
     call_ok := mode_call;
     raise_ok := fun _ => True;
     done_ok := True;
     spawn_ok := True;
     cancel_ok := fun _ => False |}.

(** A [ValueError] raised by the parameter checks of [start]. *)
Definition is_validation_error (e : exn) : Prop :=
  match e with
  | ValueError BadMode | ValueError MissingChannel
  | ValueError BadLimitsA | ValueError (BadLimits _) => True
  | _ => False
  end.

(** When [start] refuses its parameters: the mode is neither 'speed' nor
    'mode', or one of A, B, C has no entry in [limits], or some entry of
    [limits], under whatever key, breaks the range invariant. *)
Definition start_rejects (m : string) (l : limits_t) : Prop :=
  (m <> "speed" /\ m <> "mode")
  \/ (exists channel, In channel ["A"; "B"; "C"] /\ dict_get channel l = None)
  \/ (exists channel min_val max_val,
        In (channel, (min_val, max_val)) l /\ ~ pair_ok channel min_val max_val).

(** No [ValueError] leaves a task. *)
Definition no_value_error : policy :=
  {| inv := fun _ => True;
     call_ok := fun _ => True;
     raise_ok := fun e => forall m, e <> ValueError m;
     done_ok := True;
     spawn_ok := True;
     cancel_ok := fun _ => True |}.

(** The zero-command sequence of [stop], by the mode stored in the
    controller. *)
Definition zero_calls (self : controller) : list dev_op :=
  if mode_is self "speed"
  then [set_speed "A" 0; set_speed "B" 0; set_speed "C" 0]
  else [set_mode "A" 0; set_mode "B" 0; set_mode "C" 0].


(** What a device call with accepted arguments gives in world [w]:
    RuntimeError at once when the device is not connected, else what
    becomes of the BLE write ([None]: it goes through). *)
Definition write_result (E : env) (w : world) : option exn :=
  if connected w then (if link_ok E (writes w) then None else Some BleakError)
  else Some RuntimeError.

(** The zero commands of [stop] in world [w]: how many of the three are
    issued, and how the call ends.  The first command that fails is the
    last one issued, and its exception leaves [stop]. *)
Definition zeroing (E : env) (w : world) : nat * outcome :=
  if connected w then
    if link_ok E (writes w) then
      if link_ok E (S (writes w)) then
        if link_ok E (S (S (writes w))) then (3%nat, Done)
        else (3%nat, Failed BleakError)
      else (2%nat, Failed BleakError)
    else (1%nat, Failed BleakError)
  else (1%nat, Failed RuntimeError).

(** A link on which only the [n]-th BLE write fails. *)
Definition fails_at (n : nat) (fuel : nat) : env :=
  mkEnv (fun n => 5 * n + 3)%nat (fun _ => 0.5%float) (fun k => negb (Nat.eqb k n))
        seconds fuel.

(** Valid limits with a channel beyond A, B and C. *)
Definition four_channels : limits_t :=
  [("A", (0, 20)); ("B", (1, 20)); ("C", (0, 20)); ("D", (0, 5))].

(** [limits] has an entry for A, B and C and for nothing else. *)
Definition exactly_ABC (l : limits_t) : Prop :=
  forall channel, dict_get channel l <> None <-> In channel ["A"; "B"; "C"].

(** A Speed session with the loop in its first hold. *)
Definition first_session : list action :=
  [Invoke (start "speed" example_limits true); Step 0; Step 1; Step 1; Step 1; Step 1]%nat.

(** Then [start] in Mode mode, run to its end, and the new loop's first
    turn. *)
Definition second_start : list action :=
  [Invoke (start "mode" example_limits true); Step 2; Step 1; Step 2; Step 2; Step 2; Step 2;
   Step 3]%nat.

(** [stop] handed to the loop as task [t] and run to its end. *)
Definition call_stop (t : task_id) : list action :=
  [Invoke stop; Step t; Step t; Step t; Step t].

(** A single-shot Speed session, the call [start] being task 0, as far as
    its 10-second hold. *)
Definition single_shot_holding : list action :=
  [Invoke (start "speed" example_limits false); Step 0; Step 0; Step 0; Step 0]%nat.

(** A Speed session through its first cycle and into the second. *)
Definition one_cycle : list action :=
  [Invoke (start "speed" example_limits true);
   Step 0; Step 1; Step 1; Step 1; Step 1; Step 1; Step 1]%nat.
(** The value [_generate_random_value] picks for a channel with limits
    [(min_val, max_val)] that leave it a choice, from the raw draw. *)
Definition drawn (channel : string) (min_val max_val : Z) (raw : nat) : Z :=
  let possible := possible_values channel min_val max_val [] in
  nth (below (List.length possible) raw) possible 0.

(** What one pass of the loop adds to the trace in Speed mode when no write
    fails: the three channel writes (A, C, B), the hold, the release. *)
Definition speed_cycle_events (m : option string) (a b c : Z) (hold : float) : list event :=
  [Logged INFO (NewRound m);
   Called (set_speed "A" a); Called (set_speed "C" c); Called (set_speed "B" b);
   Logged INFO (SpeedSet a b c);
   Logged INFO (Holding hold); Slept hold;
   Logged INFO CycleEndExhale;
   Logged DEBUG (ExhaleBegin (exhale_duration hold));
   Called (set_speed "B" 0); Slept (exhale_duration hold)].

(** A Speed session about to make a pass of its loop. *)
Definition cycle_start : world :=
  mkWorld (set_is_running true (set_session "speed" example_limits true __init__))
          true [mkTcb (Ready (loop_iteration ;; while_running 0)) false] [] 0 0.


(** What a pass of the loop adds to the trace in Speed mode when only the
    release write fails, with [e]: no sleep follows the failure. *)
Definition failed_release_events (m : option string) (a b c : Z) (hold : float) (e : exn)
    : list event :=
  [Logged INFO (NewRound m);
   Called (set_speed "A" a); Called (set_speed "C" c); Called (set_speed "B" b);
   Logged INFO (SpeedSet a b c);
   Logged INFO (Holding hold); Slept hold;
   Logged INFO CycleEndExhale;
   Logged DEBUG (ExhaleBegin (exhale_duration hold));
   Called (set_speed "B" 0);
   Logged ERROR (ExhaleCycleFailed e)].



(** What a cycle in Mode mode adds to the trace when no write fails. *)
Definition mode_cycle_events (a b c : Z) : list event :=
  [Called (set_mode "A" a); Logged DEBUG (ModeSet "A" a);
   Called (set_mode "B" b); Logged DEBUG (ModeSet "B" b);
   Called (set_mode "C" c); Logged DEBUG (ModeSet "C" c)].




(** The value [random.randint(1, 7)] gives, from the raw draw. *)
Definition drawn_mode (raw : nat) : Z := 1 + Z.of_nat (below (Z.to_nat (7 - 1 + 1)) raw).
(** The controller keeps task 1 as its loop task and has no release timer;
    no task is created, and only task 1 is asked to cancel. *)
Definition cancels_loop_only : policy :=
  {| inv := fun s => task s = Some 1%nat /\ b_channel_timer s = None;
     call_ok := fun _ => True;
     raise_ok := fun _ => True;
     done_ok := True;
     spawn_ok := False;
     cancel_ok := fun t => t = 1%nat |}.

(** An auto-loop session: [start] is task 0 and runs to its end, which
    makes the loop task 1; the loop gives the turns [before]; [stop] is
    called, as task 2; the loop gives the turns [after]. *)
Definition stopped_session (m : string) (l : limits_t) (before after : list task_id)
    : list action :=
  ([Invoke (start m l true); Step 0%nat] ++ map Step before
   ++ [Invoke stop] ++ map Step after)%list.

(** [stop], task 2, has not got past the loop task: it has not had a turn
    yet, or it waits for task 1. *)
Definition stop_waits (w : world) : Prop :=
  nth_error (tasks w) 2 = Some (mkTcb (Ready stop) false)
  \/ exists res k, nth_error (tasks w) 2 = Some (mkTcb (Blocked (ATask 1%nat) res k) false).

(** What holds from the call of [stop] on: three tasks, [start] done, and
    the loop task done unless [stop] has not got past it. *)
Definition stopping (w : world) : Prop :=
  winv cancels_loop_only w
  /\ List.length (tasks w) = 3%nat
  /\ task_done 0%nat w = true
  /\ (task_done 1%nat w = true \/ stop_waits w).

(** ** The device in detail ([core/ycy_fjb.py])

    [YCY_FJB_Device] with its fields and the frames it hands to the BLE
    client.  The bleak scanner and client are outside the program: what
    they answer is read off oracles, and a notification is handled between
    two calls or during the wait of [get_device_info].  Console output
    ([print]) is not modelled. *)

Module FJB.

(** [calculate_checksum] *)
Definition calculate_checksum (data : list Z) : Z := fold_left Z.add data 0 mod 256.

(** [bytes(data)]: a ValueError unless every item is in range(256). *)
Definition bytes (data : list Z) : option (list Z) :=
  if forallb (fun x => (0 <=? x) && (x <? 256)) data then Some data else None.

(** How a method of the device can fail: with an exception the engine
    knows, or with one of three the engine's model has no name for. *)
Inductive failure : Type :=
| Exn (e : exn)
| BytesRange      (* ValueError of [bytes]: an item outside range(256) *)
| NoMotorCode     (* ValueError of _send_mode_control: motor is not A, B or C *)
| NoClient.       (* AttributeError: [self.client] is None *)

(** The dict stored in [device_info]. *)
Record info := mkInfo {
  product_id : Z;
  version : Z;
  a_modes : Z;
  b_modes : Z;
  c_modes : Z
}.

(** The fields of [YCY_FJB_Device]; [client] is None or a BleakClient with
    what its [is_connected] says, [battery_callback] whether a callback is
    installed.  The last three fields record what the object did: the
    frames handed to [write_gatt_char], whether [start_notify] was called,
    and the arguments of the calls of the battery callback. *)
Record device := mkDevice {
  device_name : string;
  client : option bool;
  device_info : option info;
  current_levels : list (string * Z);
  battery_level : option Z;
  _connected : bool;
  battery_callback : bool;
  written : list (list Z);
  notifying : bool;
  reported : list Z
}.

(** [YCY_FJB_Device.__init__] *)
Definition __init__ (name : string) : device :=
  {| device_name := name;
     client := None;
     device_info := None;
     current_levels := [("A", 0); ("B", 0); ("C", 0)];
     battery_level := None;
     _connected := false;
     battery_callback := false;
     written := [];
     notifying := false;
     reported := [] |}.

Definition set_client (c : option bool) (self : device) : device :=
  {| device_name := device_name self; client := c; device_info := device_info self;
     current_levels := current_levels self; battery_level := battery_level self;
     _connected := _connected self; battery_callback := battery_callback self;
     written := written self; notifying := notifying self; reported := reported self |}.

Definition set_device_info (i : option info) (self : device) : device :=
  {| device_name := device_name self; client := client self; device_info := i;
     current_levels := current_levels self; battery_level := battery_level self;
     _connected := _connected self; battery_callback := battery_callback self;
     written := written self; notifying := notifying self; reported := reported self |}.

Definition set_current_levels (l : list (string * Z)) (self : device) : device :=
  {| device_name := device_name self; client := client self;
     device_info := device_info self;
     current_levels := l; battery_level := battery_level self;
     _connected := _connected self; battery_callback := battery_callback self;
     written := written self; notifying := notifying self; reported := reported self |}.

Definition set_battery_level (b : option Z) (self : device) : device :=
  {| device_name := device_name self; client := client self;
     device_info := device_info self;
     current_levels := current_levels self; battery_level := b;
     _connected := _connected self; battery_callback := battery_callback self;
     written := written self; notifying := notifying self; reported := reported self |}.

Definition set__connected (b : bool) (self : device) : device :=
  {| device_name := device_name self; client := client self;
     device_info := device_info self;
     current_levels := current_levels self; battery_level := battery_level self;
     _connected := b; battery_callback := battery_callback self;
     written := written self; notifying := notifying self; reported := reported self |}.

Definition set_battery_callback (b : bool) (self : device) : device :=
  {| device_name := device_name self; client := client self;
     device_info := device_info self;
     current_levels := current_levels self; battery_level := battery_level self;
     _connected := _connected self; battery_callback := b;
     written := written self; notifying := notifying self; reported := reported self |}.

Definition set_written (w : list (list Z)) (self : device) : device :=
  {| device_name := device_name self; client := client self;
     device_info := device_info self;
     current_levels := current_levels self; battery_level := battery_level self;
     _connected := _connected self; battery_callback := battery_callback self;
     written := w; notifying := notifying self; reported := reported self |}.

Definition set_notifying (b : bool) (self : device) : device :=
  {| device_name := device_name self; client := client self;
     device_info := device_info self;
     current_levels := current_levels self; battery_level := battery_level self;
     _connected := _connected self; battery_callback := battery_callback self;
     written := written self; notifying := b; reported := reported self |}.

Definition set_reported (r : list Z) (self : device) : device :=
  {| device_name := device_name self; client := client self;
     device_info := device_info self;
     current_levels := current_levels self; battery_level := battery_level self;
     _connected := _connected self; battery_callback := battery_callback self;
     written := written self; notifying := notifying self; reported := r |}.

(** [levels[motor]] *)
Fixpoint level_get (motor : string) (levels : list (string * Z)) : option Z :=
  match levels with
  | [] => None
  | (k, v) :: rest => if String.eqb k motor then Some v else level_get motor rest
  end.

(** [levels[motor] = level]: the entry is replaced where it stands, or
    added at the end. *)
Fixpoint level_set (motor : string) (level : Z) (levels : list (string * Z))
    : list (string * Z) :=
  match levels with
  | [] => [(motor, level)]
  | (k, v) :: rest =>
      if String.eqb k motor then (k, level) :: rest
      else (k, v) :: level_set motor level rest
  end.

(** A method body: it reads and changes the fields, and returns or
    raises. *)
Definition io (A : Type) : Type := device -> device * (A + failure).

Definition ret {A : Type} (a : A) : io A := fun self => (self, inl a).

Definition raise {A : Type} (f : failure) : io A := fun self => (self, inr f).

Definition bind {A B : Type} (c : io A) (k : A -> io B) : io B :=
  fun self =>
    match c self with
    | (self', inl a) => k a self'
    | (self', inr f) => (self', inr f)
    end.

Definition get : io device := fun self => (self, inl self).

Definition modify (f : device -> device) : io unit := fun self => (f self, inl tt).

Declare Scope io_scope.
Delimit Scope io_scope with io.
Notation "x <- c ;; k" := (bind c (fun x => k))
  (at level 61, c at next level, right associativity) : io_scope.
Notation "c ;; k" := (bind c (fun _ => k))
  (at level 61, right associativity) : io_scope.
Local Open Scope io_scope.

(** [self.current_levels[motor]] *)
Definition level (motor : string) : io Z :=
  self <- get ;;
  match level_get motor (current_levels self) with
  | Some v => ret v
  | None => raise (Exn (KeyError motor))
  end.

(** [await self.client.write_gatt_char(WRITE_CHAR_UUID, bytes(data))]:
    [link k] says whether the [k]-th write of the client goes through. *)
Definition write_gatt_char (link : nat -> bool) (data : list Z) : io unit :=
  self <- get ;;
  match client self with
  | None => raise NoClient
  | Some _ =>
      match bytes data with
      | None => raise BytesRange
      | Some frame =>
          modify (set_written (written self ++ [frame])%list) ;;
          if link (List.length (written self)) then ret tt else raise (Exn BleakError)
      end
  end.

(** [YCY_FJB_Device.notification_handler]; the indices are within the
    list by the length tests that come first. *)
Definition notification_handler (data : list Z) (self : device) : device :=
  let data_list := data in
  if (List.length data_list <? 3)%nat || negb (nth 0 data_list 0 =? 0x35) then self
  else
    let cmd := nth 1 data_list 0 in
    let checksum := last data_list 0 in
    if negb (checksum =? calculate_checksum (removelast data_list)) then self
    else if cmd =? 0x10 then
      if (List.length data_list =? 10)%nat then
        set_device_info
          (Some {| product_id := nth 2 data_list 0;
                   version := nth 3 data_list 0;
                   a_modes := nth 4 data_list 0;
                   b_modes := nth 5 data_list 0;
                   c_modes := nth 6 data_list 0 |}) self
      else self
    else if cmd =? 0x13 then
      if (List.length data_list =? 5)%nat && (nth 2 data_list 0 =? 0x01) then
        let battery := nth 3 data_list 0 in
        let self := set_battery_level (Some battery) self in
        if battery_callback self then set_reported (reported self ++ [battery])%list self
        else self
      else self
    else self.

(** [YCY_FJB_Device._send_speed_control] *)
Definition _send_speed_control (link : nat -> bool) : io unit :=
  self <- get ;;
  if negb (_connected self) then raise (Exn RuntimeError)
  else
    let header := 0x35 in
    let cmd := 0x12 in
    a_level <- level "A" ;;
    b_level <- level "B" ;;
    c_level <- level "C" ;;
    let data := [header; cmd; a_level; b_level; c_level] in
    let checksum := calculate_checksum data in
    let data := (data ++ [checksum])%list in
    write_gatt_char link data.

(** [YCY_FJB_Device._send_mode_control] *)
Definition _send_mode_control (link : nat -> bool) (motor : string) (mode_value : Z)
    : io unit :=
  self <- get ;;
  if negb (_connected self) then raise (Exn RuntimeError)
  else
    let header := 0x35 in
    let cmd := 0x11 in
    motor_code <-
      (if String.eqb motor "A" then ret 0x01
       else if String.eqb motor "B" then ret 0x12
       else if String.eqb motor "C" then ret 0x14
       else raise NoMotorCode) ;;
    let data := [header; cmd; motor_code; mode_value] in
    let checksum := calculate_checksum data in
    let data := (data ++ [checksum])%list in
    write_gatt_char link data.

(** [YCY_FJB_Device.set_speed] *)
Definition set_speed (link : nat -> bool) (motor : string) (level : Z) : io unit :=
  if negb (str_in motor ["A"; "B"; "C"]) then raise (Exn (ValueError BadMotor))
  else
    (if String.eqb motor "A" then
       if negb ((0 <=? level) && (level <=? 40))
       then raise (Exn (ValueError (BadLevel "A")))
       else ret tt
     else
       if negb ((0 <=? level) && (level <=? 20))
       then raise (Exn (ValueError (BadLevel motor)))
       else ret tt) ;;
    self <- get ;;
    modify (set_current_levels (level_set motor level (current_levels self))) ;;
    _send_speed_control link.

(** [YCY_FJB_Device.set_mode] *)
Definition set_mode (link : nat -> bool) (motor : string) (mode_value : Z) : io unit :=
  if negb (str_in motor ["A"; "B"; "C"]) then raise (Exn (ValueError BadMotor))
  else if negb ((0 <=? mode_value) && (mode_value <=? 7))
  then raise (Exn (ValueError BadModeValue))
  else _send_mode_control link motor mode_value.

(** [YCY_FJB_Device.connect].  [devices] is what [BleakScanner.discover]
    returns (name and address of each device) or raises; [handshake] what
    [client.connect()] raises, or what [client.is_connected] says after it;
    [notify] what [client.start_notify] raises, if anything. *)
Definition connect (devices : exn + list (option string * string))
    (handshake : exn + bool) (notify : option exn) : io bool :=
  match devices with
  | inl e => raise (Exn e)
  | inr devices =>
      self <- get ;;
      let named (d : option string * string) :=
        match fst d with
        | Some name => String.eqb name (device_name self)
        | None => false
        end in
      match find named devices with
      | None => ret false
      | Some target_device =>
          modify (set_client (Some false)) ;;
          match handshake with
          | inl e => raise (Exn e)
          | inr is_connected =>
              modify (set_client (Some is_connected)) ;;
              if negb is_connected then ret false
              else
                match notify with
                | Some e => raise (Exn e)
                | None =>
                    modify (set_notifying true) ;;
                    modify (set__connected true) ;;
                    ret true
                end
          end
      end
  end.

(** [YCY_FJB_Device.disconnect]; [hangup] is what [client.disconnect()]
    raises, if anything. *)
Definition disconnect (link : nat -> bool) (hangup : option exn) : io unit :=
  self <- get ;;
  (match client self with
   | Some true =>
       set_speed link "A" 0 ;;
       set_speed link "B" 0 ;;
       set_speed link "C" 0 ;;
       set_mode link "A" 0 ;;
       set_mode link "B" 0 ;;
       set_mode link "C" 0 ;;
       match hangup with
       | Some e => raise (Exn e)
       | None => modify (set_client (Some false))
       end
   | _ => ret tt
   end) ;;
  modify (set__connected false).

(** [YCY_FJB_Device.get_device_info]; [arrivals] are the notifications
    that come in during the 2-second wait. *)
Definition get_device_info (link : nat -> bool) (arrivals : list (list Z))
    : io (option info) :=
  self <- get ;;
  if negb (_connected self) then ret None
  else
    let header := 0x35 in
    let cmd := 0x10 in
    let data := [header; cmd] in
    let checksum := calculate_checksum data in
    let data := (data ++ [checksum])%list in
    write_gatt_char link data ;;
    modify (fun self => fold_left (fun self data => notification_handler data self)
                          arrivals self) ;;
    self <- get ;;
    ret (device_info self).

(** [YCY_FJB_Device.get_battery] *)
Definition get_battery : io (option Z) :=
  self <- get ;;
  if negb (_connected self) then ret None
  else ret (battery_level self).

(** [YCY_FJB_Device.is_connected] *)
Definition is_connected (self : device) : bool := _connected self.

(** What every device reachable from [__init__] satisfies: the levels of
    A, B and C are stored, each within its range, and a device that says
    it is connected has a client. *)
Definition well_formed (self : device) : Prop :=
  (exists a b c,
     current_levels self = [("A", a); ("B", b); ("C", c)]
     /\ 0 <= a <= 40 /\ 0 <= b <= 20 /\ 0 <= c <= 20)
  /\ (_connected self = true -> client self <> None).

(** The code of a motor in a mode frame. *)
Definition motor_code (motor : string) : Z :=
  if String.eqb motor "A" then 0x01
  else if String.eqb motor "B" then 0x12
  else 0x14.

(** A frame: the data closed by its checksum. *)
Definition framed (data : list Z) : list Z := (data ++ [calculate_checksum data])%list.

End FJB.

(** What the engine's model of a device call ([run] at [Device op]) says
    the call does, for a device whose link state is [is_connected] and
    whose next write goes through or not. *)
Definition engine_view (op : dev_op) (is_connected next_write_ok : bool)
    : option exn :=
  match device_check op with
  | Some e => Some e
  | None =>
      if is_connected then (if next_write_ok then None else Some BleakError)
      else Some RuntimeError
  end.

(** The same call made of the device. *)
Definition perform_op (link : nat -> bool) (op : dev_op) : FJB.io unit :=
  match op with
  | set_speed motor level => FJB.set_speed link motor level
  | set_mode motor mode_value => FJB.set_mode link motor mode_value
  end.

(** A device named as the default one, after a [connect] that found it. *)
Definition linked_device : FJB.device :=
  fst (FJB.connect (inr [(Some "YCY-FJB-03", "AA:BB")]) (inr true) None
         (FJB.__init__ "YCY-FJB-03")).

(** ** More of the engine's vocabulary *)

(** A device call of a Speed session with limits [l]: set_speed on A, B or
    C with a level the device accepts, within the limits of the channel or,
    on B, the 0 of a release. *)
Definition speed_call (l : limits_t) (op : dev_op) : Prop :=
  exists channel v min_val max_val,
    op = set_speed channel v
    /\ In channel ["A"; "B"; "C"]
    /\ dict_get channel l = Some (min_val, max_val)
    /\ (min_val <= v <= max_val \/ (channel = "B" /\ v = 0))
    /\ device_check op = None.

(** Limits with a pair for each of A, B and C that keeps the range
    invariant. *)
Definition limits_ok (l : limits_t) : Prop :=
  forall channel, In channel ["A"; "B"; "C"] ->
    exists min_val max_val,
      dict_get channel l = Some (min_val, max_val) /\ pair_ok channel min_val max_val.

Definition speed_policy (l : limits_t) : policy :=
  {| inv := fun s => mode s = Some "speed" /\ limits s = l;
     call_ok := speed_call l;
     raise_ok := fun _ => True;
     done_ok := True;
     spawn_ok := True;
     cancel_ok := fun _ => False |}.

(** What the outside does in a run: it calls [start] or [stop], or the
    loop gives a task its turn. *)
Definition api_action (a : action) : Prop :=
  match a with
  | Invoke c => c = stop \/ exists m l al, c = start m l al
  | Step _ => True
  end.

(** The stored limits keep the range invariant, no release timer is
    stored, and the device accepts the arguments of every call. *)
Definition api_policy : policy :=
  {| inv := fun s => limits_ok (limits s) /\ b_channel_timer s = None;
     call_ok := fun op => device_check op = None;
     raise_ok := fun _ => True;
     done_ok := True;
     spawn_ok := True;
     cancel_ok := fun _ => True |}.

(** ** The callers ([ControlPanel.py], [YCYControlGUI.py]) *)

(** The limits [handle_random_control] passes. *)
Definition panel_limits : limits_t := [("A", (0, 20)); ("B", (0, 15)); ("C", (0, 10))].

(** One pass of the loop of [ControlPanel.handle_random_control] for a
    command that is 'speed' or 'mode': a new controller, [start], then
    [input()], which waits for Enter without giving up the event loop,
    then [stop].  Console input and output are not modelled. *)
Definition random_control_round (cmd : string) : coro unit :=
  do (Update (fun _ => __init__)) ;;
  start cmd panel_limits true ;;
  stop.

(** The part of [YCYControlGUI] that stores the basic configuration and
    hands parameters to the engine and the device.  Widgets, message
    boxes and timestamps are not modelled. *)
Module GUI.

(** [d[key]] *)
Fixpoint lookup {V : Type} (key : string) (d : list (string * V)) : option V :=
  match d with
  | [] => None
  | (k, v) :: rest => if String.eqb k key then Some v else lookup key rest
  end.

(** [d[key] = value] *)
Fixpoint store {V : Type} (key : string) (value : V) (d : list (string * V))
    : list (string * V) :=
  match d with
  | [] => [(key, value)]
  | (k, v) :: rest =>
      if String.eqb k key then (k, value) :: rest else (k, v) :: store key value rest
  end.

(** [is_connected], [basic_config['speed']], [basic_config['mode']] and the
    ['type'] of each entry of [last_input]. *)
Record gui := mkGui {
  is_connected : bool;
  speed : list (string * Z);
  mode : list (string * Z);
  last_input : list (string * option string)
}.

(** [YCYControlGUI.__init__] *)
Definition __init__ : gui :=
  {| is_connected := false;
     speed := [("A", 0); ("B", 0); ("C", 0)];
     mode := [("A", 0); ("B", 0); ("C", 0)];
     last_input := [("A", None); ("B", None); ("C", None)] |}.

(** [YCYControlGUI.on_device_connected] *)
Definition on_device_connected (self : gui) : gui :=
  mkGui true (speed self) (mode self) (last_input self).

(** [YCYControlGUI.on_device_disconnected] *)
Definition on_device_disconnected (self : gui) : gui :=
  mkGui false (speed self) (mode self) (last_input self).

(** [YCYControlGUI.set_speed]: the ValueError of the range test is caught
    and shown; the KeyError of [last_input[channel]] is not. *)
Definition set_speed (channel : string) (value : Z) (self : gui) : gui * option exn :=
  if negb (is_connected self) then (self, None)
  else if (if String.eqb channel "A" then negb ((0 <=? value) && (value <=? 40))
           else negb ((0 <=? value) && (value <=? 20)))
  then (self, None)
  else
    let self := mkGui (is_connected self) (store channel value (speed self)) (mode self)
                  (last_input self) in
    match lookup channel (last_input self) with
    | None => (self, Some (KeyError channel))
    | Some _ =>
        (mkGui (is_connected self) (speed self) (mode self)
           (store channel (Some "speed") (last_input self)), None)
    end.

(** [YCYControlGUI.set_mode] *)
Definition set_mode (channel : string) (value : Z) (self : gui) : gui * option exn :=
  if negb (is_connected self) then (self, None)
  else if negb ((0 <=? value) && (value <=? 7)) then (self, None)
  else
    let self := mkGui (is_connected self) (speed self) (store channel value (mode self))
                  (last_input self) in
    match lookup channel (last_input self) with
    | None => (self, Some (KeyError channel))
    | Some _ =>
        (mkGui (is_connected self) (speed self) (mode self)
           (store channel (Some "mode") (last_input self)), None)
    end.

End GUI.

(** What [do_start] of [start_basic_control] sends for a channel, by the
    stored speed, the stored mode and the type of the last input. *)
Definition basic_command (channel : string) (speed_value mode_value : Z)
    (last_type : option string) : option dev_op :=
  if negb (speed_value =? 0) && negb (mode_value =? 0) then
    match last_type with
    | Some t =>
        if String.eqb t "speed" then Some (set_speed channel speed_value)
        else if String.eqb t "mode" then Some (set_mode channel mode_value)
        else Some (set_speed channel speed_value)
    | None => Some (set_speed channel speed_value)
    end
  else if negb (speed_value =? 0) then Some (set_speed channel speed_value)
  else if negb (mode_value =? 0) then Some (set_mode channel mode_value)
  else None.

(** One pass of the loop of [do_start] over A, B and C. *)
Definition basic_pass (self : GUI.gui) (channel : string) : coro unit :=
  match GUI.lookup channel (GUI.speed self) with
  | None => Raise (KeyError channel)
  | Some speed_value =>
      match GUI.lookup channel (GUI.mode self) with
      | None => Raise (KeyError channel)
      | Some mode_value =>
          match GUI.lookup channel (GUI.last_input self) with
          | None => Raise (KeyError channel)
          | Some last_type =>
              match basic_command channel speed_value mode_value last_type with
              | Some op => await (Device op)
              | None => pass
              end
          end
      end
  end.

(** [do_start] of [YCYControlGUI.start_basic_control], for the
    configuration stored in [self]. *)
Definition do_start (self : GUI.gui) : coro unit :=
  basic_pass self "A" ;; basic_pass self "B" ;; basic_pass self "C".

(** What the user does at the basic-control panel. *)
Inductive gui_event : Type :=
| Connected
| Disconnected
| SetSpeed (channel : string) (value : Z)
| SetMode (channel : string) (value : Z).

Definition gui_step (self : GUI.gui) (ev : gui_event) : GUI.gui :=
  match ev with
  | Connected => GUI.on_device_connected self
  | Disconnected => GUI.on_device_disconnected self
  | SetSpeed channel value => fst (GUI.set_speed channel value self)
  | SetMode channel value => fst (GUI.set_mode channel value self)
  end.

(** The mode [YCYControlGUI.start_random_control] passes to [start]. *)
Definition gui_mode (m : string) : string :=
  if negb (str_in m ["speed"; "mode"]) then "speed" else m.

(** The limits it builds from the six fields of the form. *)
Definition gui_limits (a_min a_max b_min b_max c_min c_max : Z) : limits_t :=
  [("A", (a_min, a_max)); ("B", (b_min, b_max)); ("C", (c_min, c_max))].

(** Its validation loop: whether a ValueError is raised (and shown). *)
Fixpoint gui_refuses (limits : limits_t) : bool :=
  match limits with
  | [] => false
  | (channel, (min_val, max_val)) :: rest =>
      if String.eqb channel "A" then
        if negb (chain_ok min_val max_val 40) then true else gui_refuses rest
      else
        if negb (chain_ok min_val max_val 20) then true else gui_refuses rest
  end.

(** [YCYControlGUI.start_random_control]: the call of [start] it hands to
    the loop, if any. *)
Definition start_random_control (is_connected : bool) (m : string)
    (a_min a_max b_min b_max c_min c_max : Z) : option (coro unit) :=
  if negb is_connected then None
  else
    let mode := gui_mode m in
    let limits := gui_limits a_min a_max b_min b_max c_min c_max in
    if gui_refuses limits then None
    else Some (start mode limits true).

(** What the stored configuration keeps, channel by channel. *)
Definition stored_ok (self : GUI.gui) (channel : string) : Prop :=
  exists speed_value mode_value last_type,
    GUI.lookup channel (GUI.speed self) = Some speed_value
    /\ GUI.lookup channel (GUI.mode self) = Some mode_value
    /\ GUI.lookup channel (GUI.last_input self) = Some last_type
    /\ 0 <= speed_value <= (if String.eqb channel "A" then 40 else 20)
    /\ 0 <= mode_value <= 7.

(** ** Tactics *)

Ltac wp_simpl :=
  cbn [wp bind try_except do await pass except_Exception except_CancelledError
       is_Exception inv call_ok raise_ok done_ok spawn_ok cancel_ok task_post task_exn
       random_randint random_choice random_uniform negb].

(** Walk a coroutine body: one case per result of each operation. *)
Ltac wp_walk tac :=
  repeat first
    [ progress wp_simpl
    | match goal with
      | |- True => exact I
      | |- ?x = ?x => reflexivity
      | |- _ /\ _ => split
      | |- forall _, _ => intro
      | H : result_ok _ _ ?r |- _ =>
          let e := fresh "e" in
          destruct r as [e|]; [unfold result_ok in H; cbn [raise_ok] in H|clear H]
      | |- task_post _ _ _ => unfold task_post
      | |- task_exn _ _ _ => unfold task_exn
      | H : inv ?P _ |- _ => tryif is_var P then fail else hnf in H
      | |- inv ?P _ => tryif is_var P then fail else hnf
      | |- call_ok ?P _ => tryif is_var P then fail else hnf
      | |- cancel_ok ?P _ => tryif is_var P then fail else hnf
      | |- spawn_ok ?P => tryif is_var P then fail else hnf
      | |- done_ok ?P => tryif is_var P then fail else hnf
      | |- raise_ok ?P _ => tryif is_var P then fail else hnf
      | H : ?e = CancelledError \/ _ |- _ => destruct H as [->|H]
      | H : False |- _ => destruct H
      | |- context [except_Exception _ ?e] => is_var e; destruct e
      | |- context [except_CancelledError _ ?e] => is_var e; destruct e
      end
    | progress tac ].

Ltac known_mode :=
  unfold mode_is;
  match goal with
  | H : mode ?s = Some _ |- context [mode ?s] => rewrite H
  end;
  cbn [String.eqb Ascii.eqb Bool.eqb].

(** Case analysis on what [stop] reads. *)
Ltac wp_cases :=
  match goal with
  | H : _ \/ _ |- _ => destruct H as [H|H]
  | H : device_check _ = Some _ |- _ => discriminate H
  | H : ?e = _ |- _ => is_var e; subst e
  | |- context [match task ?s with _ => _ end] => destruct (task s) eqn:?
  | |- context [match b_channel_timer ?s with _ => _ end] =>
      destruct (b_channel_timer s) eqn:?
  | |- context [if negb ?b then _ else _] => is_var b; destruct b
  | |- context [if mode_is ?s ?m then _ else _] => destruct (mode_is s m) eqn:?
  end.

(** * Properties *)

(** ** Value generation *)

Lemma In_range (a b v : Z) : In v (range a b) <-> a <= v < b.
Proof.
  unfold range. rewrite in_map_iff. split.
  - intros [i [<- Hi]]. apply in_seq in Hi. lia.
  - intros H. exists (Z.to_nat (v - a)). split; [lia|]. apply in_seq. lia.
Qed.

Lemma filter_no_exclusion (l : list Z) : filter (fun v => negb (z_in v [])) l = l.
Proof.
  induction l as [|x l IH]; [reflexivity|].
  cbn [filter]. change (z_in x []) with false. cbn [negb]. f_equal. exact IH.
Qed.

Lemma possible_values_A (min_val max_val v : Z) :
  In v (possible_values "A" min_val max_val []) <-> in_A_domain min_val max_val v.
Proof.
  unfold possible_values, in_A_domain. simpl String.eqb. cbv iota.
  rewrite filter_no_exclusion, !in_app_iff.
  destruct (Z.eqb_spec min_val 0);
  destruct (Z.leb_spec (Z.max 1 min_val) (Z.min 20 max_val));
  destruct (Z.leb_spec (Z.max 21 min_val) (Z.min 40 max_val));
  rewrite ?In_range; simpl; lia.
Qed.

Lemma possible_values_flat (channel : string) (min_val max_val v : Z) :
  String.eqb channel "A" = false ->
  In v (possible_values channel min_val max_val []) <-> min_val <= v <= max_val.
Proof.
  intros H. unfold possible_values. rewrite H, filter_no_exclusion, In_range. lia.
Qed.

Lemma below_lt (n raw : nat) : n <> O -> (below n raw < n)%nat.
Proof. destruct n; [congruence|]. intros _. apply Nat.mod_upper_bound. congruence. Qed.

(** What a call of [_generate_random_value] returns. *)
Lemma generate_random_value_spec (E : env) (me : task_id) (w : world)
    (channel : string) (min_val max_val : Z) :
  dict_get channel (limits (ctl w)) = Some (min_val, max_val) ->
  exists v w',
    call_sync E me (_generate_random_value channel None) w = Some (w', inl v)
    /\ ctl w' = ctl w /\ trace w' = trace w
    /\ match possible_values channel min_val max_val [] with
       | [] => v = min_val
       | _ :: _ => In v (possible_values channel min_val max_val [])
       end.
Proof.
  intros H. unfold _generate_random_value. cbn. rewrite H.
  destruct (possible_values channel min_val max_val []) as [|x xs] eqn:Hp.
  - cbn. eauto 6.
  - cbn -[nth below In]. eexists _, _. split; [reflexivity|]. repeat split.
    apply (nth_In (x :: xs)). apply below_lt. discriminate.
Qed.

(** C5. In Speed mode the value generated for channel A lies in the union of
    {0} (only when min = 0), the forward sub-range [max(1,min), min(20,max)]
    and the reverse sub-range [max(21,min), min(40,max)]: always so for
    limits valid for A, and whenever the union is not empty; when the union
    is empty the generator returns min. *)
Theorem A_value_in_domain (E : env) (me : task_id) (w : world) (min_val max_val : Z) :
  dict_get "A" (limits (ctl w)) = Some (min_val, max_val) ->
  exists v w',
    call_sync E me (_generate_random_value "A" None) w = Some (w', inl v)
    /\ (0 <= min_val <= max_val /\ max_val <= 40 -> in_A_domain min_val max_val v)
    /\ ((exists u, in_A_domain min_val max_val u) -> in_A_domain min_val max_val v)
    /\ ((forall u, ~ in_A_domain min_val max_val u) -> v = min_val).
Proof.
  intros H.
  destruct (generate_random_value_spec E me w "A" min_val max_val H)
    as (v & w' & Hcall & _ & _ & Hv).
  exists v, w'. split; [exact Hcall|].
  assert (Hsome : (exists u, in_A_domain min_val max_val u) -> in_A_domain min_val max_val v).
  { intros [u Hu]. apply possible_values_A in Hu.
    destruct (possible_values "A" min_val max_val []) as [|x xs] eqn:Hp.
    - destruct Hu.
    - apply possible_values_A. rewrite Hp. exact Hv. }
  split; [|split].
  - intros Hvalid. apply Hsome.
    destruct (Z.eq_dec min_val 0) as [->|Hnz].
    + exists 0. left. split; reflexivity.
    + exists min_val. unfold in_A_domain. lia.
  - exact Hsome.
  - intros Hnone.
    destruct (possible_values "A" min_val max_val []) as [|x xs] eqn:Hp.
    + exact Hv.
    + exfalso. apply (Hnone x). apply possible_values_A. rewrite Hp. left. reflexivity.
Qed.

Lemma A_value_in_domain_witness :
  exists v w',
    call_sync (steady 1) 0%nat (_generate_random_value "A" None) (boot true)
      = Some (w', inl v)
    /\ (0 <= 0 <= 20 /\ 20 <= 40 -> in_A_domain 0 20 v)
    /\ ((exists u, in_A_domain 0 20 u) -> in_A_domain 0 20 v)
    /\ ((forall u, ~ in_A_domain 0 20 u) -> v = 0).
Proof. apply (A_value_in_domain (steady 1) 0%nat (boot true) 0 20). reflexivity. Defined.

(** C7. In Speed mode, for limits with min <= max within the bounds of the
    channel, every value generated for channel B and for channel C lies in
    the inclusive range [min, max]. *)
Theorem BC_value_in_range (E : env) (me : task_id) (w : world)
    (channel : string) (min_val max_val : Z) :
  channel = "B" \/ channel = "C" ->
  dict_get channel (limits (ctl w)) = Some (min_val, max_val) ->
  0 <= min_val <= max_val /\ max_val <= 20 ->
  exists v w',
    call_sync E me (_generate_random_value channel None) w = Some (w', inl v)
    /\ min_val <= v <= max_val.
Proof.
  intros Hch H Hvalid.
  assert (HnA : String.eqb channel "A" = false) by (destruct Hch; subst; reflexivity).
  destruct (generate_random_value_spec E me w channel min_val max_val H)
    as (v & w' & Hcall & _ & _ & Hv).
  exists v, w'. split; [exact Hcall|].
  destruct (possible_values channel min_val max_val []) as [|x xs] eqn:Hp.
  - lia.
  - apply (possible_values_flat channel min_val max_val v HnA). rewrite Hp. exact Hv.
Qed.

Lemma BC_value_in_range_witness :
  exists v w',
    call_sync (steady 1) 0%nat (_generate_random_value "B" None) (boot true)
      = Some (w', inl v)
    /\ 1 <= v <= 20.
Proof.
  apply (BC_value_in_range (steady 1) 0%nat (boot true) "B" 1 20).
  - left. reflexivity.
  - reflexivity.
  - lia.
Defined.

(** ** A fresh controller *)

(** C10. A freshly constructed controller reports is_running false, mode
    None and the default limits A: (0, 20), B: (1, 20), C: (0, 20); the
    limits it reports are not empty. *)
Theorem fresh_status :
  status __init__
    = mkStatus false None [("A", (0, 20)); ("B", (1, 20)); ("C", (0, 20))]
  /\ st_limits (status __init__) <> []
  /\ forall is_connected, status (ctl (boot is_connected)) = status __init__.
Proof. repeat split. discriminate. Qed.

(** ** Soundness of policies *)

Lemma wp_mono (P : policy) {R : Type} (c : coro R) :
  forall (Q Q' : controller -> R -> Prop) (X X' : controller -> exn -> Prop) s,
    (forall s r, Q s r -> Q' s r) -> (forall s e, X s e -> X' s e) ->
    wp P c Q X s -> wp P c Q' X' s.
Proof.
  induction c as [r|e|T i k IH|a k IH|]; intros Q Q' X X' s HQ HX H; cbn in *; auto.
  - destruct i; cbn in *; try solve [eauto]; try (destruct H; split; eauto).
  - destruct H as (Hi & Ha & Hk). repeat split; eauto.
Qed.

Lemma wp_bind (P : policy) {R S : Type} (c : coro R) (f : R -> coro S) :
  forall Q X s,
    wp P c (fun s' r => wp P (f r) Q X s') X s -> wp P (bind c f) Q X s.
Proof.
  induction c as [r|e|T i k IH|a k IH|]; intros Q X s H; cbn in *; auto.
  - destruct i; cbn in *; try solve [eauto]; try (destruct H; split; eauto).
  - destruct H as (Hi & Ha & Hk). repeat split; eauto.
Qed.

Lemma wp_try_except (P : policy) {R : Type} (c : coro R) (h : exn -> option (coro R)) :
  forall Q X s,
    wp P c Q (fun s' e => match h e with
                          | Some c' => wp P c' Q X s'
                          | None => X s' e
                          end) s ->
    wp P (try_except c h) Q X s.
Proof.
  induction c as [r|e|T i k IH|a k IH|]; intros Q X s H; cbn in *; auto.
  - destruct (h e); exact H.
  - destruct i; cbn in *; try solve [eauto]; try (destruct H; split; eauto).
  - destruct H as (Hi & Ha & Hk). repeat split; eauto.
Qed.

Lemma calls_app (tr1 tr2 : list (task_id * event)) :
  calls (tr1 ++ tr2) = (calls tr1 ++ calls tr2)%list.
Proof. unfold calls. apply flat_map_app. Qed.

Lemma unit_interval_range (raw : float) :
  ((0 <=? unit_interval raw) && (unit_interval raw <? 1))%float = true.
Proof.
  unfold unit_interval.
  destruct ((0 <=? raw) && (raw <? 1))%float eqn:H; [exact H|reflexivity].
Qed.

Lemma frame_refl (P : policy) (w : world) : frame P w w.
Proof. repeat split; eauto. intros t tc H1 H2. congruence. Qed.

Lemma frame_same (P : policy) (w w' : world) :
  tasks w' = tasks w -> connected w' = connected w -> frame P w w'.
Proof.
  intros Ht Hc. unfold frame. rewrite Ht. repeat split; eauto.
  intros t tc H1 H2. congruence.
Qed.

Lemma frame_trans (P : policy) (w1 w2 w3 : world) :
  frame P w1 w2 -> frame P w2 w3 -> frame P w1 w3.
Proof.
  intros (H1 & N1 & L1 & C1) (H2 & N2 & L2 & C2). repeat split.
  - intros t tc Ht. destruct (H1 t tc Ht) as (tc' & Ht' & Hs & Hc).
    destruct (H2 t tc' Ht') as (tc'' & Ht'' & Hs' & Hc').
    exists tc''. repeat split; [exact Ht''|congruence|].
    destruct Hc, Hc'; auto. left. congruence.
  - intros t tc Hn Hn3. destruct (nth_error (tasks w2) t) as [tc2|] eqn:Hn2.
    + destruct (N1 t tc2 Hn Hn2) as [c Hc].
      destruct (H2 t tc2 Hn2) as (tc' & Ht' & Hs & _).
      rewrite Hn3 in Ht'. injection Ht' as <-. exists c. congruence.
    + eapply N2; eauto.
  - intros Hn. rewrite L2, L1; auto.
  - congruence.
Qed.

Lemma nth_error_replace_nth_eq {A : Type} (l : list A) (n : nat) (x y : A) :
  nth_error l n = Some y -> nth_error (replace_nth n x l) n = Some x.
Proof.
  revert n; induction l as [|a l IH]; intros [|n] H; cbn in *; try discriminate; auto.
Qed.

Lemma nth_error_replace_nth_neq {A : Type} (l : list A) (n m : nat) (x : A) :
  n <> m -> nth_error (replace_nth n x l) m = nth_error l m.
Proof.
  revert n m; induction l as [|a l IH]; intros [|n] [|m] H; cbn; auto; try congruence.
Qed.

Lemma length_replace_nth {A : Type} (l : list A) (n : nat) (x : A) :
  List.length (replace_nth n x l) = List.length l.
Proof. revert n; induction l as [|a l IH]; intros [|n]; cbn; auto. Qed.

Lemma nth_error_replace_nth_None {A : Type} (l : list A) (n m : nat) (x : A) :
  nth_error l m = None -> nth_error (replace_nth n x l) m = None.
Proof.
  intros H. apply nth_error_None. rewrite length_replace_nth. apply nth_error_None. exact H.
Qed.

Lemma request_cancel_spec (P : policy) (t : task_id) (w : world) :
  cancel_ok P t ->
  ctl (request_cancel t w) = ctl w
  /\ trace (request_cancel t w) = trace w
  /\ List.length (tasks (request_cancel t w)) = List.length (tasks w)
  /\ frame P w (request_cancel t w).
Proof.
  intros Hc. unfold request_cancel.
  assert (Hsame : ctl w = ctl w /\ trace w = trace w
                  /\ List.length (tasks w) = List.length (tasks w) /\ frame P w w).
  { auto using frame_refl. }
  destruct (nth_error (tasks w) t) as [[st fl]|] eqn:Ht; [|exact Hsame].
  assert (Hgen : ctl (with_tasks (replace_nth t (mkTcb st true) (tasks w)) w) = ctl w
    /\ trace (with_tasks (replace_nth t (mkTcb st true) (tasks w)) w) = trace w
    /\ List.length (tasks (with_tasks (replace_nth t (mkTcb st true) (tasks w)) w))
       = List.length (tasks w)
    /\ frame P w (with_tasks (replace_nth t (mkTcb st true) (tasks w)) w)).
  { repeat split; cbn.
    - apply length_replace_nth.
    - intros t' tc Ht'. destruct (Nat.eq_dec t t') as [<-|Hne].
      + erewrite nth_error_replace_nth_eq by eauto. eexists. split; [reflexivity|].
        rewrite Ht in Ht'. injection Ht' as <-. cbn. auto.
      + rewrite nth_error_replace_nth_neq by exact Hne. eauto.
    - intros t' tc Hn Hn'. rewrite nth_error_replace_nth_None in Hn' by exact Hn.
      discriminate.
    - intros _. apply length_replace_nth. }
  destruct st; try exact Hgen. exact Hsame.
Qed.

Lemma frame_others_ok (P : policy) (me : task_id) (w w' : world) :
  frame P w w' -> List.length (tasks w') = List.length (tasks w) ->
  others_ok P me w -> others_ok P me w'.
Proof.
  intros (Hf & _) Hlen Hok t tc' Hne Hn.
  assert (Hlt : (t < List.length (tasks w))%nat).
  { rewrite <- Hlen. apply nth_error_Some. congruence. }
  destruct (nth_error (tasks w) t) as [tc|] eqn:Ht;
    [|apply nth_error_None in Ht; lia].
  destruct (Hf t tc Ht) as (tc'' & Ht'' & Hs & _).
  rewrite Hn in Ht''. injection Ht'' as <-. rewrite Hs. eapply Hok; eauto.
Qed.

Lemma frame_unfinished (P : policy) (me : task_id) (w w' : world) :
  frame P w w' -> unfinished me w -> unfinished me w'.
Proof.
  intros (Hf & Hnew & _) Hu o. unfold task_state.
  destruct (nth_error (tasks w) me) as [tc|] eqn:Ht.
  - destruct (Hf me tc Ht) as (tc' & -> & Hs & _). cbn. rewrite Hs.
    specialize (Hu o). unfold task_state in Hu. rewrite Ht in Hu. exact Hu.
  - destruct (nth_error (tasks w') me) as [tc'|] eqn:Ht'; [|discriminate].
    destruct (Hnew me tc' Ht Ht') as [c Hc]. cbn. rewrite Hc. discriminate.
Qed.

Lemma turn_ok_tstate_ok (P : policy) (st : tstate) : turn_ok P st -> tstate_ok P st.
Proof. destruct st as [c|a res k|[]]; cbn; auto. Qed.

Section Soundness.

Variable E : env.
Variable P : policy.
Hypothesis loop_ok :
  spawn_ok P -> forall s, inv P s -> task_wp P (_random_loop (loop_fuel E)) s.

(** Running a task whose body meets the policy from the current state of
    the controller leaves a world that meets it. *)
Lemma run_sound (me : task_id) (c : coro unit) :
  forall w,
    task_wp P c (ctl w) -> unfinished me w -> others_ok P me w -> calls_ok P w ->
    inv P (ctl (fst (run E me c w)))
    /\ turn_ok P (snd (run E me c w))
    /\ others_ok P me (fst (run E me c w))
    /\ calls_ok P (fst (run E me c w))
    /\ frame P w (fst (run E me c w)).
Proof.
  induction c as [r|e|T i k IH|a k IH|]; intros w Hwp Hme Ht Hc.
  - cbn in *. destruct Hwp. auto 6 using frame_refl.
  - cbn in Hwp. destruct Hwp as [Hi [->|He]].
    + cbn. auto 6 using frame_refl.
    + destruct e; cbn; auto 6 using frame_refl.
  - unfold task_wp in Hwp. cbn [wp] in Hwp. cbn [run].
    destruct i; cbn [perform]; cbv beta iota.
    + apply IH; auto.
    + destruct (IH tt (with_ctl (f (ctl w)) w)) as (H1 & H2 & H3 & H4 & H5); auto.
    + destruct (IH (below n (rnd_below E (draws w))) (next_draw w))
        as (H1 & H2 & H3 & H4 & H5); auto.
      apply Hwp. apply below_lt.
    + destruct (IH (unit_interval (rnd_unit E (draws w))) (next_draw w))
        as (H1 & H2 & H3 & H4 & H5); auto.
      apply Hwp. apply unit_interval_range.
    + destruct (IH tt (emit me (Logged l m) w)) as (H1 & H2 & H3 & H4 & H5); auto.
      unfold calls_ok. cbn. rewrite calls_app. cbn. rewrite app_nil_r. exact Hc.
    + destruct Hwp as [Hs Hk].
      set (w1 := with_tasks (tasks w ++ [mkTcb (Ready (_random_loop (loop_fuel E))) false]) w).
      assert (Hin : forall t tc, nth_error (tasks w) t = Some tc ->
                                 nth_error (tasks w1) t = Some tc).
      { intros t tc Hn. unfold w1, with_tasks. cbn [tasks].
        rewrite nth_error_app1; [exact Hn|]. apply nth_error_Some. congruence. }
      assert (Hnew : forall t tc, nth_error (tasks w) t = None ->
                nth_error (tasks w1) t = Some tc ->
                tc = mkTcb (Ready (_random_loop (loop_fuel E))) false).
      { intros t tc Hn Hn1. unfold w1, with_tasks in Hn1. cbn [tasks] in Hn1.
        apply nth_error_None in Hn. rewrite nth_error_app2 in Hn1 by exact Hn.
        destruct (t - List.length (tasks w))%nat as [|[|n]]; cbn [nth_error] in Hn1;
          [injection Hn1 as <-; reflexivity | discriminate | discriminate]. }
      assert (Hfr : frame P w w1).
      { split; [|split; [|split]].
        - intros t tc Hn. exists tc. auto.
        - intros t tc Hn Hn1. rewrite (Hnew t tc Hn Hn1). cbn. eauto.
        - intros Hn. contradiction.
        - reflexivity. }
      destruct (IH (List.length (tasks w)) w1) as (H1 & H2 & H3 & H4 & H5); auto.
      { apply Hk. }
      { eapply frame_unfinished; eauto. }
      { intros t tc Hne Hn1.
        destruct (nth_error (tasks w) t) as [tc0|] eqn:Hn.
        - rewrite (Hin t tc0 Hn) in Hn1. injection Hn1 as <-. eapply Ht; eauto.
        - rewrite (Hnew t tc Hn Hn1). cbn. exact (loop_ok Hs). }
      split; [|split; [|split; [|split]]]; auto.
      eapply frame_trans; eauto.
    + apply IH; auto. apply Hwp.
    + destruct Hwp as [Hcan Hk].
      destruct (request_cancel_spec P t w Hcan) as (Ec & Et & Hlen & Hfr).
      destruct (IH tt (request_cancel t w)) as (H1 & H2 & H3 & H4 & H5); auto.
      { unfold task_wp. rewrite Ec. exact Hk. }
      { eapply frame_unfinished; eauto. }
      { eapply frame_others_ok; eauto. }
      { unfold calls_ok. rewrite Et. exact Hc. }
      split; [|split; [|split; [|split]]]; auto. eapply frame_trans; eauto.
    + apply IH; auto. apply Hwp.
  - unfold task_wp in Hwp. cbn [wp] in Hwp. destruct Hwp as (Hi & Ha & Hk).
    cbn [run]. destruct a as [op|d|t].
    + assert (Hc' : calls_ok P (emit me (Called op) w)).
      { unfold calls_ok. cbn. rewrite calls_app. apply Forall_app. split; [exact Hc|].
        cbn. constructor; auto. }
      destruct (device_check op) as [e|] eqn:Hd.
      * destruct (IH (Some e) (emit me (Called op) w)) as (H1 & H2 & H3 & H4 & H5); auto.
        apply Hk; cbn; auto.
      * destruct (connected w) eqn:Hcon.
        -- cbn. split; [exact Hi|]. split; [|split; [exact Ht|split; [exact Hc'|]]].
           ++ split.
              ** destruct (link_ok E (writes w)); cbn; auto.
              ** intros r s Hs Hr. apply Hk; auto.
           ++ apply frame_same; reflexivity.
        -- destruct (IH (Some RuntimeError) (emit me (Called op) w))
             as (H1 & H2 & H3 & H4 & H5); auto.
           apply Hk; cbn; auto.
    + cbn. split; [exact Hi|]. split; [|split; [exact Ht|split]].
      * split; [exact I|]. intros r s Hs Hr. apply Hk; auto.
      * unfold calls_ok. cbn. rewrite calls_app. cbn. rewrite app_nil_r. exact Hc.
      * apply frame_same; reflexivity.
    + assert (Hblocked : inv P (ctl w) /\ turn_ok P (Blocked (ATask t) None k)
                         /\ others_ok P me w /\ calls_ok P w /\ frame P w w).
      { split; [exact Hi|]. split; [|split; [exact Ht|split; [exact Hc|apply frame_refl]]].
        split; [exact I|]. intros r s Hs Hr. apply Hk; auto. }
      destruct (task_state t w) as [[c'|a' res' k'|o]|] eqn:Hts; try exact Hblocked.
      apply IH; auto. apply Hk; auto.
      destruct (Nat.eq_dec t me) as [->|Hne]; [exfalso; eapply Hme; eauto|].
      unfold task_state in Hts.
      destruct (nth_error (tasks w) t) as [tc|] eqn:Hn; [|discriminate].
      cbn in Hts. injection Hts as Hts.
      specialize (Ht t tc Hne Hn). rewrite Hts in Ht.
      destruct o; cbn in *; auto.
  - cbn in *. auto 6 using frame_refl.
Qed.

Lemma put_task_ok (t : task_id) (s : tstate) (w : world) :
  others_ok P t w -> tstate_ok P s -> tasks_ok P (put_task t s w).
Proof.
  intros Ho Hs t' tc Hn. unfold put_task, with_tasks in Hn. cbn [tasks] in Hn.
  destruct (Nat.eq_dec t t') as [<-|Hne].
  - destruct (nth_error (tasks w) t) as [tc0|] eqn:Hn0.
    + rewrite (nth_error_replace_nth_eq _ _ _ _ Hn0) in Hn. injection Hn as <-. exact Hs.
    + rewrite nth_error_replace_nth_None in Hn by exact Hn0. discriminate.
  - rewrite nth_error_replace_nth_neq in Hn by exact Hne. eapply Ho; eauto.
Qed.

Lemma put_task_frame (t : task_id) (s : tstate) (w w' : world) :
  frame P w w' -> frame_but P t w (put_task t s w').
Proof.
  intros (H5 & N5 & H6 & H7). split; [|split; [|split]].
  - intros t' tc Hne Hn. destruct (H5 t' tc Hn) as (tc' & Hn' & Hs & Hf).
    unfold put_task, with_tasks. cbn [tasks].
    rewrite nth_error_replace_nth_neq by congruence. eauto.
  - intros t' tc Hne Hn Hn'. unfold put_task, with_tasks in Hn'. cbn [tasks] in Hn'.
    rewrite nth_error_replace_nth_neq in Hn' by congruence. eapply N5; eauto.
  - intros Hn. unfold put_task, with_tasks. cbn [tasks]. rewrite length_replace_nth. auto.
  - exact H7.
Qed.

Lemma put_task_state (t : task_id) (s : tstate) (w : world) (st : tstate) :
  task_state t (put_task t s w) = Some st -> st = s.
Proof.
  unfold task_state, put_task, with_tasks. cbn [tasks].
  destruct (nth_error (tasks w) t) as [tc0|] eqn:Hn0.
  - rewrite (nth_error_replace_nth_eq _ _ _ _ Hn0). cbn. congruence.
  - rewrite nth_error_replace_nth_None by exact Hn0. discriminate.
Qed.

Lemma frame_but_refl (t : task_id) (w : world) : frame_but P t w w.
Proof. repeat split; eauto. intros t' tc _ H1 H2. congruence. Qed.

Lemma run_task_sound (t : task_id) (c : coro unit) (w : world) :
  task_wp P c (ctl w) -> unfinished t w -> others_ok P t w -> calls_ok P w ->
  winv P (run_task E t c w)
  /\ frame_but P t w (run_task E t c w)
  /\ (task_state t (run_task E t c w) = Some (Finished Done) -> done_ok P).
Proof.
  intros Hwp Hu Ho Hc. unfold run_task.
  destruct (run_sound t c w Hwp Hu Ho Hc) as (H1 & H2 & H3 & H4 & H5).
  destruct (run E t c w) as [w' s]. cbn [fst snd] in *.
  split; [split; [exact H1|split; [|exact H4]]|split].
  - apply put_task_ok; [assumption|apply turn_ok_tstate_ok; assumption].
  - apply put_task_frame; assumption.
  - intros Hd. apply put_task_state in Hd. subst s. exact H2.
Qed.

(** A first turn of a task that was handed to the loop with a body that
    meets the policy from the controller's state at that moment. *)
Lemma resume_first (t : task_id) (c : coro unit) (w : world) :
  nth_error (tasks w) t = Some (mkTcb (Ready c) false) ->
  task_wp P c (ctl w) -> others_ok P t w -> calls_ok P w ->
  winv P (resume E t w)
  /\ frame_but P t w (resume E t w)
  /\ (task_state t (resume E t w) = Some (Finished Done) -> done_ok P).
Proof.
  intros Hn Hwp Ho Hc. unfold resume. rewrite Hn.
  apply run_task_sound; auto.
  intros o. unfold task_state. rewrite Hn. discriminate.
Qed.

Lemma tasks_ok_others (t : task_id) (w : world) : tasks_ok P w -> others_ok P t w.
Proof. intros H t' tc _ Hn. eapply H; eauto. Qed.

(** Every turn the loop gives keeps the policy. *)
Lemma resume_sound (t : task_id) (w : world) :
  winv P w ->
  winv P (resume E t w)
  /\ frame_but P t w (resume E t w)
  /\ (task_state t (resume E t w) = Some (Finished Done) ->
      task_state t w = Some (Finished Done) \/ done_ok P).
Proof.
  intros (Hi & Ht & Hc). unfold resume.
  assert (Hsame : winv P w /\ frame_but P t w w
                  /\ (task_state t w = Some (Finished Done) ->
                      task_state t w = Some (Finished Done) \/ done_ok P)).
  { split; [repeat split; auto|split; [apply frame_but_refl|auto]]. }
  destruct (nth_error (tasks w) t) as [[st fl]|] eqn:Hn; [|exact Hsame].
  pose proof (Ht t _ Hn) as Hst. cbn [state] in Hst.
  pose proof (tasks_ok_others t w Ht) as Ho.
  assert (Hrun : forall c, task_wp P c (ctl w) -> unfinished t w ->
            winv P (run_task E t c w) /\ frame_but P t w (run_task E t c w)
            /\ (task_state t (run_task E t c w) = Some (Finished Done) ->
                task_state t w = Some (Finished Done) \/ done_ok P)).
  { intros c Hwp Hun.
    destruct (run_task_sound t c w Hwp Hun Ho Hc) as (R1 & R2 & R3). auto. }
  destruct st as [c|a res k|o]; [| |exact Hsame].
  - assert (Hun : unfinished t w).
    { intros o. unfold task_state. rewrite Hn. discriminate. }
    destruct fl.
    + split; [|split; [apply put_task_frame, frame_refl|]].
      * split; [exact Hi|split; [|exact Hc]].
        apply put_task_ok; [exact Ho|exact I].
      * intros Hd. apply put_task_state in Hd. discriminate.
    + apply Hrun; [apply Hst; exact Hi|exact Hun].
  - assert (Hun : unfinished t w).
    { intros o. unfold task_state. rewrite Hn. discriminate. }
    destruct Hst as (Hres & Hk).
    destruct fl.
    + apply Hrun; [|exact Hun]. apply Hk; [exact Hi|]. cbn. auto.
    + destruct a as [op|d|t'].
      * apply Hrun; [apply Hk; assumption|exact Hun].
      * apply Hrun; [apply Hk; assumption|exact Hun].
      * destruct (task_state t' w) as [[c'|a' res' k'|o]|] eqn:Hts; try exact Hsame.
        apply Hrun; [|exact Hun].
        apply Hk; [exact Hi|].
        unfold task_state in Hts.
        destruct (nth_error (tasks w) t') as [tc|] eqn:Hn'; [|discriminate].
        cbn in Hts. injection Hts as Hts.
        specialize (Ht t' tc Hn'). rewrite Hts in Ht.
        destruct o; cbn in *; auto.
Qed.

Lemma exec_sound (ts : list task_id) :
  forall w, winv P w -> winv P (exec E (map Step ts) w).
Proof.
  induction ts as [|t ts IH]; intros w Hw; [exact Hw|].
  cbn. apply IH. apply resume_sound. exact Hw.
Qed.

(** A task that is found returned had returned before, unless the policy
    lets tasks return. *)
Lemma resume_done (t t' : task_id) (w : world) :
  winv P w ->
  task_state t' (resume E t w) = Some (Finished Done) ->
  task_state t' w = Some (Finished Done) \/ done_ok P.
Proof.
  intros Hw Hd. destruct (resume_sound t w Hw) as (_ & (F1 & F2 & _) & Hdone).
  destruct (Nat.eq_dec t' t) as [->|Hne]; [auto|].
  left. unfold task_state in *.
  destruct (nth_error (tasks w) t') as [tc|] eqn:Hn.
  - destruct (F1 t' tc Hne Hn) as (tc' & Hn' & Hs & _). rewrite Hn' in Hd.
    cbn in *. congruence.
  - destruct (nth_error (tasks (resume E t w)) t') as [tc'|] eqn:Hn'; [|discriminate].
    destruct (F2 t' tc' Hne Hn Hn') as [c Hc]. cbn in Hd. congruence.
Qed.

Lemma exec_done (t' : task_id) (ts : list task_id) :
  forall w, winv P w ->
    task_state t' (exec E (map Step ts) w) = Some (Finished Done) ->
    task_state t' w = Some (Finished Done) \/ done_ok P.
Proof.
  induction ts as [|t ts IH]; intros w Hw Hd; [auto|].
  cbn in Hd. destruct (IH (resume E t w)) as [H|H]; auto.
  - apply resume_sound. exact Hw.
  - eapply resume_done; eauto.
Qed.

End Soundness.

(** ** Policies that allow every device call *)

Lemma generate_wp (P : policy) (channel : string) (ex : option (list Z))
    (Q : controller -> Z -> Prop) (X : controller -> exn -> Prop) (s : controller) :
  (forall v, Q s v) -> X s (KeyError channel) ->
  wp P (_generate_random_value channel ex) Q X s.
Proof.
  intros HQ HX. unfold _generate_random_value. wp_simpl.
  destruct (dict_get channel (limits s)) as [[mn mx]|]; [|exact HX].
  destruct (possible_values channel mn mx _); wp_simpl; auto.
Qed.

Ltac wp_branch :=
  match goal with
  | |- wp _ (bind (bind _ _) _) _ _ _ => apply wp_bind
  | |- wp _ (bind (_generate_random_value _ _) _) _ _ _ =>
      apply wp_bind; apply generate_wp; [intro|]
  | |- context [if mode_is ?s ?m then _ else _] => destruct (mode_is s m) eqn:?
  | |- context [if ?b >? 0 then _ else _] => destruct (b >? 0) eqn:?
  end.

Section AnyCall.

Variable P : policy.
Hypothesis any_call : forall op, call_ok P op.
Hypothesis inv_time : forall s q, inv P s -> inv P (set_last_b_command_time q s).

Lemma any_iteration (s : controller) :
  inv P s ->
  wp P loop_iteration (fun s' _ => inv P s') (fun s' e => inv P s' /\ e = CancelledError) s.
Proof.
  intros Hs. unfold loop_iteration. apply wp_try_except.
  unfold execute_cycle, _execute_mode_mode, _execute_speed_mode, _generate_frequency_delay,
    _handle_b_channel_exhale_cycle.
  wp_walk ltac:(first [ assumption | apply any_call | apply inv_time; assumption
                      | wp_branch ]).
Qed.

Lemma any_execute_once (s : controller) :
  inv P s ->
  wp P _execute_once (fun s' _ => inv P s') (fun s' e => inv P s' /\ e = CancelledError) s.
Proof.
  intros Hs. unfold _execute_once. apply wp_try_except.
  unfold execute_cycle, _execute_mode_mode, _execute_speed_mode,
    _handle_b_channel_exhale_cycle.
  wp_walk ltac:(first [ assumption | apply any_call | apply inv_time; assumption
                      | wp_branch ]).
Qed.

Hypothesis loop_exit : forall s, inv P s -> is_running s && auto_loop s = false -> done_ok P.

Lemma any_while (fuel : nat) :
  forall s, inv P s -> task_wp P (while_running fuel) s.
Proof.
  induction fuel as [|fuel IH]; intros s Hs; unfold task_wp; cbn [while_running];
    wp_simpl; destruct (is_running s && auto_loop s) eqn:Hc;
    try solve [wp_walk ltac:(first [assumption | eapply loop_exit; eassumption])].
  apply wp_bind. eapply wp_mono; [| |apply any_iteration; exact Hs].
  - intros s' r Hs'. apply IH. exact Hs'.
  - intros s' e [Hs' He]. hnf. auto.
Qed.

Lemma any_random_loop (fuel : nat) (s : controller) :
  inv P s -> task_wp P (_random_loop fuel) s.
Proof. intros Hs. unfold task_wp, _random_loop. wp_simpl. apply any_while. exact Hs. Qed.

End AnyCall.

(** ** Mode mode *)

Lemma mode_call_randint (channel : string) (x : nat) :
  In channel ["A"; "B"; "C"] ->
  (Z.to_nat (7 - 1 + 1) <> 0%nat -> (x < Z.to_nat (7 - 1 + 1))%nat) ->
  mode_call (set_mode channel (1 + Z.of_nat x)).
Proof.
  intros Hc Hx. exists channel, (1 + Z.of_nat x). repeat split; auto; lia.
Qed.

Lemma mode_iteration (s : controller) :
  mode s = Some "mode" ->
  wp mode_policy loop_iteration (fun s' _ => mode s' = Some "mode")
     (fun s' e => mode s' = Some "mode" /\ e = CancelledError) s.
Proof.
  intros Hs. unfold loop_iteration. apply wp_try_except.
  unfold execute_cycle, _execute_mode_mode, _execute_speed_mode, _generate_frequency_delay,
    _handle_b_channel_exhale_cycle.
  wp_walk ltac:(first [ assumption | known_mode
                      | apply mode_call_randint; [cbn; tauto | assumption] ]).
Qed.

Lemma mode_while (fuel : nat) :
  forall s, mode s = Some "mode" -> task_wp mode_policy (while_running fuel) s.
Proof.
  induction fuel as [|fuel IH]; intros s Hs; unfold task_wp; cbn [while_running];
    wp_simpl; destruct (is_running s && auto_loop s);
    try solve [wp_walk ltac:(assumption)].
  apply wp_bind. eapply wp_mono; [| |apply mode_iteration; exact Hs].
  - intros s' r Hs'. apply IH. exact Hs'.
  - intros s' e [Hs' He]. hnf. auto.
Qed.

Lemma mode_random_loop (fuel : nat) (s : controller) :
  mode s = Some "mode" -> task_wp mode_policy (_random_loop fuel) s.
Proof. intros Hs. unfold task_wp, _random_loop. wp_simpl. apply mode_while. exact Hs. Qed.

Lemma mode_execute_once (s : controller) :
  mode s = Some "mode" ->
  wp mode_policy _execute_once (fun s' _ => mode s' = Some "mode")
     (fun s' e => mode s' = Some "mode" /\ e = CancelledError) s.
Proof.
  intros Hs. unfold _execute_once. apply wp_try_except.
  unfold execute_cycle, _execute_mode_mode, _execute_speed_mode,
    _handle_b_channel_exhale_cycle.
  wp_walk ltac:(first [ assumption | known_mode
                      | apply mode_call_randint; [cbn; tauto | assumption] ]).
Qed.

Lemma mode_start_session (l : limits_t) (al : bool) (s : controller) :
  is_running s = false -> task_wp mode_policy (start_session "mode" l al) s.
Proof.
  intros Hs. unfold task_wp, start_session. wp_simpl.
  cbn [is_running set_session]. rewrite Hs. wp_simpl.
  destruct al.
  - wp_walk ltac:(reflexivity).
  - apply wp_bind. eapply wp_mono; [| |apply mode_execute_once; reflexivity].
    + intros s' r Hs'. wp_walk ltac:(assumption).
    + intros s' e [Hs' He]. hnf. auto.
Qed.

Section Sessions.

Variable E : env.
Variable P : policy.
Hypothesis loop_ok :
  spawn_ok P -> forall s, inv P s -> task_wp P (_random_loop (loop_fuel E)) s.

(** A coroutine handed to a loop that has no task yet: from then on the
    world either still waits for its first turn or meets the policy. *)
Lemma exec_invoke_fresh (c : coro unit) (w0 : world) :
  tasks w0 = [] -> task_wp P c (ctl w0) -> calls_ok P w0 ->
  forall ts,
    let w := exec E (Invoke c :: map Step ts) w0 in
    w = act E (Invoke c) w0 \/ winv P w.
Proof.
  intros Ht Hwp Hc ts. cbn [exec fold_left]. fold (exec E (map Step ts) (act E (Invoke c) w0)).
  set (w1 := act E (Invoke c) w0).
  assert (Hn : tasks w1 = [mkTcb (Ready c) false]).
  { unfold w1. cbn. rewrite Ht. reflexivity. }
  assert (Hgen : forall w, w = w1 \/ winv P w ->
                           exec E (map Step ts) w = w1 \/ winv P (exec E (map Step ts) w)).
  { induction ts as [|t ts IH]; intros w Hw; [exact Hw|].
    cbn [map exec fold_left]. apply IH. cbn [act].
    destruct Hw as [->|Hw]; [|right; apply (resume_sound E P loop_ok); exact Hw].
    destruct t as [|t].
    - right. apply (resume_first E P loop_ok 0%nat c w1).
      + rewrite Hn. reflexivity.
      + exact Hwp.
      + intros t tc Hne Hnt. rewrite Hn in Hnt. destruct t as [|[|t]]; cbn in Hnt;
          congruence.
      + exact Hc.
    - left. unfold resume. rewrite Hn. destruct t; reflexivity. }
  apply Hgen. left. reflexivity.
Qed.

End Sessions.

(** A call that raises at once does nothing but end. *)
Lemma exec_invoke_raise (E : env) (e : exn) (w0 : world) :
  tasks w0 = [] ->
  forall ts,
    let w := exec E (Invoke (Raise e) :: map Step ts) w0 in
    trace w = trace w0 /\ ctl w = ctl w0.
Proof.
  intros Ht ts. cbn [exec fold_left].
  fold (exec E (map Step ts) (act E (Invoke (Raise e)) w0)).
  set (w1 := act E (Invoke (Raise e)) w0).
  assert (Hn : tasks w1 = [mkTcb (Ready (Raise e)) false]).
  { unfold w1. cbn. rewrite Ht. reflexivity. }
  set (o := match e with CancelledError => Cancelled | _ => Failed e end).
  set (w2 := put_task 0%nat (Finished o) w1).
  assert (Hgen : forall w, w = w1 \/ w = w2 ->
            trace (exec E (map Step ts) w) = trace w0 /\ ctl (exec E (map Step ts) w) = ctl w0).
  { induction ts as [|t ts IH]; intros w Hw.
    - destruct Hw as [->| ->]; split; reflexivity.
    - cbn [map exec fold_left]. apply IH. cbn [act].
      destruct Hw as [->| ->].
      + destruct t as [|t].
        * right. unfold resume. rewrite Hn. cbn [nth_error]. unfold run_task.
          destruct e; reflexivity.
        * left. unfold resume. rewrite Hn. destruct t; reflexivity.
      + right. unfold resume, w2, put_task, with_tasks. cbn [tasks]. rewrite Hn.
        destruct t as [|[|t]]; reflexivity. }
  apply Hgen. left. reflexivity.
Qed.

Lemma start_cases (m : string) (l : limits_t) (al : bool) :
  start m l al = start_session m l al \/ exists msg, start m l al = Raise (ValueError msg).
Proof.
  unfold start.
  destruct (negb (str_in m ["speed"; "mode"])); [right; eauto|].
  destruct (negb (forallb (fun channel => dict_mem channel l) ["A"; "B"; "C"]));
    [right; eauto|].
  destruct (check_items l) as [e|] eqn:Hc; [|left; reflexivity].
  right. induction l as [|[channel [mn mx]] l IH]; [discriminate|].
  cbn in Hc.
  destruct (String.eqb channel "A").
  - destruct (negb (chain_ok mn mx 40)); [injection Hc as <-; eauto|auto].
  - destruct (negb (chain_ok mn mx 20)); [injection Hc as <-; eauto|auto].
Qed.

(** ** Parameter validation *)

Lemma nve_stop (s : controller) :
  wp no_value_error stop (fun _ _ => True)
     (fun _ e => e = CancelledError \/ forall m, e <> ValueError m) s.
Proof.
  unfold stop.
  wp_walk ltac:(first [ assumption | wp_cases | (left; reflexivity)
                      | (right; intros; discriminate)
                      | (right; assumption) ]).
Qed.

Lemma nve_random_loop (fuel : nat) (s : controller) :
  task_wp no_value_error (_random_loop fuel) s.
Proof. apply any_random_loop; cbn; auto. Qed.

Lemma nve_start_session (m : string) (l : limits_t) (al : bool) (s : controller) :
  task_wp no_value_error (start_session m l al) s.
Proof.
  unfold task_wp, start_session. wp_simpl.
  apply wp_bind.
  assert (Hrest : forall s', wp no_value_error
            (do (Update (set_is_running true));;
             (if al
              then t <- do CreateTask;;
                   do (Update (set_task (Some t)));; do (Logger INFO (StartedLoop m))
              else _execute_once;; do (Logger INFO (StartedOnce m))))
            (task_post no_value_error) (task_exn no_value_error) s').
  { intros s'. wp_simpl. destruct al.
    - wp_walk ltac:(reflexivity).
    - apply wp_bind.
      eapply wp_mono; [| |apply (any_execute_once no_value_error); cbn; auto].
      + intros s'' r _. wp_walk ltac:(assumption).
      + intros s'' e [_ He]. split; [exact I|left; exact He]. }
  destruct (is_running (set_session m l al s)).
  - eapply wp_mono; [| |apply nve_stop].
    + intros s' r _. apply Hrest.
    + intros s' e He. split; [exact I|exact He].
  - wp_simpl. apply Hrest.
Qed.

Lemma chain_ok_spec (channel : string) (min_val max_val : Z) :
  chain_ok min_val max_val (if String.eqb channel "A" then 40 else 20) = true
  <-> pair_ok channel min_val max_val.
Proof.
  unfold chain_ok, pair_ok. rewrite !andb_true_iff, !Z.leb_le. tauto.
Qed.

Lemma check_items_None (l : limits_t) :
  check_items l = None
  <-> forall channel min_val max_val,
        In (channel, (min_val, max_val)) l -> pair_ok channel min_val max_val.
Proof.
  induction l as [|[channel [mn mx]] l IH]; cbn [check_items In].
  - split; [intros _ ? ? ? []|reflexivity].
  - pose proof (chain_ok_spec channel mn mx) as Hc.
    destruct (String.eqb channel "A");
      (destruct (chain_ok mn mx _) eqn:Hok; cbn [negb];
       [ rewrite IH; split;
         [ intros H c a b [Heq|Hin]; [injection Heq as <- <- <-; apply Hc; reflexivity|auto]
         | intros H c a b Hin; apply H; auto ]
       | split; [discriminate|];
         intros H; specialize (H channel mn mx (or_introl eq_refl));
         apply Hc in H; discriminate ]).
Qed.

Lemma check_items_Some (l : limits_t) (e : exn) :
  check_items l = Some e -> is_validation_error e.
Proof.
  induction l as [|[channel [mn mx]] l IH]; cbn [check_items]; [discriminate|].
  destruct (String.eqb channel "A").
  - destruct (negb (chain_ok mn mx 40)); [intros H; injection H as <-; exact I|exact IH].
  - destruct (negb (chain_ok mn mx 20)); [intros H; injection H as <-; exact I|exact IH].
Qed.

Lemma check_items_bad (l : limits_t) (e : exn) :
  check_items l = Some e ->
  exists channel min_val max_val,
    In (channel, (min_val, max_val)) l /\ ~ pair_ok channel min_val max_val.
Proof.
  induction l as [|[channel [mn mx]] l IH]; cbn [check_items]; [discriminate|].
  pose proof (chain_ok_spec channel mn mx) as Hc.
  destruct (String.eqb channel "A");
    (destruct (chain_ok mn mx _) eqn:Hok; cbn [negb];
     [ intros H; destruct (IH H) as (c & a & b & Hin & Hbad);
       exists c, a, b; split; [right; exact Hin|exact Hbad]
     | intros _; exists channel, mn, mx; split; [left; reflexivity|];
       intros H; apply Hc in H; discriminate ]).
Qed.

Lemma str_in_spec (x : string) (xs : list string) : str_in x xs = true <-> In x xs.
Proof.
  unfold str_in. rewrite existsb_exists. split.
  - intros [y [Hin Heq]]. apply String.eqb_eq in Heq. subst. exact Hin.
  - intros Hin. exists x. split; [exact Hin|apply String.eqb_refl].
Qed.

(** [start] either refuses its parameters and raises at once, or opens a
    session. *)
Lemma start_decide (m : string) (l : limits_t) (al : bool) :
  (start_rejects m l /\ exists e, start m l al = Raise e /\ is_validation_error e)
  \/ (~ start_rejects m l /\ start m l al = start_session m l al).
Proof.
  unfold start.
  destruct (str_in m ["speed"; "mode"]) eqn:Hm; cbn [negb].
  2:{ left. split; [|eexists; split; [reflexivity|exact I]].
      left. split; intros ->; discriminate. }
  destruct (forallb (fun channel => dict_mem channel l) ["A"; "B"; "C"]) eqn:Hk; cbn [negb].
  2:{ left. split; [|eexists; split; [reflexivity|exact I]].
      right; left. unfold dict_mem in Hk. cbn in Hk.
      destruct (dict_get "A" l) eqn:HA; [|exists "A"; cbn; auto].
      destruct (dict_get "B" l) eqn:HB; [|exists "B"; cbn; auto].
      destruct (dict_get "C" l) eqn:HC; [|exists "C"; cbn; auto].
      discriminate. }
  destruct (check_items l) as [e|] eqn:Hc.
  - left. split; [|exists e; split; [reflexivity|eapply check_items_Some; eauto]].
    right; right. eapply check_items_bad; eauto.
  - right. split; [|reflexivity].
    intros [[H1 H2]|[(channel & Hin & Hnone)|(channel & mn & mx & Hin & Hbad)]].
    + apply str_in_spec in Hm. cbn in Hm. intuition congruence.
    + unfold dict_mem in Hk. cbn in Hk, Hin.
      destruct Hin as [<-|[<-|[<-|[]]]]; rewrite Hnone in Hk; cbn in Hk;
        repeat (destruct (dict_get _ l)); discriminate.
    + apply Hbad. eapply check_items_None; eauto.
Qed.

Lemma nth_error_last {A : Type} (l : list A) (x : A) :
  nth_error (l ++ [x]) (List.length l) = Some x.
Proof. rewrite nth_error_app2 by lia. rewrite Nat.sub_diag. reflexivity. Qed.

(** A call that raises at once, handed to any loop and given its turn. *)
Lemma exec_raise_at_once (E : env) (e : exn) (w : world) :
  let t := List.length (tasks w) in
  let w' := exec E [Invoke (Raise e); Step t] w in
  outcome_of t w' = Some (match e with CancelledError => Cancelled | _ => Failed e end)
  /\ ctl w' = ctl w /\ trace w' = trace w.
Proof.
  cbn [exec fold_left act]. unfold resume. cbn [tasks with_tasks].
  rewrite nth_error_last. unfold run_task.
  assert (Hrun : run E (List.length (tasks w)) (Raise e)
                   (with_tasks (tasks w ++ [mkTcb (Ready (Raise e)) false]) w)
                 = (with_tasks (tasks w ++ [mkTcb (Ready (Raise e)) false]) w,
                    Finished (match e with CancelledError => Cancelled | _ => Failed e end))).
  { destruct e; reflexivity. }
  rewrite Hrun. split; [|split; reflexivity].
  unfold outcome_of, task_state, put_task, with_tasks. cbn [tasks].
  erewrite nth_error_replace_nth_eq by apply nth_error_last. reflexivity.
Qed.

(** C3 (amended). [start] fails with a validation error exactly when the
    mode is neither 'speed' nor 'mode', or one of A, B, C is missing from
    limits, or some entry of limits (A, B, C or any further key) violates
    0 <= min <= max with max <= 40 under key A and max <= 20 under any other
    key; on such a failure what [status] reports is unchanged and nothing
    was done; and when the parameters are accepted no ValueError ever
    leaves the call. *)
Theorem start_validation (E : env) (m : string) (l : limits_t) (al : bool) :
  ((exists e, start m l al = Raise e /\ is_validation_error e) <-> start_rejects m l)
  /\ (start_rejects m l ->
      forall w,
        let t := List.length (tasks w) in
        let w' := exec E [Invoke (start m l al); Step t] w in
        (exists e, outcome_of t w' = Some (Failed e) /\ is_validation_error e)
        /\ status (ctl w') = status (ctl w) /\ trace w' = trace w)
  /\ (~ start_rejects m l ->
      forall s0 is_connected d wr ts e,
        outcome_of 0%nat (exec E (Invoke (start m l al) :: map Step ts)
                        (mkWorld s0 is_connected [] [] d wr)) = Some (Failed e) ->
        forall msg, e <> ValueError msg).
Proof.
  destruct (start_decide m l al) as [(Hrej & e & Hst & He)|(Hacc & Hst)].
  - split; [|split].
    + split; [intros _; exact Hrej|intros _; eauto].
    + intros _ w. rewrite Hst.
      destruct (exec_raise_at_once E e w) as (Ho & Hc & Ht).
      cbv zeta in *. rewrite Ho, Hc, Ht. split; [|split; reflexivity].
      exists e. split; [|exact He]. destruct e; try reflexivity. destruct He.
    + intros Hn. contradiction.
  - split; [|split].
    + split; [|intros H; contradiction].
      intros (e & He & _). rewrite Hst in He. discriminate.
    + intros H. contradiction.
    + intros _ s0 is_connected d wr ts e Ho.
      rewrite Hst in Ho.
      destruct (exec_invoke_fresh E no_value_error
                  (fun _ s _ => nve_random_loop (loop_fuel E) s)
                  (start_session m l al) (mkWorld s0 is_connected [] [] d wr)
                  eq_refl (nve_start_session m l al s0) (Forall_nil _) ts)
        as [Hw | (_ & Hok & _)].
      * cbv zeta in Hw. rewrite Hw in Ho. discriminate.
      * unfold outcome_of, task_state in Ho.
        destruct (nth_error (tasks _) 0%nat) as [tc|] eqn:Hn; [|discriminate].
        specialize (Hok 0%nat tc Hn). cbn in Ho.
        destruct (state tc) as [| |o]; try discriminate.
        injection Ho as ->. exact Hok.
Qed.

(** ** Running schedules symbolically; [stop] on an idle engine *)

Lemma replace_nth_last {A : Type} (l : list A) (x y : A) :
  replace_nth (List.length l) y (l ++ [x]) = (l ++ [y])%list.
Proof. induction l as [|a l IH]; cbn; [reflexivity|]. now rewrite IH. Qed.

Lemma exec_cons (E : env) (a : action) (rest : list action) (w : world) :
  exec E (a :: rest) w = exec E rest (act E a w).
Proof. reflexivity. Qed.

Lemma exec_nil (E : env) (w : world) : exec E [] w = w.
Proof. reflexivity. Qed.

Ltac world_simpl :=
  unfold with_tasks, with_ctl, emit, next_draw, next_write, put_task;
  cbn [tasks ctl trace connected draws writes state must_cancel fst snd
       is_running mode limits auto_loop task b_channel_timer last_b_command_time
       set_is_running set_session set_task set_b_channel_timer set_last_b_command_time].

Ltac run_simpl :=
  cbn [run perform bind try_except do await pass negb
       except_Exception except_CancelledError is_Exception
       random_randint random_choice random_uniform];
  world_simpl.

(** Give the next action of the schedule its effect. *)
Ltac next_action :=
  rewrite exec_cons; cbn [act];
  try (unfold resume at 1; world_simpl;
       rewrite ?replace_nth_last, ?nth_error_last; world_simpl;
       unfold run_task);
  run_simpl.

Lemma device_check_zero :
  device_check (set_speed "A" 0) = None /\ device_check (set_speed "B" 0) = None
  /\ device_check (set_speed "C" 0) = None /\ device_check (set_mode "A" 0) = None
  /\ device_check (set_mode "B" 0) = None /\ device_check (set_mode "C" 0) = None.
Proof. repeat split. Qed.

Ltac zero_ok :=
  rewrite ?(proj1 device_check_zero), ?(proj1 (proj2 device_check_zero)),
    ?(proj1 (proj2 (proj2 device_check_zero))),
    ?(proj1 (proj2 (proj2 (proj2 device_check_zero)))),
    ?(proj1 (proj2 (proj2 (proj2 (proj2 device_check_zero))))),
    ?(proj2 (proj2 (proj2 (proj2 (proj2 device_check_zero))))).

Lemma mode_is_set_is_running (b : bool) (s : controller) (m : string) :
  mode_is (set_is_running b s) m = mode_is s m.
Proof. reflexivity. Qed.

(** Replace [exec E schedule w] in the goal by the world it computes,
    found by running the schedule with [tac] after every action. *)
Ltac compute_exec tac :=
  match goal with
  | |- context [exec ?E ?sch ?w0] =>
      let W := fresh "W" in
      let HW := fresh "HW" in
      evar (W : world);
      assert (HW : exec E sch w0 = W);
      [ repeat (next_action; repeat (progress tac)); rewrite exec_nil; world_simpl;
        rewrite ?replace_nth_last; subst W; reflexivity
      | rewrite !HW; subst W; clear HW ]
  end.

Lemma outcome_of_last (c : controller) (b : bool) (ts : list tcb) (x : tcb)
    (tr : list (task_id * event)) (d wr : nat) :
  outcome_of (List.length ts) (mkWorld c b (ts ++ [x]) tr d wr)
  = match state x with Finished o => Some o | _ => None end.
Proof.
  unfold outcome_of, task_state. cbn [tasks]. rewrite nth_error_last. reflexivity.
Qed.

Lemma task_done_app (t : task_id) (w : world) (c : controller) (b : bool)
    (l : list tcb) (tr : list (task_id * event)) (d wr : nat) :
  task_done t w = true -> task_done t (mkWorld c b (tasks w ++ l) tr d wr) = true.
Proof.
  unfold task_done, task_state. cbn [tasks].
  destruct (nth_error (tasks w) t) as [tc|] eqn:Hn; [|discriminate].
  rewrite nth_error_app1 by (apply nth_error_Some; congruence). rewrite Hn. auto.
Qed.

(** C2 (amended). On an idle engine [stop] leaves the engine idle and
    issues the zero commands for A, B and C in this order, set_speed when
    the stored mode is 'speed' and set_mode otherwise (so also on a
    controller that never ran, whose mode is None), until one of them
    fails: all three when the writes go through, and then [stop] returns;
    only the first when the device is not connected, and then its
    RuntimeError leaves [stop]; up to and including the first whose BLE
    write fails, and then that error leaves [stop]. *)
Theorem idle_stop (E : env) (w : world) :
  is_running (ctl w) = false ->
  (forall t, task (ctl w) = Some t -> task_done t w = true) ->
  b_channel_timer (ctl w) = None ->
  let t := List.length (tasks w) in
  let w' := exec E [Invoke stop; Step t; Step t; Step t; Step t] w in
  outcome_of t w' = Some (snd (zeroing E w))
  /\ is_running (ctl w') = false
  /\ calls (trace w')
     = (calls (trace w) ++ firstn (fst (zeroing E w)) (zero_calls (ctl w)))%list
  /\ (write_result E w = None ->
      write_result E (next_write w) = None ->
      write_result E (next_write (next_write w)) = None ->
      zeroing E w = (3%nat, Done)).
Proof.
  intros Hidle Htask Htimer t w'. subst t w'.
  unfold stop, zero_calls, zeroing, write_result, next_write.
  cbn [connected writes].
  destruct (connected w) eqn:Hcon;
    [destruct (link_ok E (writes w)) eqn:L0;
     [destruct (link_ok E (S (writes w))) eqn:L1;
      [destruct (link_ok E (S (S (writes w)))) eqn:L2|]|]|];
    (destruct (task (ctl w)) as [t0|] eqn:Ht0;
     [pose proof (Htask t0 eq_refl) as Hdone|];
     (destruct (mode_is (ctl w) "speed") eqn:Hm;
      compute_exec ltac:(rewrite ?Ht0, ?Htimer, ?mode_is_set_is_running, ?Hm,
                           ?(task_done_app _ _ _ _ _ _ _ _ Hdone);
                         run_simpl; zero_ok; rewrite ?Hcon, ?L0, ?L1, ?L2; world_simpl);
      rewrite outcome_of_last; cbn [state ctl trace is_running set_is_running fst snd];
      rewrite !calls_app; cbn [calls flat_map snd app firstn];
      rewrite <- ?app_assoc, ?app_nil_r; cbn [app];
      repeat split; auto; discriminate)).
Qed.

Lemma idle_stop_witness :
  let w' := exec (steady 0) [Invoke stop; Step 0; Step 0; Step 0; Step 0]%nat (boot true) in
  let w'' := exec (steady 0) [Invoke stop; Step 0; Step 0; Step 0; Step 0]%nat (boot false) in
  (outcome_of 0%nat w' = Some Done
   /\ is_running (ctl w') = false
   /\ calls (trace w') = [set_mode "A" 0; set_mode "B" 0; set_mode "C" 0])
  /\ (outcome_of 0%nat w'' = Some (Failed RuntimeError)
      /\ is_running (ctl w'') = false
      /\ calls (trace w'') = [set_mode "A" 0]).
Proof.
  split.
  - destruct (idle_stop (steady 0) (boot true) eq_refl
                ltac:(discriminate) eq_refl) as (H1 & H2 & H3 & _).
    split; [exact H1|split; [exact H2|exact H3]].
  - destruct (idle_stop (steady 0) (boot false) eq_refl
                ltac:(discriminate) eq_refl) as (H1 & H2 & H3 & _).
    split; [exact H1|split; [exact H2|exact H3]].
Defined.

(** ** The channel-B release *)

(** The release duration, by where [inhale_duration * 0.6] lies: 3.0 when
    it is above 3.0, itself when it is above 0.5 and not above 3.0, and 0.5
    otherwise. *)
Lemma exhale_cases (inhale_duration : float) :
  exhale_duration inhale_duration
  = (if 3.0 <? inhale_duration * 0.6 then 3.0
     else if 0.5 <? inhale_duration * 0.6 then inhale_duration * 0.6 else 0.5)%float.
Proof.
  unfold exhale_duration, py_max, py_min.
  destruct (3.0 <? inhale_duration * 0.6)%float; reflexivity.
Qed.

Lemma SFcompare_antisym (x y : spec_float) :
  SFcompare y x = option_map CompOpp (SFcompare x y).
Proof.
  destruct x as [sx|sx| |sx mx ex], y as [sy|sy| |sy my ey]; cbn;
    try reflexivity; try (destruct sx; reflexivity); try (destruct sy; reflexivity);
    try (destruct sx, sy; reflexivity).
  destruct sx, sy; cbn; try reflexivity; rewrite (Z.compare_antisym ex ey);
    destruct (ex ?= ey); cbn; try reflexivity;
    rewrite (Pos.compare_cont_antisym mx my Eq); cbn; rewrite ?CompOpp_involutive;
    reflexivity.
Qed.

Lemma SFcompare_None (x y : spec_float) :
  SFcompare x y = None -> x = S754_nan \/ y = S754_nan.
Proof. destruct x, y; cbn; auto; discriminate. Qed.

Lemma ltb_leb (a x : float) : (a <? x)%float = true -> (a <=? x)%float = true.
Proof.
  rewrite ltb_spec, leb_spec. unfold SFltb, SFleb.
  destruct (SFcompare (Prim2SF a) (Prim2SF x)) as [[| |]|]; congruence.
Qed.

(** [x <= b] for a number [x] (it is above some [a]) that is not above the
    number [b]. *)
Lemma not_ltb_leb (a b x : float) :
  (a <? x)%float = true -> (b <=? b)%float = true -> (b <? x)%float = false ->
  (x <=? b)%float = true.
Proof.
  rewrite !ltb_spec, !leb_spec. unfold SFltb, SFleb.
  rewrite (SFcompare_antisym (Prim2SF b) (Prim2SF x)).
  intros Ha Hb Hx.
  destruct (SFcompare (Prim2SF b) (Prim2SF x)) as [[| |]|] eqn:H; cbn;
    try reflexivity; try discriminate.
  destruct (SFcompare_None _ _ H) as [H1|H1]; rewrite H1 in *.
  - destruct (Prim2SF b); discriminate.
  - destruct (Prim2SF a); discriminate.
Qed.

(** The release lasts between 0.5 and 3.0 seconds, whatever the hold. *)
Lemma exhale_bounds (inhale_duration : float) :
  (0.5 <=? exhale_duration inhale_duration)%float = true
  /\ (exhale_duration inhale_duration <=? 3.0)%float = true.
Proof.
  rewrite exhale_cases.
  destruct (3.0 <? inhale_duration * 0.6)%float eqn:H3; [split; reflexivity|].
  destruct (0.5 <? inhale_duration * 0.6)%float eqn:H0; [|split; reflexivity].
  split; [apply ltb_leb; exact H0|apply (not_ltb_leb 0.5); [exact H0|reflexivity|exact H3]].
Qed.

Lemma nth_below_In (l : list Z) (raw : nat) :
  l <> [] -> In (nth (below (List.length l) raw) l 0) l.
Proof.
  intros H. apply nth_In. apply below_lt. destruct l; [congruence|discriminate].
Qed.

Lemma device_check_speed (channel : string) (v : Z) :
  In channel ["A"; "B"; "C"] ->
  0 <= v <= (if String.eqb channel "A" then 40 else 20) ->
  device_check (set_speed channel v) = None.
Proof.
  intros Hc Hv. cbn in Hc.
  destruct Hc as [<-|[<-|[<-|[]]]]; cbn in *;
    (destruct (0 <=? v) eqn:H0; [|lia]);
    [destruct (v <=? 40) eqn:H1|destruct (v <=? 20) eqn:H1|destruct (v <=? 20) eqn:H1];
    try reflexivity; lia.
Qed.

Lemma possible_values_nonempty (channel : string) (min_val max_val : Z) :
  pair_ok channel min_val max_val ->
  possible_values channel min_val max_val [] <> []
  /\ forall v, In v (possible_values channel min_val max_val []) ->
               min_val <= v <= max_val.
Proof.
  unfold pair_ok. intros [H1 H2].
  destruct (String.eqb channel "A") eqn:HA.
  - apply String.eqb_eq in HA. subst channel. split.
    + intros Hnil.
      assert (Hin : In (if min_val =? 0 then 0 else min_val)
                       (possible_values "A" min_val max_val [])).
      { apply possible_values_A. unfold in_A_domain.
        destruct (Z.eqb_spec min_val 0); lia. }
      rewrite Hnil in Hin. destruct Hin.
    + intros v Hv. apply possible_values_A in Hv. unfold in_A_domain in Hv. lia.
  - split.
    + intros Hnil.
      assert (Hin : In min_val (possible_values channel min_val max_val []))
        by (apply possible_values_flat; [exact HA|lia]).
      rewrite Hnil in Hin. destruct Hin.
    + intros v Hv. apply (possible_values_flat channel _ _ _ HA) in Hv. lia.
Qed.

Lemma pair_ok_bounds (channel : string) (min_val max_val : Z) :
  pair_ok channel min_val max_val ->
  0 <= min_val <= max_val /\ max_val <= 40
  /\ (String.eqb channel "A" = false -> max_val <= 20).
Proof.
  unfold pair_ok. destruct (String.eqb channel "A"); intros [H1 H2];
    (split; [exact H1|split; [lia|]]); [discriminate|intros _; exact H2].
Qed.
Lemma mode_is_set_last_b_command_time (q : float) (s : controller) (m : string) :
  mode_is (set_last_b_command_time q s) m = mode_is s m.
Proof. reflexivity. Qed.

(** The values drawn for a pass in Speed mode under valid limits, and what
    the device makes of them. *)
Lemma speed_draws (E : env) (s : controller) (d : nat) (a0 a1 b0 b1 c0 c1 : Z) :
  pair_ok "A" a0 a1 -> pair_ok "B" b0 b1 -> pair_ok "C" c0 c1 ->
  let a := drawn "A" a0 a1 (rnd_below E d) in
  let b := drawn "B" b0 b1 (rnd_below E (S d)) in
  let c := drawn "C" c0 c1 (rnd_below E (S (S d))) in
  (exists xa xsa, possible_values "A" a0 a1 [] = xa :: xsa)
  /\ (exists xb xsb, possible_values "B" b0 b1 [] = xb :: xsb)
  /\ (exists xc xsc, possible_values "C" c0 c1 [] = xc :: xsc)
  /\ device_check (set_speed "A" a) = None
  /\ device_check (set_speed "B" b) = None
  /\ device_check (set_speed "C" c) = None
  /\ ((b >? 0) = false -> b = 0).
Proof.
  intros VA VB VC a b c.
  destruct (possible_values_nonempty "A" a0 a1 VA) as [NA RA].
  destruct (possible_values_nonempty "B" b0 b1 VB) as [NB RB].
  destruct (possible_values_nonempty "C" c0 c1 VC) as [NC RC].
  pose proof (RA a (nth_below_In _ _ NA)) as Ha.
  pose proof (RB b (nth_below_In _ _ NB)) as Hb.
  pose proof (RC c (nth_below_In _ _ NC)) as Hc.
  destruct (pair_ok_bounds _ _ _ VA) as (BA1 & BA2 & _).
  destruct (pair_ok_bounds _ _ _ VB) as (BB1 & _ & BB2). specialize (BB2 eq_refl).
  destruct (pair_ok_bounds _ _ _ VC) as (BC1 & _ & BC2). specialize (BC2 eq_refl).
  split; [destruct (possible_values "A" a0 a1 []); [congruence|eauto]|].
  split; [destruct (possible_values "B" b0 b1 []); [congruence|eauto]|].
  split; [destruct (possible_values "C" c0 c1 []); [congruence|eauto]|].
  split; [apply device_check_speed; [cbn; auto|change (0 <= a <= 40); lia]|].
  split; [apply device_check_speed; [cbn; auto|change (0 <= b <= 20); lia]|].
  split; [apply device_check_speed; [cbn; auto|change (0 <= c <= 20); lia]|].
  lia.
Qed.


(** ** Device-write failures *)

Lemma task_state_last (c : controller) (b : bool) (ts : list tcb) (x : tcb)
    (tr : list (task_id * event)) (d wr : nat) :
  task_state (List.length ts) (mkWorld c b (ts ++ [x]) tr d wr) = Some (state x).
Proof. unfold task_state. cbn [tasks]. rewrite nth_error_last. reflexivity. Qed.



Lemma device_check_mode (channel : string) (v : Z) :
  In channel ["A"; "B"; "C"] -> 0 <= v <= 7 ->
  device_check (set_mode channel v) = None.
Proof.
  intros Hc Hv. cbn in Hc.
  destruct Hc as [<-|[<-|[<-|[]]]]; cbn;
    (destruct (0 <=? v) eqn:H0; [|lia]); (destruct (v <=? 7) eqn:H1; [|lia]); reflexivity.
Qed.

Lemma drawn_mode_range (raw : nat) : 1 <= drawn_mode raw <= 7.
Proof.
  unfold drawn_mode. pose proof (below_lt (Z.to_nat (7 - 1 + 1)) raw ltac:(discriminate)).
  lia.
Qed.

Lemma drawn_mode_accepted (channel : string) (raw : nat) :
  In channel ["A"; "B"; "C"] -> device_check (set_mode channel (drawn_mode raw)) = None.
Proof.
  intros Hc. apply device_check_mode; [exact Hc|].
  pose proof (drawn_mode_range raw). lia.
Qed.

(** [run_simpl] in two phases: the binds first, then the run. *)
Ltac run_steps :=
  cbn [bind try_except do await pass negb except_Exception except_CancelledError
       is_Exception random_randint random_choice random_uniform];
  cbn [run perform]; world_simpl.


Lemma exec_snoc (E : env) (l : list action) (a : action) (w : world) :
  exec E (l ++ [a]) w = act E a (exec E l w).
Proof. unfold exec. rewrite fold_left_app. reflexivity. Qed.


(** ** The pass of the loop in Speed mode: hold and release *)

(** [compute_exec] for a schedule run from a world that is written out. *)
Ltac compute_exec_in tac :=
  match goal with
  | |- context [exec ?E ?sch (mkWorld ?s ?c ?tk ?tr ?d ?wr)] =>
      let W := fresh "W" in
      let HW := fresh "HW" in
      evar (W : world);
      assert (HW : exec E sch (mkWorld s c tk tr d wr) = W);
      [ repeat (next_action; repeat (progress tac)); rewrite exec_nil; world_simpl;
        rewrite ?replace_nth_last; subst W; reflexivity
      | rewrite !HW; subst W; clear HW ]
  end.

(** A failing release write, whatever makes it fail (the device was
    disconnected during the hold, or the BLE write fails): caught and
    logged by the release handler; the very turn that logs it goes on with
    what follows the pass, and no sleep comes between. *)
Lemma release_failure (E : env) (w : world) (ts : list tcb) (rest : coro unit)
    (a0 a1 b0 b1 c0 c1 : Z) (online : bool) (e : exn) :
  tasks w = (ts ++ [mkTcb (Ready (loop_iteration ;; rest)) false])%list ->
  mode_is (ctl w) "speed" = true ->
  dict_get "A" (limits (ctl w)) = Some (a0, a1) ->
  dict_get "B" (limits (ctl w)) = Some (b0, b1) ->
  dict_get "C" (limits (ctl w)) = Some (c0, c1) ->
  pair_ok "A" a0 a1 -> pair_ok "B" b0 b1 -> pair_ok "C" c0 c1 ->
  connected w = true ->
  link_ok E (writes w) = true ->
  link_ok E (S (writes w)) = true ->
  link_ok E (S (S (writes w))) = true ->
  let t := List.length ts in
  let a := drawn "A" a0 a1 (rnd_below E (draws w)) in
  let b := drawn "B" b0 b1 (rnd_below E (S (draws w))) in
  let c := drawn "C" c0 c1 (rnd_below E (S (S (draws w)))) in
  let hold := (3.0 + (11.0 - 3.0) * unit_interval (rnd_unit E (S (S (S (draws w))))))%float in
  let w4 := with_connected online (exec E [Step t; Step t; Step t; Step t] w) in
  write_result E w4 = Some e ->
  exists w6,
    exec E (repeat (Step t) (if online then 2 else 1)) w4 = run_task E t rest w6
    /\ trace w6
       = (trace w ++ map (pair t) (failed_release_events (mode (ctl w)) a b c hold e))%list.
Proof.
  intros Htasks Hmode HA HB HC VA VB VC Hcon L0 L1 L2.
  destruct w as [s conn tks tr d wr]. cbn [tasks ctl connected writes draws trace] in *.
  subst tks conn. cbv zeta.
  destruct (speed_draws E s d a0 a1 b0 b1 c0 c1 VA VB VC)
    as ((xa & xsa & PA) & (xb & xsb & PB) & (xc & xsc & PC) & DA & DB & DC & Hb0).
  unfold drawn in *. rewrite PA, PB, PC in *. cbv zeta in *.
  set (a := nth (below (List.length (xa :: xsa)) (rnd_below E d)) (xa :: xsa) 0) in *.
  set (b := nth (below (List.length (xb :: xsb)) (rnd_below E (S d))) (xb :: xsb) 0) in *.
  set (c := nth (below (List.length (xc :: xsc)) (rnd_below E (S (S d)))) (xc :: xsc) 0) in *.
  unfold loop_iteration, execute_cycle, _execute_speed_mode, _generate_random_value,
    _generate_frequency_delay, _handle_b_channel_exhale_cycle, failed_release_events.
  destruct (b >? 0) eqn:Hgt;
    compute_exec_in ltac:(rewrite ?Hmode, ?mode_is_set_last_b_command_time, ?HA, ?HB, ?HC,
                            ?PA, ?PB, ?PC; run_steps;
                          fold a b c; rewrite ?Hgt, ?DA, ?DB, ?DC; zero_ok;
                          rewrite ?L0, ?L1, ?L2; world_simpl).
  all: unfold with_connected, write_result; cbn [ctl connected tasks trace draws writes].
  all: destruct online; [destruct (link_ok E (S (S (S wr)))) eqn:L3; [discriminate|]|];
    intros He; injection He as <-; cbn [repeat].
  all: set (t := List.length ts).
  all: try (change [Step t; Step t] with ([Step t] ++ [Step t])%list; rewrite exec_snoc;
            subst t;
            compute_exec_in ltac:(rewrite ?Hmode, ?mode_is_set_last_b_command_time;
                                  run_steps; zero_ok; rewrite ?L3; world_simpl);
            set (t := List.length ts)).
  all: try rewrite exec_cons, exec_nil.
  all: eexists; split;
    [ cbn [act]; unfold resume; cbn [tasks]; subst t; rewrite nth_error_last;
      cbn [state must_cancel]; unfold run_task at 1;
      repeat (progress (run_steps; rewrite ?mode_is_set_last_b_command_time, ?Hmode;
                        zero_ok));
      reflexivity
    | cbn [trace map]; rewrite <- !app_assoc; try rewrite (Hb0 eq_refl); reflexivity ].
Qed.

(** The release write goes through: the task sleeps for the release
    duration, then logs the end of the release and goes on with what
    follows the pass. *)
Lemma release_success (E : env) (w : world) (ts : list tcb) (rest : coro unit)
    (a0 a1 b0 b1 c0 c1 : Z) (online : bool) :
  tasks w = (ts ++ [mkTcb (Ready (loop_iteration ;; rest)) false])%list ->
  mode_is (ctl w) "speed" = true ->
  dict_get "A" (limits (ctl w)) = Some (a0, a1) ->
  dict_get "B" (limits (ctl w)) = Some (b0, b1) ->
  dict_get "C" (limits (ctl w)) = Some (c0, c1) ->
  pair_ok "A" a0 a1 -> pair_ok "B" b0 b1 -> pair_ok "C" c0 c1 ->
  connected w = true ->
  link_ok E (writes w) = true ->
  link_ok E (S (writes w)) = true ->
  link_ok E (S (S (writes w))) = true ->
  let t := List.length ts in
  let a := drawn "A" a0 a1 (rnd_below E (draws w)) in
  let b := drawn "B" b0 b1 (rnd_below E (S (draws w))) in
  let c := drawn "C" c0 c1 (rnd_below E (S (S (draws w)))) in
  let hold := (3.0 + (11.0 - 3.0) * unit_interval (rnd_unit E (S (S (S (draws w))))))%float in
  let w4 := with_connected online (exec E [Step t; Step t; Step t; Step t] w) in
  write_result E w4 = None ->
  let w' := exec E [Step t; Step t] w4 in
  trace w'
  = (trace w ++ map (pair t) (speed_cycle_events (mode (ctl w)) a b c hold))%list
  /\ (exists k, task_state t w' = Some (Blocked (ASleep (exhale_duration hold)) None k))
  /\ exists w7,
       exec E [Step t] w' = run_task E t rest w7
       /\ trace w7 = (trace w' ++ [(t, Logged DEBUG ExhaleDone)])%list.
Proof.
  intros Htasks Hmode HA HB HC VA VB VC Hcon L0 L1 L2.
  destruct w as [s conn tks tr d wr]. cbn [tasks ctl connected writes draws trace] in *.
  subst tks conn. cbv zeta.
  destruct (speed_draws E s d a0 a1 b0 b1 c0 c1 VA VB VC)
    as ((xa & xsa & PA) & (xb & xsb & PB) & (xc & xsc & PC) & DA & DB & DC & Hb0).
  unfold drawn in *. rewrite PA, PB, PC in *. cbv zeta in *.
  set (a := nth (below (List.length (xa :: xsa)) (rnd_below E d)) (xa :: xsa) 0) in *.
  set (b := nth (below (List.length (xb :: xsb)) (rnd_below E (S d))) (xb :: xsb) 0) in *.
  set (c := nth (below (List.length (xc :: xsc)) (rnd_below E (S (S d)))) (xc :: xsc) 0) in *.
  unfold loop_iteration, execute_cycle, _execute_speed_mode, _generate_random_value,
    _generate_frequency_delay, _handle_b_channel_exhale_cycle, speed_cycle_events.
  destruct (b >? 0) eqn:Hgt;
    compute_exec_in ltac:(rewrite ?Hmode, ?mode_is_set_last_b_command_time, ?HA, ?HB, ?HC,
                            ?PA, ?PB, ?PC; run_steps;
                          fold a b c; rewrite ?Hgt, ?DA, ?DB, ?DC; zero_ok;
                          rewrite ?L0, ?L1, ?L2; world_simpl).
  all: unfold with_connected, write_result; cbn [ctl connected tasks trace draws writes].
  all: destruct online; [|discriminate];
    destruct (link_ok E (S (S (S wr)))) eqn:L3; [|discriminate]; intros _.
  all: compute_exec_in ltac:(rewrite ?Hmode, ?mode_is_set_last_b_command_time;
                             run_steps; zero_ok; rewrite ?L3; world_simpl).
  all: rewrite task_state_last; cbn [state trace].
  all: split; [rewrite <- !app_assoc; try rewrite (Hb0 eq_refl); reflexivity|].
  all: split; [eexists; reflexivity|].
  all: rewrite exec_cons, exec_nil; eexists; split;
    [ cbn [act]; unfold resume; cbn [tasks]; rewrite nth_error_last;
      cbn [state must_cancel]; unfold run_task at 1; run_steps; reflexivity
    | reflexivity ].
Qed.

(** C8 (amended). In Speed mode, after the hold of a cycle the engine
    commands channel B to 0.  The release duration is the hold duration
    times 0.6 in binary64 arithmetic, kept within [0.5, 3.0] seconds: 3.0
    when the product is above 3.0, the product when it is above 0.5, and
    0.5 otherwise.  When the command goes through, the task then suspends
    for that duration, logs the end of the release and goes on with the
    loop.  When the command fails, because the device was disconnected
    during the hold or because the BLE write fails, the release handler
    logs the error and the loop goes on at once: the task does not
    suspend. *)
Theorem speed_cycle_release (E : env) (w : world) (ts : list tcb) (rest : coro unit)
    (a0 a1 b0 b1 c0 c1 : Z) (online : bool) :
  tasks w = (ts ++ [mkTcb (Ready (loop_iteration ;; rest)) false])%list ->
  mode_is (ctl w) "speed" = true ->
  dict_get "A" (limits (ctl w)) = Some (a0, a1) ->
  dict_get "B" (limits (ctl w)) = Some (b0, b1) ->
  dict_get "C" (limits (ctl w)) = Some (c0, c1) ->
  pair_ok "A" a0 a1 -> pair_ok "B" b0 b1 -> pair_ok "C" c0 c1 ->
  connected w = true ->
  link_ok E (writes w) = true ->
  link_ok E (S (writes w)) = true ->
  link_ok E (S (S (writes w))) = true ->
  let t := List.length ts in
  let a := drawn "A" a0 a1 (rnd_below E (draws w)) in
  let b := drawn "B" b0 b1 (rnd_below E (S (draws w))) in
  let c := drawn "C" c0 c1 (rnd_below E (S (S (draws w)))) in
  let hold := (3.0 + (11.0 - 3.0) * unit_interval (rnd_unit E (S (S (S (draws w))))))%float in
  let release := exhale_duration hold in
  let w4 := with_connected online (exec E [Step t; Step t; Step t; Step t] w) in
  release = (if 3.0 <? hold * 0.6 then 3.0
             else if 0.5 <? hold * 0.6 then hold * 0.6 else 0.5)%float
  /\ (0.5 <=? release)%float = true
  /\ (release <=? 3.0)%float = true
  /\ match write_result E w4 with
     | None =>
         let w' := exec E [Step t; Step t] w4 in
         trace w'
         = (trace w ++ map (pair t) (speed_cycle_events (mode (ctl w)) a b c hold))%list
         /\ (exists k, task_state t w' = Some (Blocked (ASleep release) None k))
         /\ exists w7,
              exec E [Step t] w' = run_task E t rest w7
              /\ trace w7 = (trace w' ++ [(t, Logged DEBUG ExhaleDone)])%list
     | Some e =>
         exists w6,
           exec E (repeat (Step t) (if online then 2 else 1)) w4 = run_task E t rest w6
           /\ trace w6
              = (trace w
                 ++ map (pair t) (failed_release_events (mode (ctl w)) a b c hold e))%list
     end.
Proof.
  intros Htasks Hmode HA HB HC VA VB VC Hcon L0 L1 L2 t a b c hold release w4.
  split; [apply exhale_cases|].
  split; [apply exhale_bounds|].
  split; [apply exhale_bounds|].
  destruct (write_result E w4) as [e|] eqn:Hw.
  - exact (release_failure E w ts rest a0 a1 b0 b1 c0 c1 online e
             Htasks Hmode HA HB HC VA VB VC Hcon L0 L1 L2 Hw).
  - exact (release_success E w ts rest a0 a1 b0 b1 c0 c1 online
             Htasks Hmode HA HB HC VA VB VC Hcon L0 L1 L2 Hw).
Qed.

Lemma speed_cycle_release_witness :
  let E := steady 1 in
  let w4 := with_connected true (exec E [Step 0; Step 0; Step 0; Step 0]%nat cycle_start) in
  let w' := exec E [Step 0; Step 0]%nat w4 in
  let a := drawn "A" 0 15 (rnd_below E 0) in
  let b := drawn "B" 1 10 (rnd_below E 1) in
  let c := drawn "C" 0 8 (rnd_below E 2) in
  let hold := (3.0 + (11.0 - 3.0) * unit_interval (rnd_unit E 3))%float in
  hold = 7%float
  /\ exhale_duration hold = 3%float
  /\ write_result E w4 = None
  /\ trace w' = map (pair 0%nat) (speed_cycle_events (Some "speed") a b c hold)
  /\ exists k, task_state 0%nat w' = Some (Blocked (ASleep 3) None k).
Proof.
  cbv zeta.
  split; [reflexivity|]. split; [reflexivity|]. split; [reflexivity|].
  assert (VA : pair_ok "A" 0 15) by (unfold pair_ok; cbn; lia).
  assert (VB : pair_ok "B" 1 10) by (unfold pair_ok; cbn; lia).
  assert (VC : pair_ok "C" 0 8) by (unfold pair_ok; cbn; lia).
  pose proof (speed_cycle_release (steady 1) cycle_start [] (while_running 0)
                0 15 1 10 0 8 true eq_refl eq_refl eq_refl eq_refl eq_refl VA VB VC
                eq_refl eq_refl eq_refl eq_refl) as H.
  cbv zeta in H. destruct H as (_ & _ & _ & H).
  change (write_result (steady 1)
            (with_connected true
               (exec (steady 1) [Step (List.length (@nil tcb)); Step (List.length (@nil tcb));
                                 Step (List.length (@nil tcb)); Step (List.length (@nil tcb))]
                  cycle_start)))
    with (@None exn) in H.
  destruct H as (H1 & H2 & _).
  split; [exact H1|exact H2].
Defined.

(** ** The cycle in Mode mode *)

Lemma drawn_mode_call (channel : string) (raw : nat) :
  In channel ["A"; "B"; "C"] -> mode_call (set_mode channel (drawn_mode raw)).
Proof.
  intros Hc. exists channel, (drawn_mode raw).
  split; [reflexivity|split; [exact Hc|apply drawn_mode_range]].
Qed.

(** Run a schedule from a world whose task table is written out, with
    [tac] after every simplification. *)
Ltac run_schedule tac :=
  match goal with
  | |- context [exec ?E0 ?sch ?w0] =>
      let W := fresh "W" in
      let HW := fresh "HW" in
      evar (W : world);
      assert (HW : exec E0 sch w0 = W);
      [ repeat (rewrite exec_cons; cbn [act];
                try (unfold resume at 1; world_simpl; cbn [app nth_error];
                     unfold run_task);
                repeat (progress
                          (run_steps; cbn [run perform do await pass];
                           cbn [app nth_error replace_nth List.length task_done
                                task_state option_map request_cancel mode_is tasks state
                                must_cancel mode is_running limits auto_loop task
                                b_channel_timer set_is_running set_task set_session
                                String.eqb Ascii.eqb Bool.eqb await_result negb];
                           tac; world_simpl)));
        rewrite exec_nil; subst W; reflexivity
      | rewrite !HW; subst W; clear HW ]
  end.

(** The first cycle of an auto-loop session in Mode mode, as far as its
    hold: a value from 1 to 7 is drawn for each channel and written with
    set_mode, to A, B and C in this order. *)
Lemma mode_first_cycle (E : env) (l : limits_t) (s0 : controller) (d wr : nat) :
  is_running s0 = false -> ~ start_rejects "mode" l ->
  loop_fuel E <> 0%nat ->
  link_ok E wr = true -> link_ok E (S wr) = true -> link_ok E (S (S wr)) = true ->
  let w := exec E [Invoke (start "mode" l true); Step 0; Step 1; Step 1; Step 1; Step 1]%nat
             (mkWorld s0 true [] [] d wr) in
  let a := drawn_mode (rnd_below E d) in
  let b := drawn_mode (rnd_below E (S d)) in
  let c := drawn_mode (rnd_below E (S (S d))) in
  let hold := (3.0 + (11.0 - 3.0) * unit_interval (rnd_unit E (S (S (S d)))))%float in
  trace w
  = ([(0%nat, Logged INFO (StartedLoop "mode")); (1%nat, Logged INFO LoopStarted);
      (1%nat, Logged INFO (NewRound (Some "mode")))]
     ++ map (pair 1%nat) (mode_cycle_events a b c)
     ++ [(1%nat, Logged INFO (Holding hold)); (1%nat, Slept hold)])%list.
Proof.
  intros Hidle Hacc Hfuel L0 L1 L2.
  destruct (start_decide "mode" l true) as [(Hrej & _)|(_ & ->)]; [contradiction|].
  destruct (loop_fuel E) as [|f] eqn:Hf; [congruence|].
  cbv zeta.
  pose proof (drawn_mode_accepted "A" (rnd_below E d) ltac:(cbn; auto)) as DA.
  pose proof (drawn_mode_accepted "B" (rnd_below E (S d)) ltac:(cbn; auto)) as DB.
  pose proof (drawn_mode_accepted "C" (rnd_below E (S (S d))) ltac:(cbn; auto)) as DC.
  unfold drawn_mode in *.
  set (a := 1 + Z.of_nat (below (Z.to_nat (7 - 1 + 1)) (rnd_below E d))) in *.
  set (b := 1 + Z.of_nat (below (Z.to_nat (7 - 1 + 1)) (rnd_below E (S d)))) in *.
  set (c := 1 + Z.of_nat (below (Z.to_nat (7 - 1 + 1)) (rnd_below E (S (S d))))) in *.
  unfold start_session, mode_cycle_events.
  run_schedule ltac:(rewrite ?Hidle, ?Hf; unfold _random_loop, loop_iteration, execute_cycle,
                       _execute_mode_mode, _generate_frequency_delay;
                     cbn [while_running andb];
                     fold a b c; rewrite ?DA, ?DB, ?DC, ?L0, ?L1, ?L2).
  cbn [trace]. reflexivity.
Qed.

(** The cycle of a single-shot session in Mode mode: the same three
    writes, the 10-second hold, and the call returns; nothing is written
    after the hold. *)
Lemma mode_single_shot (E : env) (l : limits_t) (s0 : controller) (d wr : nat) :
  is_running s0 = false -> ~ start_rejects "mode" l ->
  link_ok E wr = true -> link_ok E (S wr) = true -> link_ok E (S (S wr)) = true ->
  let w := exec E [Invoke (start "mode" l false); Step 0; Step 0; Step 0; Step 0; Step 0]%nat
             (mkWorld s0 true [] [] d wr) in
  let a := drawn_mode (rnd_below E d) in
  let b := drawn_mode (rnd_below E (S d)) in
  let c := drawn_mode (rnd_below E (S (S d))) in
  trace w
  = map (pair 0%nat)
      (mode_cycle_events a b c ++ [Slept 10; Logged INFO (StartedOnce "mode")])
  /\ outcome_of 0%nat w = Some Done.
Proof.
  intros Hidle Hacc L0 L1 L2.
  destruct (start_decide "mode" l false) as [(Hrej & _)|(_ & ->)]; [contradiction|].
  cbv zeta.
  pose proof (drawn_mode_accepted "A" (rnd_below E d) ltac:(cbn; auto)) as DA.
  pose proof (drawn_mode_accepted "B" (rnd_below E (S d)) ltac:(cbn; auto)) as DB.
  pose proof (drawn_mode_accepted "C" (rnd_below E (S (S d))) ltac:(cbn; auto)) as DC.
  unfold drawn_mode in *.
  set (a := 1 + Z.of_nat (below (Z.to_nat (7 - 1 + 1)) (rnd_below E d))) in *.
  set (b := 1 + Z.of_nat (below (Z.to_nat (7 - 1 + 1)) (rnd_below E (S d)))) in *.
  set (c := 1 + Z.of_nat (below (Z.to_nat (7 - 1 + 1)) (rnd_below E (S (S d))))) in *.
  unfold start_session, _execute_once, execute_cycle, _execute_mode_mode, mode_cycle_events.
  run_schedule ltac:(rewrite ?Hidle; fold a b c; rewrite ?DA, ?DB, ?DC, ?L0, ?L1, ?L2).
  cbn [trace outcome_of task_state tasks option_map nth_error state]. split; reflexivity.
Qed.

(** C6. In Mode mode every value written in a cycle, to each of the channels
    A, B and C, lies in [1, 7] and is never 0, whatever limits the caller
    gave, and there is no channel-B release, whatever auto_loop is.  A
    session started in Mode mode on an idle engine makes no device call but
    set_mode with a value from 1 to 7, under any schedule and whatever the
    link does; and the values are written: when the writes go through, the
    first cycle of an auto-loop session and the cycle of a single-shot
    session draw a value from 1 to 7 for each channel and write it with
    set_mode to A, B and C, then hold. *)
Theorem mode_session_calls (E : env) (l : limits_t) (s0 : controller) (d wr : nat) :
  is_running s0 = false ->
  (forall al is_connected ts,
     Forall mode_call
       (calls (trace (exec E (Invoke (start "mode" l al) :: map Step ts)
                        (mkWorld s0 is_connected [] [] d wr)))))
  /\ (~ start_rejects "mode" l ->
      link_ok E wr = true -> link_ok E (S wr) = true -> link_ok E (S (S wr)) = true ->
      let a := drawn_mode (rnd_below E d) in
      let b := drawn_mode (rnd_below E (S d)) in
      let c := drawn_mode (rnd_below E (S (S d))) in
      let hold := (3.0 + (11.0 - 3.0) * unit_interval (rnd_unit E (S (S (S d)))))%float in
      1 <= a <= 7 /\ 1 <= b <= 7 /\ 1 <= c <= 7
      /\ (loop_fuel E <> 0%nat ->
          trace (exec E [Invoke (start "mode" l true); Step 0; Step 1; Step 1; Step 1;
                         Step 1]%nat (mkWorld s0 true [] [] d wr))
          = ([(0%nat, Logged INFO (StartedLoop "mode")); (1%nat, Logged INFO LoopStarted);
              (1%nat, Logged INFO (NewRound (Some "mode")))]
             ++ map (pair 1%nat) (mode_cycle_events a b c)
             ++ [(1%nat, Logged INFO (Holding hold)); (1%nat, Slept hold)])%list)
      /\ (let w := exec E [Invoke (start "mode" l false); Step 0; Step 0; Step 0; Step 0;
                           Step 0]%nat (mkWorld s0 true [] [] d wr) in
          trace w
          = map (pair 0%nat)
              (mode_cycle_events a b c ++ [Slept 10; Logged INFO (StartedOnce "mode")])
          /\ outcome_of 0%nat w = Some Done)).
Proof.
  intros Hidle. split.
  - intros al is_connected ts.
    destruct (start_cases "mode" l al) as [-> | [msg ->]].
    + destruct (exec_invoke_fresh E mode_policy
                  (fun _ s Hs => mode_random_loop (loop_fuel E) s Hs)
                  (start_session "mode" l al) (mkWorld s0 is_connected [] [] d wr)
                  eq_refl (mode_start_session l al s0 Hidle) (Forall_nil _) ts)
        as [-> | (_ & _ & Hc)].
      * constructor.
      * exact Hc.
    + destruct (exec_invoke_raise E (ValueError msg) (mkWorld s0 is_connected [] [] d wr)
                  eq_refl ts) as [-> _].
      constructor.
  - intros Hacc L0 L1 L2. cbv zeta.
    split; [apply drawn_mode_range|].
    split; [apply drawn_mode_range|].
    split; [apply drawn_mode_range|].
    split.
    + intros Hfuel. exact (mode_first_cycle E l s0 d wr Hidle Hacc Hfuel L0 L1 L2).
    + exact (mode_single_shot E l s0 d wr Hidle Hacc L0 L1 L2).
Qed.

Lemma mode_session_calls_witness :
  Forall mode_call
    (calls (trace (exec (steady 2) (Invoke (start "mode" example_limits true)
                                      :: map Step [0; 1; 1; 1; 1; 1; 1; 1; 1; 1]%nat)
                     (mkWorld __init__ true [] [] 0 0))))
  /\ calls (trace (exec (steady 2)
                     [Invoke (start "mode" example_limits true); Step 0; Step 1; Step 1;
                      Step 1; Step 1]%nat (mkWorld __init__ true [] [] 0 0)))
     = [set_mode "A" 4; set_mode "B" 2; set_mode "C" 7]
  /\ calls (trace (exec (steady 2)
                     [Invoke (start "mode" example_limits false); Step 0; Step 0; Step 0;
                      Step 0; Step 0]%nat (mkWorld __init__ true [] [] 0 0)))
     = [set_mode "A" 4; set_mode "B" 2; set_mode "C" 7].
Proof.
  destruct (mode_session_calls (steady 2) example_limits __init__ 0 0 eq_refl) as [Hs Hw].
  split; [exact (Hs true true [0; 1; 1; 1; 1; 1; 1; 1; 1; 1]%nat)|].
  assert (Hacc : ~ start_rejects "mode" example_limits).
  { destruct (start_decide "mode" example_limits true) as [(_ & e & He & _)|(Hacc & _)];
      [discriminate He|exact Hacc]. }
  destruct (Hw Hacc eq_refl eq_refl eq_refl) as (_ & _ & _ & Hloop & Hone & _).
  split.
  - rewrite (Hloop ltac:(discriminate)). reflexivity.
  - rewrite Hone. reflexivity.
Defined.

(** ** No device error leaves the engine *)











(** ** After [stop] *)

Lemma clo_random_loop (fuel : nat) (s : controller) :
  inv cancels_loop_only s -> task_wp cancels_loop_only (_random_loop fuel) s.
Proof. apply any_random_loop; cbn; auto. Qed.

Lemma clo_stop (s : controller) :
  inv cancels_loop_only s -> task_wp cancels_loop_only stop s.
Proof.
  intros [Ht Hb]. unfold task_wp, stop. wp_simpl.
  cbn [task set_is_running]. rewrite Ht. wp_simpl.
  wp_walk ltac:(first [ assumption | reflexivity | wp_cases
                      | (left; reflexivity) | (right; exact I)
                      | match goal with
                        | H : Some _ = None |- _ => discriminate H
                        | H : _ /\ _ |- _ => destruct H
                        | H : b_channel_timer ?s = None |- context [b_channel_timer ?s] =>
                            rewrite H
                        end ]).
Qed.

(** A task that is done, or a turn given to no task, changes nothing. *)
Lemma resume_finished (E : env) (t : task_id) (w : world) :
  task_done t w = true \/ nth_error (tasks w) t = None -> resume E t w = w.
Proof.
  unfold resume, task_done, task_state.
  destruct (nth_error (tasks w) t) as [[[c|a res k|o] fl]|]; cbn;
    intros [H|H]; congruence.
Qed.

Lemma exec_frozen (E : env) (w : world) :
  (forall t, resume E t w = w) -> forall ts, exec E (map Step ts) w = w.
Proof.
  intros H ts. induction ts as [|t ts IH]; [reflexivity|].
  cbn [map]. rewrite exec_cons. cbn [act]. rewrite H. exact IH.
Qed.

Section NoSpawn.

Variable E : env.
Variable P : policy.
Hypothesis no_spawn : ~ spawn_ok P.

Lemma no_spawn_loop :
  spawn_ok P -> forall s, inv P s -> task_wp P (_random_loop (loop_fuel E)) s.
Proof. intros H. contradiction. Qed.

(** A turn keeps the number of tasks, and a task that is done stays as it
    is. *)
Lemma resume_keeps (t : task_id) (w : world) :
  winv P w ->
  winv P (resume E t w)
  /\ List.length (tasks (resume E t w)) = List.length (tasks w)
  /\ (forall t', task_done t' w = true -> task_done t' (resume E t w) = true).
Proof.
  intros Hw.
  destruct (resume_sound E P no_spawn_loop t w Hw) as (H1 & (F1 & _ & F3 & _) & _).
  split; [exact H1|split; [exact (F3 no_spawn)|]].
  intros t' Hd. destruct (Nat.eq_dec t' t) as [->|Hne].
  - rewrite resume_finished; auto.
  - unfold task_done, task_state in *.
    destruct (nth_error (tasks w) t') as [tc|] eqn:Hn; [|discriminate].
    destruct (F1 t' tc Hne Hn) as (tc' & -> & Hs & _). cbn in *. rewrite Hs. exact Hd.
Qed.

Lemma exec_keeps (ts : list task_id) :
  forall w, winv P w ->
    winv P (exec E (map Step ts) w)
    /\ List.length (tasks (exec E (map Step ts) w)) = List.length (tasks w)
    /\ (forall t', task_done t' w = true -> task_done t' (exec E (map Step ts) w) = true).
Proof.
  induction ts as [|t ts IH]; intros w Hw; [auto|].
  cbn [map]. rewrite !exec_cons. cbn [act].
  destruct (resume_keeps t w Hw) as (H1 & H2 & H3).
  destruct (IH _ H1) as (I1 & I2 & I3).
  split; [exact I1|split; [congruence|auto]].
Qed.

End NoSpawn.

(** [start] in auto-loop mode on an idle engine, given its turn: it returns
    in that turn, and the loop is task 1, ready to run. *)
Lemma start_opens (E : env) (m : string) (l : limits_t) (s0 : controller)
    (is_connected : bool) (d wr : nat) :
  is_running s0 = false ->
  exec E [Invoke (start_session m l true); Step 0%nat] (mkWorld s0 is_connected [] [] d wr)
  = mkWorld (set_task (Some 1%nat) (set_is_running true (set_session m l true s0)))
            is_connected
            [mkTcb (Finished Done) false;
             mkTcb (Ready (_random_loop (loop_fuel E))) false]
            [(0%nat, Logged INFO (StartedLoop m))] d wr.
Proof.
  intros Hidle. rewrite !exec_cons, exec_nil. cbn [act]. unfold resume.
  cbn [tasks with_tasks app nth_error]. unfold run_task, start_session.
  cbn [run perform bind do pass]. world_simpl. rewrite Hidle.
  cbn [run perform bind do pass]. world_simpl. reflexivity.
Qed.

Lemma task_state_request_cancel (t t' : task_id) (w : world) :
  task_state t' (request_cancel t w) = task_state t' w.
Proof.
  unfold request_cancel.
  destruct (nth_error (tasks w) t) as [[st fl]|] eqn:Hn; [|reflexivity].
  assert (H : task_state t' (with_tasks (replace_nth t (mkTcb st true) (tasks w)) w)
              = task_state t' w).
  { unfold task_state, with_tasks. cbn [tasks].
    destruct (Nat.eq_dec t t') as [<-|Hne].
    - erewrite nth_error_replace_nth_eq by eauto. rewrite Hn. reflexivity.
    - rewrite nth_error_replace_nth_neq by exact Hne. reflexivity. }
  destruct st; auto.
Qed.

Lemma nth_error_request_cancel (t t' : task_id) (w : world) (tc : tcb) :
  t' <> t -> nth_error (tasks w) t' = Some tc ->
  nth_error (tasks (request_cancel t w)) t' = Some tc.
Proof.
  intros Hne Hn. unfold request_cancel.
  destruct (nth_error (tasks w) t) as [[st fl]|] eqn:Ht; [|exact Hn].
  assert (H : nth_error (tasks (with_tasks (replace_nth t (mkTcb st true) (tasks w)) w)) t'
              = Some tc).
  { cbn [tasks with_tasks]. rewrite nth_error_replace_nth_neq by congruence. exact Hn. }
  destruct st; auto.
Qed.

(** The first turn of [stop] while the loop task [t] is not done: [stop]
    asks it to cancel and is left waiting for it. *)
Lemma stop_first_turn (E : env) (me t : task_id) (w : world) :
  me <> t ->
  nth_error (tasks w) me = Some (mkTcb (Ready stop) false) ->
  task (ctl w) = Some t ->
  task_done t w = false ->
  exists k, nth_error (tasks (resume E me w)) me
            = Some (mkTcb (Blocked (ATask t) None k) false).
Proof.
  intros Hne Hn Ht Hd. unfold resume. rewrite Hn. unfold run_task, stop.
  cbn [run perform bind do pass try_except await]. world_simpl. rewrite Ht.
  cbn [run perform bind do pass try_except await negb].
  replace (task_done t _) with false.
  cbn [run perform bind do pass try_except await negb].
  rewrite task_state_request_cancel.
  unfold task_done in Hd. unfold task_state at 1. cbn [tasks].
  fold (task_state t w).
  destruct (task_state t w) as [[c|a res k|o]|] eqn:Hs; try discriminate Hd;
    (eexists; cbn [tasks with_tasks];
     erewrite nth_error_replace_nth_eq;
     [reflexivity|apply nth_error_request_cancel; [exact Hne|cbn [tasks]; exact Hn]]).
Qed.

Lemma exec_app (E : env) (l1 l2 : list action) (w : world) :
  exec E (l1 ++ l2) w = exec E l2 (exec E l1 w).
Proof. unfold exec. apply fold_left_app. Qed.

Lemma stopping_resume (E : env) (t : task_id) (w : world) :
  stopping w -> stopping (resume E t w).
Proof.
  intros (Hw & Hlen & H0 & H1).
  destruct (resume_keeps E cancels_loop_only (fun H => H) t w Hw) as (K1 & K2 & K3).
  split; [exact K1|split; [congruence|split; [auto|]]].
  destruct (task_done 1%nat w) eqn:Hd1; [left; auto|].
  destruct H1 as [H1|Hwait]; [discriminate|].
  right. destruct (Nat.eq_dec t 2) as [->|Hne].
  - destruct Hwait as [Hr|(res & k & Hb)].
    + destruct Hw as ((Htask & _) & _).
      destruct (stop_first_turn E 2%nat 1%nat w ltac:(discriminate) Hr Htask Hd1) as [k Hk].
      right. eauto.
    + right. exists res, k. unfold resume. rewrite Hb.
      unfold task_done in Hd1.
      destruct (task_state 1%nat w) as [[c|a r k'|o]|]; try discriminate Hd1; exact Hb.
  - destruct (resume_sound E cancels_loop_only (no_spawn_loop E cancels_loop_only (fun H => H)) t w Hw)
      as (_ & (F1 & _) & _).
    assert (Hsame : forall tc, nth_error (tasks w) 2 = Some tc ->
                               nth_error (tasks (resume E t w)) 2 = Some tc).
    { intros tc Hn. destruct (F1 2%nat tc ltac:(congruence) Hn) as (tc' & Hn' & Hs & Hc).
      rewrite Hn'. destruct tc, tc'. cbn in *. destruct Hc as [->|Hc]; [|discriminate].
      subst. reflexivity. }
    destruct Hwait as [Hr|(res & k & Hb)]; [left|right; exists res, k]; auto.
Qed.

Lemma stopping_exec (E : env) (ts : list task_id) :
  forall w, stopping w -> stopping (exec E (map Step ts) w).
Proof.
  induction ts as [|t ts IH]; intros w Hw; [exact Hw|].
  cbn [map]. rewrite exec_cons. cbn [act]. apply IH, stopping_resume, Hw.
Qed.

(** X21. An auto-loop session started on an idle engine is ended by
    [stop]: once a later call of [stop] has ended, returned or not, every
    task of the engine is done and nothing more happens, whatever turns the
    loop gives: no device write (so no channel-B release), no sleep, no log
    record. *)
Theorem stop_ends_session (E : env) (m : string) (l : limits_t) (s0 : controller)
    (is_connected : bool) (d wr : nat) (before after later : list task_id) (o : outcome) :
  is_running s0 = false -> b_channel_timer s0 = None -> ~ start_rejects m l ->
  let w := exec E (stopped_session m l before after)
             (mkWorld s0 is_connected [] [] d wr) in
  outcome_of 2%nat w = Some o ->
  live w = [] /\ exec E (map Step later) w = w.
Proof.
  intros Hidle Htimer Hacc w Ho. subst w.
  destruct (start_decide m l true) as [(Hrej & _)|(_ & Hst)]; [contradiction|].
  unfold stopped_session in *. rewrite Hst in *.
  rewrite !exec_app in *. rewrite (start_opens E m l s0 is_connected d wr Hidle) in *.
  set (w1 := mkWorld _ is_connected _ _ d wr) in *.
  assert (Hw1 : winv cancels_loop_only w1).
  { split; [split; [reflexivity|exact Htimer]|split].
    - intros [|[|t]] tc Hn; cbn in Hn; try (destruct t; discriminate Hn);
        injection Hn as <-; cbn [state tstate_ok].
      + exact I.
      + intros s Hs. apply clo_random_loop. exact Hs.
    - constructor. }
  destruct (exec_keeps E cancels_loop_only (fun H => H) before w1 Hw1)
    as ((Hi & Hok & Hc) & Hlen & Hdone).
  set (wB := exec E (map Step before) w1) in *.
  assert (Hstop : stopping (exec E [Invoke stop] wB)).
  { rewrite exec_cons, exec_nil. cbn [act].
    split; [split; [exact Hi|split; [|exact Hc]]|split; [|split]].
    - intros t tc Hn. cbn [tasks with_tasks] in Hn.
      destruct (Nat.lt_ge_cases t (List.length (tasks wB))) as [Hlt|Hge].
      + rewrite nth_error_app1 in Hn by exact Hlt. eapply Hok; eauto.
      + rewrite nth_error_app2 in Hn by exact Hge.
        destruct (t - List.length (tasks wB))%nat as [|n]; cbn in Hn;
          [|destruct n; discriminate Hn].
        injection Hn as <-. intros s Hs. apply clo_stop. exact Hs.
    - cbn [tasks with_tasks]. rewrite length_app, Hlen. reflexivity.
    - apply task_done_app. apply Hdone. reflexivity.
    - right. left. cbn [tasks with_tasks].
      change 2%nat with (List.length (tasks w1)). rewrite <- Hlen. apply nth_error_last. }
  pose proof (stopping_exec E after _ Hstop) as (Hw & Hl3 & H0 & H1).
  set (w := exec E (map Step after) _) in *.
  assert (H2 : task_done 2%nat w = true).
  { unfold task_done. unfold outcome_of in Ho.
    destruct (task_state 2%nat w) as [[c|a r k|o']|]; try discriminate Ho. reflexivity. }
  assert (H1' : task_done 1%nat w = true).
  { destruct H1 as [H1|[Hr|(res & k & Hb)]]; [exact H1| |];
      unfold task_done, task_state in H2; [rewrite Hr in H2|rewrite Hb in H2];
      discriminate H2. }
  split.
  - unfold live. rewrite Hl3. cbn [seq filter]. rewrite H0, H1', H2. reflexivity.
  - apply exec_frozen. intros t. apply resume_finished.
    destruct t as [|[|[|t]]]; auto.
    right. apply nth_error_None. lia.
Qed.

Lemma stop_ends_session_witness :
  let w := exec (steady 3) (stopped_session "speed" example_limits [1; 1]%nat [2; 1; 2; 2; 2; 2]%nat)
             (mkWorld __init__ true [] [] 0 0) in
  live w = [] /\ exec (steady 3) (map Step [1; 2; 0]%nat) w = w.
Proof.
  apply (stop_ends_session (steady 3) "speed" example_limits __init__ true 0 0
           [1; 1]%nat [2; 1; 2; 2; 2; 2]%nat [1; 2; 0]%nat Done);
    try reflexivity.
  destruct (start_decide "speed" example_limits true) as [(_ & e & He & _)|(H & _)];
    [vm_compute in He; discriminate He|exact H].
Defined.

(** ** The device: frames and checksum *)

Lemma sum_from (l : list Z) (a : Z) : fold_left Z.add l a = a + fold_left Z.add l 0.
Proof.
  revert a. induction l as [|x l IH]; intros a; cbn [fold_left]; [lia|].
  rewrite (IH (a + x)), (IH (0 + x)). lia.
Qed.

Lemma sum_app (l1 l2 : list Z) :
  fold_left Z.add (l1 ++ l2) 0 = fold_left Z.add l1 0 + fold_left Z.add l2 0.
Proof. rewrite fold_left_app. apply sum_from. Qed.

Lemma checksum_byte (data : list Z) : 0 <= FJB.calculate_checksum data < 256.
Proof. unfold FJB.calculate_checksum. apply Z.mod_pos_bound. lia. Qed.

Lemma framed_last (data : list Z) : last (FJB.framed data) 0 = FJB.calculate_checksum data.
Proof. unfold FJB.framed. apply last_last. Qed.

Lemma framed_removelast (data : list Z) : removelast (FJB.framed data) = data.
Proof. unfold FJB.framed. apply removelast_last. Qed.

(** Two lists of bytes that differ in one place have different checksums. *)
Lemma checksum_differs (before after : list Z) (x y : Z) :
  0 <= x < 256 -> 0 <= y < 256 -> x <> y ->
  FJB.calculate_checksum (before ++ x :: after)
  <> FJB.calculate_checksum (before ++ y :: after).
Proof.
  intros Hx Hy Hne. unfold FJB.calculate_checksum.
  rewrite !sum_app. cbn [fold_left]. rewrite (sum_from after (0 + x)), (sum_from after (0 + y)).
  set (p := fold_left Z.add before 0). set (q := fold_left Z.add after 0).
  intros H.
  assert (Hd : (x - y) mod 256 = 0).
  { replace (x - y) with ((p + (0 + x + q)) - (p + (0 + y + q))) by lia.
    rewrite Zminus_mod, H, Z.sub_diag. reflexivity. }
  apply Z.mod_divide in Hd; [|lia]. destruct Hd as [k Hk]. lia.
Qed.

(** [notification_handler] drops a frame whose last item is not the
    checksum of the items before it. *)
Lemma handler_drops (body : list Z) (c : Z) (self : FJB.device) :
  c <> FJB.calculate_checksum body ->
  FJB.notification_handler (body ++ [c]) self = self.
Proof.
  intros Hc. unfold FJB.notification_handler. cbv zeta.
  destruct ((List.length (body ++ [c]) <? 3)%nat || negb (nth 0 (body ++ [c]) 0 =? 0x35));
    [reflexivity|].
  rewrite last_last, removelast_last.
  destruct (Z.eqb_spec c (FJB.calculate_checksum body)) as [He|_]; [contradiction|].
  reflexivity.
Qed.

(** X1. [notification_handler] ignores a frame damaged in transit: when
    one byte of the body of a frame closed with its checksum was altered,
    or when the checksum byte itself was, the handler leaves the device as
    it was, whatever the frame says. *)
Theorem corrupted_frame_ignored (before after : list Z) (x y c : Z) (self : FJB.device) :
  0 <= x < 256 -> 0 <= y < 256 -> x <> y ->
  c <> FJB.calculate_checksum (before ++ x :: after) ->
  FJB.notification_handler
    ((before ++ y :: after) ++ [FJB.calculate_checksum (before ++ x :: after)]) self
  = self
  /\ FJB.notification_handler ((before ++ x :: after) ++ [c]) self = self.
Proof.
  intros Hx Hy Hne Hc. split.
  - apply handler_drops. apply checksum_differs; assumption.
  - apply handler_drops. exact Hc.
Qed.

Lemma corrupted_frame_ignored_witness :
  FJB.notification_handler [0x35; 0x13; 0x02; 80; FJB.calculate_checksum [0x35; 0x13; 0x01; 80]]
    (FJB.__init__ "YCY-FJB-03")
  = FJB.__init__ "YCY-FJB-03"
  /\ FJB.notification_handler [0x35; 0x13; 0x01; 80; 0] (FJB.__init__ "YCY-FJB-03")
     = FJB.__init__ "YCY-FJB-03".
Proof.
  apply (corrupted_frame_ignored [0x35; 0x13] [80] 0x01 0x02 0 (FJB.__init__ "YCY-FJB-03"));
    try lia.
  vm_compute. discriminate.
Defined.

(** X2. The checksum detects the corruption of one byte: two lists of
    bytes that differ in one place have different checksums. *)
Theorem checksum_detects_byte_error (before after : list Z) (x y : Z) :
  0 <= x < 256 -> 0 <= y < 256 -> x <> y ->
  FJB.calculate_checksum (before ++ x :: after)
  <> FJB.calculate_checksum (before ++ y :: after).
Proof. exact (checksum_differs before after x y). Qed.

Lemma checksum_detects_byte_error_witness :
  FJB.calculate_checksum ([0x35; 0x13] ++ 0x01 :: [80])
  <> FJB.calculate_checksum ([0x35; 0x13] ++ 0x02 :: [80]).
Proof. apply (checksum_detects_byte_error [0x35; 0x13] [80] 0x01 0x02); lia. Defined.

Lemma str_in_ABC (motor : string) :
  str_in motor ["A"; "B"; "C"] = true -> motor = "A" \/ motor = "B" \/ motor = "C".
Proof.
  intros H. apply str_in_spec in H. cbn in H. intuition auto.
Qed.

Lemma speed_accepted (motor : string) (level : Z) :
  device_check (set_speed motor level) = None ->
  (motor = "A" /\ 0 <= level <= 40) \/ (motor = "B" /\ 0 <= level <= 20)
  \/ (motor = "C" /\ 0 <= level <= 20).
Proof.
  cbn [device_check]. destruct (str_in motor ["A"; "B"; "C"]) eqn:Hm; [|discriminate].
  cbn [negb]. destruct (str_in_ABC motor Hm) as [->|[->| ->]]; cbn [String.eqb Ascii.eqb Bool.eqb];
    [destruct ((0 <=? level) && (level <=? 40)) eqn:Hl
    |destruct ((0 <=? level) && (level <=? 20)) eqn:Hl
    |destruct ((0 <=? level) && (level <=? 20)) eqn:Hl]; try discriminate; intros _;
    apply andb_true_iff in Hl; destruct Hl as [H0 H1]; apply Z.leb_le in H0, H1; auto.
Qed.

Lemma mode_accepted (motor : string) (mode_value : Z) :
  device_check (set_mode motor mode_value) = None ->
  (motor = "A" \/ motor = "B" \/ motor = "C") /\ 0 <= mode_value <= 7.
Proof.
  cbn [device_check]. destruct (str_in motor ["A"; "B"; "C"]) eqn:Hm; [|discriminate].
  cbn [negb]. destruct ((0 <=? mode_value) && (mode_value <=? 7)) eqn:Hl; [|discriminate].
  intros _. split; [apply str_in_ABC; exact Hm|].
  apply andb_true_iff in Hl. destruct Hl as [H0 H1]. apply Z.leb_le in H0, H1. auto.
Qed.

Lemma bytes_ok (data : list Z) :
  Forall (fun x => 0 <= x < 256) data -> FJB.bytes data = Some data.
Proof.
  intros H. unfold FJB.bytes.
  replace (forallb _ data) with true; [reflexivity|].
  symmetry. apply forallb_forall. intros x Hx.
  rewrite Forall_forall in H. specialize (H x Hx). lia.
Qed.

Lemma framed_bytes (data : list Z) :
  Forall (fun x => 0 <= x < 256) data -> FJB.bytes (FJB.framed data) = Some (FJB.framed data).
Proof.
  intros H. apply bytes_ok. unfold FJB.framed. apply Forall_app. split; [exact H|].
  constructor; [apply checksum_byte|constructor].
Qed.

Ltac bytes_range := repeat constructor; lia.

(** Run a method body on a device whose fields are known. *)
Ltac io_run :=
  cbv beta iota zeta delta
    [FJB.bind FJB.get FJB.ret FJB.raise FJB.modify FJB.level FJB.write_gatt_char
     FJB._send_speed_control FJB._send_mode_control];
  cbn [FJB.device_name FJB.client FJB.device_info FJB.current_levels FJB.battery_level
       FJB._connected FJB.battery_callback FJB.written FJB.notifying FJB.reported
       FJB.set_client FJB.set_device_info FJB.set_current_levels FJB.set_battery_level
       FJB.set__connected FJB.set_battery_callback FJB.set_written FJB.set_notifying
       FJB.set_reported FJB.level_get FJB.level_set
       String.eqb Ascii.eqb Bool.eqb negb fst snd].

(** What [_send_speed_control] does on a connected device with levels
    [a], [b], [c]: one frame with the three levels. *)
Lemma send_speed_run (link : nat -> bool) (self : FJB.device) (a b c : Z) :
  FJB.current_levels self = [("A", a); ("B", b); ("C", c)] ->
  0 <= a <= 40 -> 0 <= b <= 20 -> 0 <= c <= 20 ->
  FJB._connected self = true -> FJB.client self <> None ->
  FJB._send_speed_control link self
  = (FJB.set_written (FJB.written self ++ [FJB.framed [0x35; 0x12; a; b; c]])%list self,
     if link (List.length (FJB.written self)) then inl tt
     else inr (FJB.Exn BleakError)).
Proof.
  intros Hl Ha Hb Hc Hcon Hcl.
  destruct self as [nm cl di lv bl cn cb wr nt rp]. cbn in Hl, Hcon, Hcl. subst lv cn.
  destruct cl as [cl|]; [|congruence].
  io_run. change ([53; 18; a; b; c] ++ [FJB.calculate_checksum [53; 18; a; b; c]])%list
    with (FJB.framed [53; 18; a; b; c]).
  rewrite framed_bytes by bytes_range.
  destruct (link _); reflexivity.
Qed.

Lemma range_test (lo hi v : Z) : lo <= v <= hi -> (lo <=? v) && (v <=? hi) = true.
Proof. intros H. apply andb_true_iff. split; apply Z.leb_le; lia. Qed.

(** Past its argument checks [set_speed] stores the level and sends. *)
Lemma set_speed_checked (link : nat -> bool) (self : FJB.device)
    (motor : string) (level : Z) :
  device_check (set_speed motor level) = None ->
  FJB.set_speed link motor level self
  = FJB._send_speed_control link
      (FJB.set_current_levels (FJB.level_set motor level (FJB.current_levels self)) self).
Proof.
  intros Hok. unfold FJB.set_speed.
  destruct (speed_accepted motor level Hok) as [[-> Hv]|[[-> Hv]|[-> Hv]]];
    cbn [str_in existsb String.eqb Ascii.eqb Bool.eqb orb negb];
    rewrite range_test by exact Hv; reflexivity.
Qed.

(** X3. On a connected device [set_speed] with arguments in range stores
    the level under its motor, leaves the other two levels as they were,
    and hands the client exactly one frame: 0x35, 0x12, the three stored
    levels (A, B, C) and the checksum, six bytes; the call fails (with the
    client's error) only if that write does, and the device stays well
    formed. *)
Theorem set_speed_frame (link : nat -> bool) (self : FJB.device)
    (motor : string) (level : Z) :
  FJB.well_formed self -> FJB._connected self = true ->
  device_check (set_speed motor level) = None ->
  exists a b c,
    FJB.set_speed link motor level self
    = (FJB.set_written (FJB.written self ++ [FJB.framed [0x35; 0x12; a; b; c]])%list
         (FJB.set_current_levels [("A", a); ("B", b); ("C", c)] self),
       if link (List.length (FJB.written self)) then inl tt
       else inr (FJB.Exn BleakError))
    /\ FJB.level_get motor [("A", a); ("B", b); ("C", c)] = Some level
    /\ (forall m, m <> motor ->
          FJB.level_get m [("A", a); ("B", b); ("C", c)]
          = FJB.level_get m (FJB.current_levels self))
    /\ FJB.bytes (FJB.framed [0x35; 0x12; a; b; c])
       = Some (FJB.framed [0x35; 0x12; a; b; c])
    /\ List.length (FJB.framed [0x35; 0x12; a; b; c]) = 6%nat
    /\ FJB.well_formed (fst (FJB.set_speed link motor level self)).
Proof.
  intros [(a & b & c & Hl & Ha & Hb & Hc) Hcl] Hcon Hok.
  rewrite (set_speed_checked link self motor level Hok). rewrite Hl.
  destruct (speed_accepted motor level Hok) as [[-> Hv]|[[-> Hv]|[-> Hv]]];
    cbn [FJB.level_set String.eqb Ascii.eqb Bool.eqb];
    [exists level, b, c|exists a, level, c|exists a, b, level];
    (match goal with
     | |- FJB._send_speed_control _ (FJB.set_current_levels [(_, ?x); (_, ?y); (_, ?z)] _)
          = _ /\ _ =>
         rewrite (send_speed_run link _ x y z) by (cbn; auto; lia)
     end;
     cbn [fst FJB.written FJB.set_current_levels];
     split; [reflexivity|];
     split; [reflexivity|];
     split; [intros m Hm; cbn [FJB.level_get];
             repeat match goal with
                    | |- context [String.eqb ?k m] =>
                        destruct (String.eqb_spec k m); [try congruence|]
                    end; reflexivity|];
     split; [apply framed_bytes; bytes_range|];
     split; [reflexivity|];
     split; [eexists _, _, _; split; [reflexivity|lia]|cbn; auto]).
Qed.

(** A call that fails its argument checks raises what [device_check] says
    and leaves the device as it was. *)
Lemma set_speed_rejected (link : nat -> bool) (self : FJB.device)
    (motor : string) (level : Z) (e : exn) :
  device_check (set_speed motor level) = Some e ->
  FJB.set_speed link motor level self = (self, inr (FJB.Exn e)).
Proof.
  unfold FJB.set_speed. cbn [device_check].
  destruct (negb (str_in motor ["A"; "B"; "C"])); [intros H; injection H as <-; reflexivity|].
  destruct (String.eqb motor "A").
  - destruct (negb ((0 <=? level) && (level <=? 40)));
      [intros H; injection H as <-; reflexivity|discriminate].
  - destruct (negb ((0 <=? level) && (level <=? 20)));
      [intros H; injection H as <-; reflexivity|discriminate].
Qed.

Lemma set_mode_rejected (link : nat -> bool) (self : FJB.device)
    (motor : string) (mode_value : Z) (e : exn) :
  device_check (set_mode motor mode_value) = Some e ->
  FJB.set_mode link motor mode_value self = (self, inr (FJB.Exn e)).
Proof.
  unfold FJB.set_mode. cbn [device_check].
  destruct (negb (str_in motor ["A"; "B"; "C"])); [intros H; injection H as <-; reflexivity|].
  destruct (negb ((0 <=? mode_value) && (mode_value <=? 7)));
    [intros H; injection H as <-; reflexivity|discriminate].
Qed.

Lemma set_mode_checked (link : nat -> bool) (self : FJB.device)
    (motor : string) (mode_value : Z) :
  device_check (set_mode motor mode_value) = None ->
  FJB.set_mode link motor mode_value self = FJB._send_mode_control link motor mode_value self.
Proof.
  intros Hok. unfold FJB.set_mode.
  destruct (mode_accepted motor mode_value Hok) as [Hm Hv].
  replace (str_in motor ["A"; "B"; "C"]) with true
    by (destruct Hm as [->|[->| ->]]; reflexivity).
  cbn [negb]. rewrite range_test by exact Hv. reflexivity.
Qed.

(** The levels after [set_speed] stored one. *)
Lemma level_set_ok (motor : string) (level a b c : Z) :
  device_check (set_speed motor level) = None ->
  0 <= a <= 40 -> 0 <= b <= 20 -> 0 <= c <= 20 ->
  exists a' b' c',
    FJB.level_set motor level [("A", a); ("B", b); ("C", c)]
    = [("A", a'); ("B", b'); ("C", c')]
    /\ 0 <= a' <= 40 /\ 0 <= b' <= 20 /\ 0 <= c' <= 20
    /\ FJB.level_get motor [("A", a'); ("B", b'); ("C", c')] = Some level
    /\ (forall m, m <> motor ->
          FJB.level_get m [("A", a'); ("B", b'); ("C", c')]
          = FJB.level_get m [("A", a); ("B", b); ("C", c)]).
Proof.
  intros Hok Ha Hb Hc.
  destruct (speed_accepted motor level Hok) as [[-> Hv]|[[-> Hv]|[-> Hv]]];
    [exists level, b, c|exists a, level, c|exists a, b, level];
    (split; [reflexivity|]; repeat (split; [lia|]); split; [reflexivity|];
     intros m Hm; cbn [FJB.level_get];
     repeat match goal with
            | |- context [String.eqb ?k m] =>
                destruct (String.eqb_spec k m); [try congruence|]
            end; reflexivity).
Qed.

(** What [_send_mode_control] does on a connected device. *)
Lemma send_mode_run (link : nat -> bool) (self : FJB.device)
    (motor : string) (mode_value : Z) :
  motor = "A" \/ motor = "B" \/ motor = "C" -> 0 <= mode_value <= 7 ->
  FJB._connected self = true -> FJB.client self <> None ->
  FJB._send_mode_control link motor mode_value self
  = (FJB.set_written
       (FJB.written self ++ [FJB.framed [0x35; 0x11; FJB.motor_code motor; mode_value]])%list
       self,
     if link (List.length (FJB.written self)) then inl tt
     else inr (FJB.Exn BleakError)).
Proof.
  intros Hm Hv Hcon Hcl.
  destruct self as [nm cl di lv bl cn cb wr nt rp]. cbn in Hcon, Hcl. subst cn.
  destruct cl as [cl|]; [|congruence].
  destruct Hm as [->|[->| ->]]; io_run;
    match goal with
    | |- context [FJB.bytes (?d ++ [FJB.calculate_checksum ?d])%list] =>
        change (d ++ [FJB.calculate_checksum d])%list with (FJB.framed d);
        rewrite (framed_bytes d) by bytes_range
    end;
    destruct (link _); reflexivity.
Qed.

Lemma send_offline (link : nat -> bool) (self : FJB.device) :
  FJB._connected self = false ->
  FJB._send_speed_control link self = (self, inr (FJB.Exn RuntimeError)).
Proof. intros H. unfold FJB._send_speed_control, FJB.bind, FJB.get. rewrite H. reflexivity. Qed.

Lemma send_mode_offline (link : nat -> bool) (self : FJB.device)
    (motor : string) (mode_value : Z) :
  FJB._connected self = false ->
  FJB._send_mode_control link motor mode_value self = (self, inr (FJB.Exn RuntimeError)).
Proof. intros H. unfold FJB._send_mode_control, FJB.bind, FJB.get. rewrite H. reflexivity. Qed.

(** X4. The engine's model of a device call agrees with the device: on a
    well-formed device [set_speed] and [set_mode] raise exactly what the
    model says (the ValueError of the argument check, RuntimeError when
    not connected, the client's error when the write fails) and otherwise
    return; no other failure arises, and the device stays well formed. *)
Theorem engine_view_agrees (link : nat -> bool) (self : FJB.device) (op : dev_op) :
  FJB.well_formed self ->
  snd (perform_op link op self)
  = match engine_view op (FJB._connected self) (link (List.length (FJB.written self))) with
    | None => inl tt
    | Some e => inr (FJB.Exn e)
    end
  /\ FJB.well_formed (fst (perform_op link op self)).
Proof.
  intros Hwf. pose proof Hwf as [(a & b & c & Hl & Ha & Hb & Hc) Hcl].
  unfold engine_view. destruct op as [motor level|motor mode_value]; cbn [perform_op].
  - destruct (device_check (set_speed motor level)) as [e|] eqn:Hok.
    + rewrite (set_speed_rejected link self motor level e Hok). split; [reflexivity|exact Hwf].
    + rewrite (set_speed_checked link self motor level Hok). rewrite Hl.
      destruct (level_set_ok motor level a b c Hok Ha Hb Hc)
        as (a' & b' & c' & -> & Ha' & Hb' & Hc' & _).
      destruct (FJB._connected self) eqn:Hcon.
      * rewrite (send_speed_run link _ a' b' c') by (cbn; auto).
        cbn [fst snd FJB.written FJB.set_current_levels].
        split; [destruct (link _); reflexivity|].
        split; [exists a', b', c'; cbn; auto|cbn; intros H; first [congruence|apply Hcl; reflexivity]].
      * rewrite send_offline by exact Hcon. cbn [fst snd].
        split; [reflexivity|].
        split; [exists a', b', c'; cbn; auto|cbn; intros H; first [congruence|apply Hcl; reflexivity]].
  - destruct (device_check (set_mode motor mode_value)) as [e|] eqn:Hok.
    + rewrite (set_mode_rejected link self motor mode_value e Hok).
      split; [reflexivity|exact Hwf].
    + rewrite (set_mode_checked link self motor mode_value Hok).
      destruct (mode_accepted motor mode_value Hok) as [Hm Hv].
      destruct (FJB._connected self) eqn:Hcon.
      * rewrite (send_mode_run link self motor mode_value Hm Hv Hcon (Hcl eq_refl)).
        cbn [fst snd]. split; [destruct (link _); reflexivity|].
        split; [exists a, b, c; cbn; auto|cbn; intros H; first [congruence|apply Hcl; reflexivity]].
      * rewrite send_mode_offline by exact Hcon. split; [reflexivity|exact Hwf].
Qed.

Lemma engine_view_agrees_witness :
  snd (perform_op (fun _ => true) (set_speed "A" 41) (FJB.__init__ "YCY-FJB-03"))
  = match engine_view (set_speed "A" 41) (FJB._connected (FJB.__init__ "YCY-FJB-03"))
            true with
    | None => inl tt
    | Some e => inr (FJB.Exn e)
    end
  /\ FJB.well_formed (fst (perform_op (fun _ => true) (set_speed "A" 41)
                             (FJB.__init__ "YCY-FJB-03"))).
Proof.
  apply (engine_view_agrees (fun _ => true) (FJB.__init__ "YCY-FJB-03") (set_speed "A" 41)).
  split; [exists 0, 0, 0; cbn; repeat split; lia|discriminate].
Defined.

(** X5. [set_mode] on a connected device hands the client exactly one
    frame: 0x35, 0x11, the code of the motor (0x01, 0x12, 0x14 for A, B,
    C), the mode value and the checksum, five bytes; it changes no field
    of the device (the stored speed levels stay), fails only if the write
    does, and the motor codes tell the three motors apart. *)
Theorem set_mode_frame (link : nat -> bool) (self : FJB.device)
    (motor : string) (mode_value : Z) :
  FJB.well_formed self -> FJB._connected self = true ->
  device_check (set_mode motor mode_value) = None ->
  let frame := FJB.framed [0x35; 0x11; FJB.motor_code motor; mode_value] in
  FJB.set_mode link motor mode_value self
  = (FJB.set_written (FJB.written self ++ [frame])%list self,
     if link (List.length (FJB.written self)) then inl tt else inr (FJB.Exn BleakError))
  /\ FJB.bytes frame = Some frame
  /\ List.length frame = 5%nat
  /\ (forall motor' v, device_check (set_mode motor' v) = None ->
        FJB.motor_code motor' = FJB.motor_code motor -> motor' = motor).
Proof.
  intros [_ Hcl] Hcon Hok frame. subst frame.
  destruct (mode_accepted motor mode_value Hok) as [Hm Hv].
  rewrite (set_mode_checked link self motor mode_value Hok).
  rewrite (send_mode_run link self motor mode_value Hm Hv Hcon (Hcl Hcon)).
  split; [reflexivity|].
  split; [apply framed_bytes; destruct Hm as [->|[->| ->]]; cbn; bytes_range|].
  split; [reflexivity|].
  intros motor' v Hok' Heq. destruct (mode_accepted motor' v Hok') as [Hm' _].
  destruct Hm as [->|[->| ->]], Hm' as [->|[->| ->]]; try reflexivity; discriminate Heq.
Qed.

Lemma well_formed_init (name : string) : FJB.well_formed (FJB.__init__ name).
Proof. split; [exists 0, 0, 0; cbn; repeat split; lia|discriminate]. Qed.

Lemma find_named (name : string) (devices : list (option string * string)) :
  (exists address, In (Some name, address) devices)
  <-> find (fun d => match fst d with Some n => String.eqb n name | None => false end)
        devices <> None.
Proof.
  split.
  - intros [address Hin] Hnone.
    pose proof (find_none _ _ Hnone _ Hin) as H. cbn in H.
    rewrite String.eqb_refl in H. discriminate.
  - intros H. destruct (find _ devices) as [[n address]|] eqn:Hf; [|congruence].
    apply find_some in Hf. destruct Hf as [Hin Hn]. cbn in Hn.
    destruct n as [n|]; [|discriminate]. apply String.eqb_eq in Hn. subst n. eauto.
Qed.

Ltac iff_cases Hex :=
  split; intros H;
  first [ discriminate H | reflexivity
        | (destruct H as (_ & H1 & H2); first [discriminate H1|discriminate H2])
        | (split; [exact Hex|split; reflexivity]) ].

(** X6. [connect] reports success exactly when a discovered device bears
    the name of this one, the client connected and the notifications
    started; it marks the device connected exactly when it reports
    success (on a device that was not marked connected), nothing is
    written, and the device stays well formed. *)
Theorem connect_outcome (devices : list (option string * string))
    (handshake : exn + bool) (notify : option exn) (self : FJB.device) :
  FJB._connected self = false ->
  let result := FJB.connect (inr devices) handshake notify self in
  (snd result = inl true
   <-> (exists address, In (Some (FJB.device_name self), address) devices)
       /\ handshake = inr true /\ notify = None)
  /\ (FJB._connected (fst result) = true <-> snd result = inl true)
  /\ FJB.written (fst result) = FJB.written self
  /\ (FJB.well_formed self -> FJB.well_formed (fst result)).
Proof.
  intros Hoff result. subst result.
  destruct self as [nm cl di lv bl cn cb wr nt rp]. cbn in Hoff. subst cn.
  pose proof (find_named nm devices) as Hfind.
  cbv [FJB.connect FJB.bind FJB.get FJB.modify FJB.raise FJB.ret].
  cbn [FJB.device_name].
  destruct (find _ devices) as [target|] eqn:Hf.
  - assert (Hex : exists address, In (Some nm, address) devices)
      by (apply Hfind; discriminate).
    destruct handshake as [e|[|]]; [| destruct notify as [e|] |];
      cbn [fst snd negb FJB.set_client FJB.set_notifying FJB.set__connected FJB._connected
           FJB.written FJB.client FJB.device_name FJB.device_info FJB.current_levels
           FJB.battery_level FJB.battery_callback FJB.notifying FJB.reported];
      (split; [iff_cases Hex|]);
      (split; [iff_cases Hex|]);
      (split; [reflexivity|]);
      intros [Hlv _]; (split; [exact Hlv|cbn; discriminate]).
  - cbn [fst snd FJB._connected FJB.written].
    split; [split; [discriminate|intros (Hex & _); apply Hfind in Hex; congruence]|].
    split; [split; discriminate|]. auto.
Qed.

Lemma connect_outcome_witness :
  let result := FJB.connect (inr [(None, "11:22"); (Some "YCY-FJB-03", "AA:BB")])
                  (inr true) None (FJB.__init__ "YCY-FJB-03") in
  (snd result = inl true
   <-> (exists address,
          In (Some (FJB.device_name (FJB.__init__ "YCY-FJB-03")), address)
            [(None, "11:22"); (Some "YCY-FJB-03", "AA:BB")])
       /\ @inr exn bool true = inr true /\ @None exn = None)
  /\ (FJB._connected (fst result) = true <-> snd result = inl true)
  /\ FJB.written (fst result) = FJB.written (FJB.__init__ "YCY-FJB-03")
  /\ (FJB.well_formed (FJB.__init__ "YCY-FJB-03") -> FJB.well_formed (fst result)).
Proof.
  apply (connect_outcome [(None, "11:22"); (Some "YCY-FJB-03", "AA:BB")] (inr true) None
           (FJB.__init__ "YCY-FJB-03")).
  reflexivity.
Defined.

(** The device after a [connect] that succeeds. *)
Lemma connect_succeeds (devices : list (option string * string)) (self : FJB.device)
    (notify : option exn) :
  (exists address, In (Some (FJB.device_name self), address) devices) ->
  FJB.connect (inr devices) (inr true) notify self
  = match notify with
    | None =>
        (FJB.set__connected true
           (FJB.set_notifying true (FJB.set_client (Some true) self)), inl true)
    | Some e => (FJB.set_client (Some true) self, inr (FJB.Exn e))
    end.
Proof.
  intros Hex. apply find_named in Hex.
  destruct self as [nm cl di lv bl cn cb wr nt rp].
  cbv [FJB.connect FJB.bind FJB.get FJB.modify FJB.raise FJB.ret]. cbn [FJB.device_name] in *.
  destruct (find _ devices); [|congruence].
  destruct notify; reflexivity.
Qed.

(** X7. [set_speed] on a device that is not connected raises RuntimeError
    and writes nothing, but it has stored the level: once the device is
    connected, the frame of the next [set_speed], for another motor,
    carries the level of the failed call. *)
Theorem offline_level_is_sent_later (link : nat -> bool) (self : FJB.device)
    (devices : list (option string * string))
    (motor motor' : string) (level level' : Z) :
  FJB.well_formed self -> FJB._connected self = false ->
  device_check (set_speed motor level) = None ->
  device_check (set_speed motor' level') = None ->
  motor' <> motor ->
  (exists address, In (Some (FJB.device_name self), address) devices) ->
  let first := FJB.set_speed link motor level self in
  let linked := FJB.connect (inr devices) (inr true) None (fst first) in
  let second := FJB.set_speed link motor' level' (fst linked) in
  snd first = inr (FJB.Exn RuntimeError)
  /\ FJB.written (fst first) = FJB.written self
  /\ exists a b c,
       FJB.written (fst second)
       = (FJB.written self ++ [FJB.framed [0x35; 0x12; a; b; c]])%list
       /\ FJB.level_get motor [("A", a); ("B", b); ("C", c)] = Some level
       /\ FJB.level_get motor' [("A", a); ("B", b); ("C", c)] = Some level'.
Proof.
  intros [(a & b & c & Hl & Ha & Hb & Hc) Hcl] Hoff Hok Hok' Hne Hex first linked second.
  subst first linked second.
  rewrite (set_speed_checked link self motor level Hok), Hl.
  destruct (level_set_ok motor level a b c Hok Ha Hb Hc)
    as (a1 & b1 & c1 & -> & Ha1 & Hb1 & Hc1 & Hget1 & _).
  rewrite send_offline by exact Hoff. cbn [fst snd].
  split; [reflexivity|]. split; [reflexivity|].
  rewrite connect_succeeds by exact Hex. cbn [fst].
  rewrite (set_speed_checked link _ motor' level' Hok').
  cbn [FJB.current_levels FJB.set__connected FJB.set_notifying FJB.set_client
       FJB.set_current_levels].
  destruct (level_set_ok motor' level' a1 b1 c1 Hok' Ha1 Hb1 Hc1)
    as (a2 & b2 & c2 & -> & Ha2 & Hb2 & Hc2 & Hget2 & Hsame).
  rewrite (send_speed_run link _ a2 b2 c2) by (cbn; auto; discriminate).
  exists a2, b2, c2. cbn [fst FJB.written FJB.set_written FJB.set_current_levels
                          FJB.set__connected FJB.set_notifying FJB.set_client].
  split; [reflexivity|]. split; [|exact Hget2].
  rewrite Hsame by congruence. exact Hget1.
Qed.

Lemma offline_level_is_sent_later_witness :
  let link := fun _ : nat => true in
  let self := FJB.__init__ "YCY-FJB-03" in
  let first := FJB.set_speed link "B" 12 self in
  let linked := FJB.connect (inr [(Some "YCY-FJB-03", "AA:BB")]) (inr true) None (fst first) in
  let second := FJB.set_speed link "A" 3 (fst linked) in
  snd first = inr (FJB.Exn RuntimeError)
  /\ FJB.written (fst first) = FJB.written self
  /\ exists a b c,
       FJB.written (fst second)
       = (FJB.written self ++ [FJB.framed [0x35; 0x12; a; b; c]])%list
       /\ FJB.level_get "B" [("A", a); ("B", b); ("C", c)] = Some 12
       /\ FJB.level_get "A" [("A", a); ("B", b); ("C", c)] = Some 3.
Proof.
  apply (offline_level_is_sent_later (fun _ => true) (FJB.__init__ "YCY-FJB-03")
           [(Some "YCY-FJB-03", "AA:BB")] "B" "A" 12 3);
    try reflexivity.
  - apply well_formed_init.
  - discriminate.
  - exists "AA:BB". left. reflexivity.
Defined.

Ltac unchanged :=
  split; [reflexivity|]; split; [reflexivity|]; split; [reflexivity|];
  split; [reflexivity|]; intros Hch; congruence.

(** X8. [notification_handler] touches nothing but [device_info],
    [battery_level] and the battery callback, and changes the device only
    on a frame of at least 3 items that begins with 0x35, ends with the
    checksum of the items before it, and is a device-info reply of 10
    items or a battery report of 5 items whose third is 1. *)
Theorem notification_effect (data : list Z) (self : FJB.device) :
  let self' := FJB.notification_handler data self in
  FJB.written self' = FJB.written self
  /\ FJB.current_levels self' = FJB.current_levels self
  /\ FJB._connected self' = FJB._connected self
  /\ FJB.client self' = FJB.client self
  /\ (self' <> self ->
      (3 <= List.length data)%nat
      /\ nth 0 data 0 = 0x35
      /\ last data 0 = FJB.calculate_checksum (removelast data)
      /\ ((nth 1 data 0 = 0x10 /\ List.length data = 10%nat)
          \/ (nth 1 data 0 = 0x13 /\ List.length data = 5%nat /\ nth 2 data 0 = 0x01))).
Proof.
  cbv zeta. unfold FJB.notification_handler.
  destruct (List.length data <? 3)%nat eqn:Hlen; cbn [orb];
    [unchanged|].
  apply Nat.ltb_ge in Hlen.
  destruct (nth 0 data 0 =? 0x35) eqn:Hhd; cbn [negb];
    [|unchanged].
  apply Z.eqb_eq in Hhd.
  destruct (last data 0 =? FJB.calculate_checksum (removelast data)) eqn:Hcs; cbn [negb];
    [|unchanged].
  apply Z.eqb_eq in Hcs.
  destruct (nth 1 data 0 =? 0x10) eqn:Hc1.
  { apply Z.eqb_eq in Hc1.
    destruct (List.length data =? 10)%nat eqn:H10;
      [|unchanged].
    apply Nat.eqb_eq in H10. repeat (split; [reflexivity|]). intros _. auto 6. }
  destruct (nth 1 data 0 =? 0x13) eqn:Hc2;
    [|unchanged].
  apply Z.eqb_eq in Hc2.
  destruct (List.length data =? 5)%nat eqn:H5; cbn [andb];
    [|unchanged].
  apply Nat.eqb_eq in H5.
  destruct (nth 2 data 0 =? 0x01) eqn:Hone;
    [|unchanged].
  apply Z.eqb_eq in Hone.
  cbn [FJB.battery_callback FJB.set_battery_level].
  destruct (FJB.battery_callback self); repeat (split; [reflexivity|]); intros _; auto 8.
Qed.

(** X9. A battery report, the frame 0x35, 0x13, 0x01, the level and the
    checksum, stores the level, hands it to the battery callback when one
    is installed, and [get_battery] then returns it on a connected device
    (and None on one that is not). *)
Theorem battery_report_round_trip (b : Z) (self : FJB.device) :
  let self' := FJB.notification_handler (FJB.framed [0x35; 0x13; 0x01; b]) self in
  FJB.battery_level self' = Some b
  /\ FJB.reported self'
     = (if FJB.battery_callback self then (FJB.reported self ++ [b])%list
        else FJB.reported self)
  /\ FJB.get_battery self'
     = (self', inl (if FJB._connected self then Some b else None)).
Proof.
  cbv zeta. unfold FJB.notification_handler.
  cbn [FJB.framed app List.length Nat.ltb Nat.leb Nat.eqb nth orb andb negb Z.eqb Pos.eqb
       last removelast].
  rewrite Z.eqb_refl. cbn [negb].
  destruct self as [nm cl di lv bl cn cb wr nt rp].
  cbn [FJB.battery_callback FJB.set_battery_level FJB.reported FJB.battery_level].
  destruct cb, cn; repeat split.
Qed.

Lemma handler_keeps (data : list Z) (self : FJB.device) :
  FJB.written (FJB.notification_handler data self) = FJB.written self
  /\ FJB._connected (FJB.notification_handler data self) = FJB._connected self.
Proof.
  unfold FJB.notification_handler.
  repeat match goal with
         | |- context [if ?b then _ else _] => destruct b
         end; split; reflexivity.
Qed.

Lemma arrivals_keep (arrivals : list (list Z)) :
  forall self,
    FJB.written (fold_left (fun self data => FJB.notification_handler data self)
                   arrivals self) = FJB.written self.
Proof.
  induction arrivals as [|data arrivals IH]; intros self; [reflexivity|].
  cbn [fold_left]. rewrite IH. apply handler_keeps.
Qed.

(** X10. On a connected device [get_device_info] hands the client the
    query frame 0x35, 0x10, 0x45 and, after its wait, returns what
    [device_info] then holds: the fields product id, version and the
    three mode counts of a reply (a frame of 10 items that begins 0x35,
    0x10 and ends with its checksum) that came in during the wait, and
    otherwise, when nothing came in, the value stored before the call. *)
Theorem device_info_query (link : nat -> bool) (self : FJB.device) :
  FJB._connected self = true -> FJB.client self <> None ->
  link (List.length (FJB.written self)) = true ->
  (forall arrivals,
     FJB.written (fst (FJB.get_device_info link arrivals self))
     = (FJB.written self ++ [[0x35; 0x10; 0x45]])%list)
  /\ snd (FJB.get_device_info link [] self) = inl (FJB.device_info self)
  /\ (forall p v a b c x y,
        snd (FJB.get_device_info link [FJB.framed [0x35; 0x10; p; v; a; b; c; x; y]] self)
        = inl (Some (FJB.mkInfo p v a b c))).
Proof.
  intros Hcon Hcl Hlink.
  destruct self as [nm cl di lv bl cn cb wr nt rp]. cbn in Hcon, Hcl, Hlink. subst cn.
  destruct cl as [cl|]; [|congruence].
  assert (Hrun : forall arrivals,
            FJB.get_device_info link arrivals
              (FJB.mkDevice nm (Some cl) di lv bl true cb wr nt rp)
            = (fold_left (fun self data => FJB.notification_handler data self) arrivals
                 (FJB.mkDevice nm (Some cl) di lv bl true cb (wr ++ [[0x35; 0x10; 0x45]]) nt rp),
               inl (FJB.device_info
                      (fold_left (fun self data => FJB.notification_handler data self) arrivals
                         (FJB.mkDevice nm (Some cl) di lv bl true cb
                            (wr ++ [[0x35; 0x10; 0x45]]) nt rp))))).
  { intros arrivals.
    cbv [FJB.get_device_info FJB.bind FJB.get FJB.modify FJB.ret FJB.raise
         FJB.write_gatt_char].
    cbn [FJB._connected FJB.client FJB.written negb].
    change (FJB.bytes ([53; 16] ++ [FJB.calculate_checksum [53; 16]])) with (Some [53; 16; 69]).
    cbv beta iota. cbn [FJB.set_written FJB.device_name FJB.client FJB.device_info
      FJB.current_levels FJB.battery_level FJB._connected FJB.battery_callback FJB.written
      FJB.notifying FJB.reported].
    rewrite Hlink. reflexivity. }
  split; [|split].
  - intros arrivals. rewrite Hrun. cbn [fst]. rewrite arrivals_keep. reflexivity.
  - rewrite Hrun. reflexivity.
  - intros p v a b c x y. rewrite Hrun. cbn [snd fold_left].
    unfold FJB.notification_handler.
    cbn [FJB.framed app List.length Nat.ltb Nat.leb Nat.eqb nth orb andb negb Z.eqb Pos.eqb
         last removelast].
    rewrite Z.eqb_refl. reflexivity.
Qed.

Lemma device_info_query_witness :
  let self := FJB.set__connected true (FJB.set_client (Some true) (FJB.__init__ "YCY-FJB-03")) in
  (forall arrivals,
     FJB.written (fst (FJB.get_device_info (fun _ => true) arrivals self))
     = (FJB.written self ++ [[0x35; 0x10; 0x45]])%list)
  /\ snd (FJB.get_device_info (fun _ => true) [] self) = inl (FJB.device_info self)
  /\ (forall p v a b c x y,
        snd (FJB.get_device_info (fun _ => true)
               [FJB.framed [0x35; 0x10; p; v; a; b; c; x; y]] self)
        = inl (Some (FJB.mkInfo p v a b c))).
Proof.
  apply (device_info_query (fun _ => true)
           (FJB.set__connected true (FJB.set_client (Some true) (FJB.__init__ "YCY-FJB-03"))));
    [reflexivity|discriminate|reflexivity].
Defined.

(** [set_speed] on a connected device, by the levels it leaves. *)
Lemma set_speed_connected (link : nat -> bool) (self : FJB.device)
    (motor : string) (level a b c : Z) :
  device_check (set_speed motor level) = None ->
  FJB.level_set motor level (FJB.current_levels self) = [("A", a); ("B", b); ("C", c)] ->
  0 <= a <= 40 -> 0 <= b <= 20 -> 0 <= c <= 20 ->
  FJB._connected self = true -> FJB.client self <> None ->
  FJB.set_speed link motor level self
  = (FJB.set_written (FJB.written self ++ [FJB.framed [0x35; 0x12; a; b; c]])%list
       (FJB.set_current_levels [("A", a); ("B", b); ("C", c)] self),
     if link (List.length (FJB.written self)) then inl tt else inr (FJB.Exn BleakError)).
Proof.
  intros Hok Hset Ha Hb Hc Hcon Hcl.
  rewrite (set_speed_checked link self motor level Hok), Hset.
  rewrite (send_speed_run link _ a b c) by (cbn; auto). reflexivity.
Qed.

(** X11. [disconnect] on a connected device whose writes go through: six
    frames, the speed frames that bring A, then B, then C to 0 and the
    mode frames that set A, B and C to mode 0; then the client is
    disconnected, the stored levels are all 0 and the device is marked not
    connected. *)
Theorem disconnect_frames (link : nat -> bool) (self : FJB.device) (a b c : Z) :
  FJB.current_levels self = [("A", a); ("B", b); ("C", c)] ->
  0 <= a <= 40 -> 0 <= b <= 20 -> 0 <= c <= 20 ->
  FJB.client self = Some true -> FJB._connected self = true ->
  (forall k, (k < 6)%nat -> link (List.length (FJB.written self) + k)%nat = true) ->
  let result := FJB.disconnect link None self in
  snd result = inl tt
  /\ FJB.written (fst result)
     = (FJB.written self
        ++ [FJB.framed [0x35; 0x12; 0; b; c]; FJB.framed [0x35; 0x12; 0; 0; c];
            FJB.framed [0x35; 0x12; 0; 0; 0];
            FJB.framed [0x35; 0x11; 0x01; 0]; FJB.framed [0x35; 0x11; 0x12; 0];
            FJB.framed [0x35; 0x11; 0x14; 0]])%list
  /\ FJB.current_levels (fst result) = [("A", 0); ("B", 0); ("C", 0)]
  /\ FJB._connected (fst result) = false
  /\ FJB.client (fst result) = Some false.
Proof.
  intros Hl Ha Hb Hc Hcl Hcon Hlink result. subst result.
  destruct self as [nm cl di lv bl cn cb wr nt rp]. cbn in Hl, Hcl, Hcon, Hlink.
  subst lv cl cn.
  pose proof (Hlink 0%nat ltac:(lia)) as L0. rewrite Nat.add_0_r in L0.
  pose proof (Hlink 1%nat ltac:(lia)) as L1.
  pose proof (Hlink 2%nat ltac:(lia)) as L2.
  pose proof (Hlink 3%nat ltac:(lia)) as L3.
  pose proof (Hlink 4%nat ltac:(lia)) as L4.
  pose proof (Hlink 5%nat ltac:(lia)) as L5.
  assert (Hrun : FJB.disconnect link None
                   (FJB.mkDevice nm (Some true) di [("A", a); ("B", b); ("C", c)] bl true cb
                      wr nt rp)
                 = (FJB.mkDevice nm (Some false) di [("A", 0); ("B", 0); ("C", 0)] bl false cb
                      (wr ++ [FJB.framed [0x35; 0x12; 0; b; c]; FJB.framed [0x35; 0x12; 0; 0; c];
                              FJB.framed [0x35; 0x12; 0; 0; 0];
                              FJB.framed [0x35; 0x11; 0x01; 0]; FJB.framed [0x35; 0x11; 0x12; 0];
                              FJB.framed [0x35; 0x11; 0x14; 0]]) nt rp,
                    inl tt));
    [|rewrite Hrun; repeat split].
  unfold FJB.disconnect. unfold FJB.bind at 1. unfold FJB.get at 1. cbn [FJB.client].
  unfold FJB.bind at 1. unfold FJB.bind at 1.
  rewrite (set_speed_connected link _ "A" 0 0 b c) by (cbn; auto; try lia; discriminate).
  cbn [FJB.written FJB.set_written FJB.set_current_levels FJB.device_name FJB.client
       FJB.device_info FJB.current_levels FJB.battery_level FJB._connected
       FJB.battery_callback FJB.notifying FJB.reported].
  rewrite L0. unfold FJB.bind at 1.
  rewrite (set_speed_connected link _ "B" 0 0 0 c) by (cbn; auto; try lia; discriminate).
  cbn [FJB.written FJB.set_written FJB.set_current_levels FJB.device_name FJB.client
       FJB.device_info FJB.current_levels FJB.battery_level FJB._connected
       FJB.battery_callback FJB.notifying FJB.reported].
  rewrite !length_app. cbn [List.length]. rewrite L1. unfold FJB.bind at 1.
  rewrite (set_speed_connected link _ "C" 0 0 0 0) by (cbn; auto; try lia; discriminate).
  cbn [FJB.written FJB.set_written FJB.set_current_levels FJB.device_name FJB.client
       FJB.device_info FJB.current_levels FJB.battery_level FJB._connected
       FJB.battery_callback FJB.notifying FJB.reported].
  rewrite !length_app. cbn [List.length]. rewrite <- !Nat.add_assoc. cbn [Nat.add].
  rewrite L2. unfold FJB.bind at 1.
  rewrite (set_mode_checked link _ "A" 0) by reflexivity.
  rewrite (send_mode_run link _ "A" 0) by (cbn; auto; try lia; discriminate).
  cbn [FJB.written FJB.set_written FJB.device_name FJB.client
       FJB.device_info FJB.current_levels FJB.battery_level FJB._connected
       FJB.battery_callback FJB.notifying FJB.reported].
  rewrite !length_app. cbn [List.length]. rewrite <- !Nat.add_assoc. cbn [Nat.add].
  rewrite L3. unfold FJB.bind at 1.
  rewrite (set_mode_checked link _ "B" 0) by reflexivity.
  rewrite (send_mode_run link _ "B" 0) by (cbn; auto; try lia; discriminate).
  cbn [FJB.written FJB.set_written FJB.device_name FJB.client
       FJB.device_info FJB.current_levels FJB.battery_level FJB._connected
       FJB.battery_callback FJB.notifying FJB.reported].
  rewrite !length_app. cbn [List.length]. rewrite <- !Nat.add_assoc. cbn [Nat.add].
  rewrite L4. unfold FJB.bind at 1.
  rewrite (set_mode_checked link _ "C" 0) by reflexivity.
  rewrite (send_mode_run link _ "C" 0) by (cbn; auto; try lia; discriminate).
  cbn [FJB.written FJB.set_written FJB.device_name FJB.client
       FJB.device_info FJB.current_levels FJB.battery_level FJB._connected
       FJB.battery_callback FJB.notifying FJB.reported].
  rewrite !length_app. cbn [List.length]. rewrite <- !Nat.add_assoc. cbn [Nat.add].
  rewrite L5.
  cbv [FJB.modify FJB.ret].
  cbn [fst snd FJB.set_client FJB.set__connected FJB.written FJB.device_name FJB.client
       FJB.device_info FJB.current_levels FJB.battery_level FJB._connected
       FJB.battery_callback FJB.notifying FJB.reported FJB.motor_code
       String.eqb Ascii.eqb Bool.eqb].
  rewrite <- !app_assoc. cbn [app]. reflexivity.
Qed.

Lemma disconnect_frames_witness :
  let result := FJB.disconnect (fun _ => true) None linked_device in
  snd result = inl tt
  /\ FJB.written (fst result)
     = (FJB.written linked_device
        ++ [FJB.framed [0x35; 0x12; 0; 0; 0]; FJB.framed [0x35; 0x12; 0; 0; 0];
            FJB.framed [0x35; 0x12; 0; 0; 0];
            FJB.framed [0x35; 0x11; 0x01; 0]; FJB.framed [0x35; 0x11; 0x12; 0];
            FJB.framed [0x35; 0x11; 0x14; 0]])%list
  /\ FJB.current_levels (fst result) = [("A", 0); ("B", 0); ("C", 0)]
  /\ FJB._connected (fst result) = false
  /\ FJB.client (fst result) = Some false.
Proof.
  apply (disconnect_frames (fun _ => true) linked_device 0 0 0); try reflexivity; lia.
Defined.

Lemma well_formed_linked : FJB.well_formed linked_device.
Proof. split; [exists 0, 0, 0; cbn; repeat split; lia|discriminate]. Qed.

Lemma set_speed_frame_witness :
  exists a b c,
    FJB.set_speed (fun _ => true) "B" 7 linked_device
    = (FJB.set_written (FJB.written linked_device ++ [FJB.framed [0x35; 0x12; a; b; c]])%list
         (FJB.set_current_levels [("A", a); ("B", b); ("C", c)] linked_device),
       inl tt)
    /\ FJB.level_get "B" [("A", a); ("B", b); ("C", c)] = Some 7
    /\ (forall m, m <> "B" ->
          FJB.level_get m [("A", a); ("B", b); ("C", c)]
          = FJB.level_get m (FJB.current_levels linked_device))
    /\ FJB.bytes (FJB.framed [0x35; 0x12; a; b; c])
       = Some (FJB.framed [0x35; 0x12; a; b; c])
    /\ List.length (FJB.framed [0x35; 0x12; a; b; c]) = 6%nat
    /\ FJB.well_formed (fst (FJB.set_speed (fun _ => true) "B" 7 linked_device)).
Proof.
  apply (set_speed_frame (fun _ => true) linked_device "B" 7);
    [apply well_formed_linked|reflexivity|reflexivity].
Defined.

Lemma set_mode_frame_witness :
  let frame := FJB.framed [0x35; 0x11; FJB.motor_code "C"; 5] in
  FJB.set_mode (fun _ => false) "C" 5 linked_device
  = (FJB.set_written (FJB.written linked_device ++ [frame])%list linked_device,
     inr (FJB.Exn BleakError))
  /\ FJB.bytes frame = Some frame
  /\ List.length frame = 5%nat
  /\ (forall motor' v, device_check (set_mode motor' v) = None ->
        FJB.motor_code motor' = FJB.motor_code "C" -> motor' = "C").
Proof.
  apply (set_mode_frame (fun _ => false) linked_device "C" 5);
    [apply well_formed_linked|reflexivity|reflexivity].
Defined.

(** X12. When [connect] fails at [start_notify] the client is connected
    but the device is not marked connected; [disconnect] then raises the
    RuntimeError of its first [set_speed], writes nothing, and leaves the
    client connected. *)
Theorem failed_connect_blocks_disconnect (link : nat -> bool) (hangup : option exn)
    (devices : list (option string * string)) (e : exn) (self : FJB.device) :
  FJB.well_formed self -> FJB._connected self = false ->
  (exists address, In (Some (FJB.device_name self), address) devices) ->
  let linked := FJB.connect (inr devices) (inr true) (Some e) self in
  let result := FJB.disconnect link hangup (fst linked) in
  snd linked = inr (FJB.Exn e)
  /\ FJB.client (fst linked) = Some true
  /\ snd result = inr (FJB.Exn RuntimeError)
  /\ FJB.client (fst result) = Some true
  /\ FJB.written (fst result) = FJB.written self.
Proof.
  intros [(a & b & c & Hl & Ha & Hb & Hc) _] Hoff Hex linked result. subst linked result.
  rewrite connect_succeeds by exact Hex. cbn [fst snd].
  split; [reflexivity|]. split; [reflexivity|].
  assert (Hrun : FJB.disconnect link hangup (FJB.set_client (Some true) self)
                 = (FJB.set_current_levels [("A", 0); ("B", b); ("C", c)]
                      (FJB.set_client (Some true) self),
                    inr (FJB.Exn RuntimeError))).
  { unfold FJB.disconnect. unfold FJB.bind at 1. unfold FJB.get at 1.
    cbn [FJB.client FJB.set_client].
    unfold FJB.bind at 1. unfold FJB.bind at 1.
    rewrite (set_speed_checked link _ "A" 0) by reflexivity.
    cbn [FJB.current_levels FJB.set_client]. rewrite Hl.
    cbn [FJB.level_set String.eqb Ascii.eqb Bool.eqb].
    rewrite send_offline by (cbn; exact Hoff). reflexivity. }
  rewrite Hrun. repeat split.
Qed.

Lemma failed_connect_blocks_disconnect_witness :
  let self := FJB.__init__ "YCY-FJB-03" in
  let linked := FJB.connect (inr [(Some "YCY-FJB-03", "AA:BB")]) (inr true)
                  (Some BleakError) self in
  let result := FJB.disconnect (fun _ => true) None (fst linked) in
  snd linked = inr (FJB.Exn BleakError)
  /\ FJB.client (fst linked) = Some true
  /\ snd result = inr (FJB.Exn RuntimeError)
  /\ FJB.client (fst result) = Some true
  /\ FJB.written (fst result) = FJB.written self.
Proof.
  apply (failed_connect_blocks_disconnect (fun _ => true) None
           [(Some "YCY-FJB-03", "AA:BB")] BleakError (FJB.__init__ "YCY-FJB-03")).
  - apply well_formed_init.
  - reflexivity.
  - exists "AA:BB". left. reflexivity.
Defined.

(** ** Speed mode *)

Lemma dict_get_In (channel : string) (l : limits_t) (p : Z * Z) :
  dict_get channel l = Some p -> In (channel, p) l.
Proof.
  induction l as [|[k v] l IH]; cbn [dict_get]; [discriminate|].
  destruct (String.eqb_spec k channel) as [->|Hne].
  - intros H. injection H as ->. left. reflexivity.
  - intros H. right. apply IH. exact H.
Qed.

Lemma accepted_limits_ok (m : string) (l : limits_t) : ~ start_rejects m l -> limits_ok l.
Proof.
  intros Hacc channel Hin.
  destruct (dict_get channel l) as [[mn mx]|] eqn:Hget.
  - exists mn, mx. split; [reflexivity|].
    pose proof (chain_ok_spec channel mn mx) as Hspec.
    destruct (chain_ok mn mx (if String.eqb channel "A" then 40 else 20)) eqn:Hc;
      [apply Hspec; reflexivity|].
    exfalso. apply Hacc. right; right. exists channel, mn, mx.
    split; [apply dict_get_In; exact Hget|].
    intros Hok. apply Hspec in Hok. discriminate.
  - exfalso. apply Hacc. right; left. exists channel. auto.
Qed.

Section SpeedMode.

Variable l : limits_t.
Hypothesis l_ok : limits_ok l.

(** The value generated for a channel lies within its limits. *)
Lemma generate_within (channel : string) (Q : controller -> Z -> Prop)
    (X : controller -> exn -> Prop) (s : controller) :
  In channel ["A"; "B"; "C"] -> limits s = l ->
  (forall v min_val max_val,
     dict_get channel l = Some (min_val, max_val) -> pair_ok channel min_val max_val ->
     min_val <= v <= max_val -> Q s v) ->
  wp (speed_policy l) (_generate_random_value channel None) Q X s.
Proof.
  intros Hin Hs HQ. destruct (l_ok channel Hin) as (mn & mx & Hget & Hok).
  unfold _generate_random_value. wp_simpl. rewrite Hs, Hget.
  destruct (possible_values_nonempty channel mn mx Hok) as [Hne Hrange].
  destruct (possible_values channel mn mx []) as [|x xs] eqn:Hp; [congruence|].
  wp_simpl. intros i Hi. apply (HQ _ mn mx Hget Hok). apply Hrange.
  apply nth_In. apply Hi. discriminate.
Qed.

Lemma speed_call_within (channel : string) (v min_val max_val : Z) :
  In channel ["A"; "B"; "C"] ->
  dict_get channel l = Some (min_val, max_val) -> pair_ok channel min_val max_val ->
  min_val <= v <= max_val ->
  speed_call l (set_speed channel v).
Proof.
  intros Hin Hget Hok Hv. exists channel, v, min_val, max_val.
  repeat (split; [auto|]). apply device_check_speed; [exact Hin|].
  destruct Hok as [H1 H2]. lia.
Qed.

Lemma speed_call_release : speed_call l (set_speed "B" 0).
Proof.
  destruct (l_ok "B" ltac:(cbn; auto)) as (mn & mx & Hget & Hok).
  exists "B", 0, mn, mx. repeat (split; [cbn; auto|]). reflexivity.
Qed.

Lemma speed_call_B (b min_val max_val : Z) :
  dict_get "B" l = Some (min_val, max_val) -> pair_ok "B" min_val max_val ->
  min_val <= b <= max_val ->
  speed_call l (set_speed "B" (if b >? 0 then b else 0)).
Proof.
  intros Hget Hok Hb. destruct (b >? 0).
  - apply (speed_call_within "B" b min_val max_val); cbn; auto.
  - apply speed_call_release.
Qed.

Ltac speed_walk :=
  wp_walk ltac:(first [ assumption | reflexivity | known_mode
                      | apply speed_call_release
                      | (eapply speed_call_B; eassumption)
                      | (eapply speed_call_within; [cbn; tauto|eassumption..])
                      | match goal with
                        | H : mode _ = _ /\ _ |- _ => destruct H
                        | |- wp _ (bind (bind _ _) _) _ _ _ => apply wp_bind
                        | |- wp _ (bind (_generate_random_value _ _) _) _ _ _ =>
                            apply wp_bind; apply generate_within;
                            [cbn; tauto|assumption|intros ? ? ? ? ? ?]
                        | |- context [if ?b >? 0 then _ else _] =>
                            lazymatch goal with
                            | |- speed_call _ _ => fail
                            | _ => destruct (b >? 0) eqn:?
                            end
                        end ]).

Lemma speed_iteration (s : controller) :
  inv (speed_policy l) s ->
  wp (speed_policy l) loop_iteration (fun s' _ => inv (speed_policy l) s')
     (fun s' e => inv (speed_policy l) s' /\ e = CancelledError) s.
Proof.
  intros [Hm Hl]. unfold loop_iteration. apply wp_try_except.
  unfold execute_cycle, _execute_mode_mode, _execute_speed_mode, _generate_frequency_delay,
    _handle_b_channel_exhale_cycle.
  speed_walk.
Qed.

Lemma speed_while (fuel : nat) :
  forall s, inv (speed_policy l) s -> task_wp (speed_policy l) (while_running fuel) s.
Proof.
  induction fuel as [|fuel IH]; intros s Hs; unfold task_wp; cbn [while_running];
    wp_simpl; destruct (is_running s && auto_loop s);
    try solve [wp_walk ltac:(first [assumption
                          |match goal with H : _ /\ _ |- _ => destruct H end])].
  apply wp_bind. eapply wp_mono; [| |apply speed_iteration; exact Hs].
  - intros s' r Hs'. apply IH. exact Hs'.
  - intros s' e [Hs' He]. hnf. auto.
Qed.

Lemma speed_random_loop (fuel : nat) (s : controller) :
  inv (speed_policy l) s -> task_wp (speed_policy l) (_random_loop fuel) s.
Proof. intros Hs. unfold task_wp, _random_loop. wp_simpl. apply speed_while. exact Hs. Qed.

Lemma speed_execute_once (s : controller) :
  inv (speed_policy l) s ->
  wp (speed_policy l) _execute_once (fun s' _ => inv (speed_policy l) s')
     (fun s' e => inv (speed_policy l) s' /\ e = CancelledError) s.
Proof.
  intros [Hm Hl]. unfold _execute_once. apply wp_try_except.
  unfold execute_cycle, _execute_mode_mode, _execute_speed_mode,
    _handle_b_channel_exhale_cycle.
  speed_walk.
Qed.

Lemma speed_start_session (al : bool) (s : controller) :
  is_running s = false -> task_wp (speed_policy l) (start_session "speed" l al) s.
Proof.
  intros Hs. unfold task_wp, start_session. wp_simpl.
  cbn [is_running set_session]. rewrite Hs. wp_simpl.
  destruct al.
  - wp_walk ltac:(reflexivity).
  - apply wp_bind. eapply wp_mono; [| |apply speed_execute_once; split; reflexivity].
    + intros s' r [Hm' Hl']. wp_walk ltac:(first [assumption|reflexivity
                          |match goal with H : _ /\ _ |- _ => destruct H end]).
    + intros s' e [Hs' He]. hnf. auto.
Qed.

End SpeedMode.

(** X13. In Speed mode every level written lies within the limits the
    caller gave for its channel, except the 0 written to B (the release,
    or a drawn 0), and the device accepts every call: a session started in
    Speed mode on an idle engine, whatever auto_loop is, makes no device
    call but set_speed on A, B or C with such a level. *)
Theorem speed_session_calls (E : env) (l : limits_t) (al : bool)
    (s0 : controller) (is_connected : bool) (d wr : nat) (ts : list task_id) :
  is_running s0 = false ->
  Forall (speed_call l)
    (calls (trace (exec E (Invoke (start "speed" l al) :: map Step ts)
                     (mkWorld s0 is_connected [] [] d wr)))).
Proof.
  intros Hidle.
  destruct (start_decide "speed" l al) as [(_ & e & -> & _)|(Hacc & ->)].
  - destruct (exec_invoke_raise E e (mkWorld s0 is_connected [] [] d wr) eq_refl ts)
      as [-> _].
    constructor.
  - pose proof (accepted_limits_ok "speed" l Hacc) as Hok.
    destruct (exec_invoke_fresh E (speed_policy l)
                (fun _ s Hs => speed_random_loop l Hok (loop_fuel E) s Hs)
                (start_session "speed" l al) (mkWorld s0 is_connected [] [] d wr)
                eq_refl (speed_start_session l Hok al s0 Hidle) (Forall_nil _) ts)
      as [-> | (_ & _ & Hc)].
    + constructor.
    + exact Hc.
Qed.

Lemma speed_session_calls_witness :
  Forall (speed_call example_limits)
    (calls (trace (exec (steady 2) (Invoke (start "speed" example_limits true)
                                      :: map Step [0; 1; 1; 1; 1; 1; 1; 1; 1; 1]%nat)
                     (mkWorld __init__ true [] [] 0 0)))).
Proof.
  apply (speed_session_calls (steady 2) example_limits true __init__ true 0 0). reflexivity.
Defined.


(** ** Exclusions *)

Lemma z_in_spec (v : Z) (xs : list Z) : z_in v xs = true <-> In v xs.
Proof.
  unfold z_in. rewrite existsb_exists. split.
  - intros [y [Hin Heq]]. apply Z.eqb_eq in Heq. subst. exact Hin.
  - intros Hin. exists v. split; [exact Hin|apply Z.eqb_refl].
Qed.

Lemma possible_values_excluding (channel : string) (min_val max_val v : Z)
    (exclude_values : list Z) :
  In v (possible_values channel min_val max_val exclude_values)
  <-> In v (possible_values channel min_val max_val []) /\ ~ In v exclude_values.
Proof.
  unfold possible_values.
  destruct (String.eqb channel "A"); rewrite filter_no_exclusion, filter_In, negb_true_iff;
    (split; intros [H1 H2]; (split; [exact H1|]));
    [ intros Hin; apply z_in_spec in Hin; congruence
    | destruct (z_in v exclude_values) eqn:Hz; [apply z_in_spec in Hz; contradiction|reflexivity]
    | intros Hin; apply z_in_spec in Hin; congruence
    | destruct (z_in v exclude_values) eqn:Hz; [apply z_in_spec in Hz; contradiction|reflexivity] ].
Qed.

(** X15. [_generate_random_value] with values to exclude returns a
    candidate of the channel that is not excluded; when every candidate is
    excluded it returns the lower limit, excluded or not. *)
Theorem generate_with_exclusions (E : env) (me : task_id) (w : world)
    (channel : string) (min_val max_val : Z) (exclude_values : list Z) :
  dict_get channel (limits (ctl w)) = Some (min_val, max_val) ->
  exists v w',
    call_sync E me (_generate_random_value channel (Some exclude_values)) w
    = Some (w', inl v)
    /\ ((In v (possible_values channel min_val max_val []) /\ ~ In v exclude_values)
        \/ (v = min_val
            /\ forall u, In u (possible_values channel min_val max_val []) ->
                         In u exclude_values)).
Proof.
  intros H. unfold _generate_random_value. cbn [bind do call_sync perform]. rewrite H.
  destruct (possible_values channel min_val max_val exclude_values) as [|x xs] eqn:Hp.
  - cbn [call_sync]. eexists _, _. split; [reflexivity|]. right. split; [reflexivity|].
    intros u Hu. destruct (in_dec Z.eq_dec u exclude_values) as [Hin|Hout]; [exact Hin|].
    assert (Hc : In u (possible_values channel min_val max_val exclude_values))
      by (apply possible_values_excluding; auto).
    rewrite Hp in Hc. destruct Hc.
  - unfold random_choice. cbn [bind do call_sync perform].
    eexists _, _. split; [reflexivity|]. left.
    apply possible_values_excluding. rewrite Hp.
    apply nth_In. apply below_lt. discriminate.
Qed.

Lemma generate_with_exclusions_witness :
  exists v w',
    call_sync (steady 1) 0%nat (_generate_random_value "B" (Some [1; 2; 3])) (boot true)
    = Some (w', inl v)
    /\ ((In v (possible_values "B" 1 20 []) /\ ~ In v [1; 2; 3])
        \/ (v = 1 /\ forall u, In u (possible_values "B" 1 20 []) -> In u [1; 2; 3])).
Proof.
  apply (generate_with_exclusions (steady 1) 0%nat (boot true) "B" 1 20 [1; 2; 3]).
  reflexivity.
Defined.


(** ** Any use of the API *)

Lemma generate_in_limits (P : policy) (channel : string) (Q : controller -> Z -> Prop)
    (X : controller -> exn -> Prop) (s : controller) :
  In channel ["A"; "B"; "C"] -> limits_ok (limits s) ->
  (forall v, 0 <= v <= (if String.eqb channel "A" then 40 else 20) -> Q s v) ->
  wp P (_generate_random_value channel None) Q X s.
Proof.
  intros Hin Hs HQ. destruct (Hs channel Hin) as (mn & mx & Hget & Hok).
  unfold _generate_random_value. wp_simpl. rewrite Hget.
  destruct (possible_values_nonempty channel mn mx Hok) as [Hne Hrange].
  destruct (possible_values channel mn mx []) as [|x xs] eqn:Hp; [congruence|].
  wp_simpl. intros i Hi. apply HQ.
  assert (Hv : mn <= nth i (x :: xs) 0 <= mx)
    by (apply Hrange; apply nth_In; apply Hi; discriminate).
  destruct Hok as [H1 H2]. lia.
Qed.

Lemma accepted_B (b : Z) : 0 <= b <= 20 -> device_check (set_speed "B" (if b >? 0 then b else 0)) = None.
Proof.
  intros Hb. destruct (b >? 0); [|reflexivity].
  apply device_check_speed; [cbn; auto|exact Hb].
Qed.

Lemma accepted_randint (channel : string) (x : nat) :
  In channel ["A"; "B"; "C"] ->
  (Z.to_nat (7 - 1 + 1) <> 0%nat -> (x < Z.to_nat (7 - 1 + 1))%nat) ->
  device_check (set_mode channel (1 + Z.of_nat x)) = None.
Proof.
  intros Hc Hx. apply device_check_mode; [exact Hc|]. lia.
Qed.

Ltac api_walk :=
  wp_walk ltac:(first [ assumption | reflexivity
                      | apply accepted_B; assumption
                      | (apply device_check_speed; [cbn; tauto|assumption])
                      | (apply accepted_randint; [cbn; tauto|assumption])
                      | match goal with
                        | H : limits_ok _ /\ _ |- _ => destruct H
                        | H : Some _ = None |- _ => discriminate H
                        | |- wp _ (bind (bind _ _) _) _ _ _ => apply wp_bind
                        | |- wp _ (bind (_generate_random_value _ _) _) _ _ _ =>
                            apply wp_bind; apply generate_in_limits;
                            [cbn; tauto|assumption|intros ? ?]
                        | |- context [if mode_is ?s ?m then _ else _] =>
                            destruct (mode_is s m) eqn:?
                        | |- context [match task ?s with _ => _ end] =>
                            destruct (task s) eqn:?
                        | |- context [if negb ?b then _ else _] => is_var b; destruct b
                        | H : b_channel_timer ?s = None
                          |- context [b_channel_timer ?s] => rewrite H
                        | |- context [if ?b >? 0 then _ else _] =>
                            lazymatch goal with
                            | |- device_check _ = _ => fail
                            | _ => destruct (b >? 0) eqn:?
                            end
                        end ]).

Lemma api_iteration (s : controller) :
  inv api_policy s ->
  wp api_policy loop_iteration (fun s' _ => inv api_policy s')
     (fun s' e => inv api_policy s' /\ e = CancelledError) s.
Proof.
  intros [Hl Ht]. unfold loop_iteration. apply wp_try_except.
  unfold execute_cycle, _execute_mode_mode, _execute_speed_mode, _generate_frequency_delay,
    _handle_b_channel_exhale_cycle.
  api_walk.
Qed.

Lemma api_while (fuel : nat) :
  forall s, inv api_policy s -> task_wp api_policy (while_running fuel) s.
Proof.
  induction fuel as [|fuel IH]; intros s Hs; unfold task_wp; cbn [while_running];
    wp_simpl; destruct (is_running s && auto_loop s);
    try solve [api_walk].
  apply wp_bind. eapply wp_mono; [| |apply api_iteration; exact Hs].
  - intros s' r Hs'. apply IH. exact Hs'.
  - intros s' e [Hs' He]. hnf. auto.
Qed.

Lemma api_random_loop (fuel : nat) (s : controller) :
  inv api_policy s -> task_wp api_policy (_random_loop fuel) s.
Proof. intros Hs. unfold task_wp, _random_loop. wp_simpl. apply api_while. exact Hs. Qed.

Lemma api_execute_once (s : controller) :
  inv api_policy s ->
  wp api_policy _execute_once (fun s' _ => inv api_policy s')
     (fun s' e => inv api_policy s' /\ e = CancelledError) s.
Proof.
  intros [Hl Ht]. unfold _execute_once. apply wp_try_except.
  unfold execute_cycle, _execute_mode_mode, _execute_speed_mode,
    _handle_b_channel_exhale_cycle.
  api_walk.
Qed.

Lemma api_stop_wp (s : controller) (Q : controller -> unit -> Prop)
    (X : controller -> exn -> Prop) :
  inv api_policy (set_is_running false s) ->
  (forall s', inv api_policy s' -> Q s' tt) ->
  (forall s' e, inv api_policy s' -> X s' e) ->
  wp api_policy stop Q X s.
Proof.
  intros [Hl Ht] HQ HX. unfold stop.
  api_walk; first [apply HQ|apply HX]; hnf; auto.
Qed.

Lemma api_stop (s : controller) : inv api_policy s -> task_wp api_policy stop s.
Proof.
  intros Hs. apply api_stop_wp; [exact Hs| |].
  - intros s' Hs'. split; [exact Hs'|exact I].
  - intros s' e Hs'. split; [exact Hs'|right; exact I].
Qed.

Lemma api_start (m : string) (l : limits_t) (al : bool) (s : controller) :
  inv api_policy s -> task_wp api_policy (start m l al) s.
Proof.
  intros [Hl Ht].
  destruct (start_decide m l al) as [(_ & e & -> & _)|(Hacc & ->)].
  - hnf. cbn. auto.
  - pose proof (accepted_limits_ok m l Hacc) as Hok.
    unfold task_wp, start_session. wp_simpl. apply wp_bind.
    assert (Hrest : forall s', inv api_policy s' ->
              wp api_policy
                (do (Update (set_is_running true));;
                 (if al
                  then t <- do CreateTask;;
                       do (Update (set_task (Some t)));; do (Logger INFO (StartedLoop m))
                  else _execute_once;; do (Logger INFO (StartedOnce m))))
                (task_post api_policy) (task_exn api_policy) s').
    { intros s' [Hl' Ht']. wp_simpl. destruct al.
      - api_walk.
      - apply wp_bind.
        eapply wp_mono; [| |apply api_execute_once; split; assumption].
        + intros s'' r [Hl'' Ht'']. api_walk.
        + intros s'' e [Hs'' He]. split; [exact Hs''|left; exact He]. }
    assert (Hnow : inv api_policy (set_session m l al s)) by (split; assumption).
    destruct (is_running (set_session m l al s)).
    + apply api_stop_wp; [exact Hnow| |].
      * intros s' Hs'. apply Hrest. exact Hs'.
      * intros s' e Hs'. hnf. split; [exact Hs'|]. right. exact I.
    + wp_simpl. apply Hrest. exact Hnow.
Qed.

Lemma calls_ok_nil (P : policy) (w : world) : trace w = [] -> calls_ok P w.
Proof. intros H. unfold calls_ok. rewrite H. constructor. Qed.

(** Whatever the outside does, the run keeps the policy. *)
Lemma exec_api_sound (E : env) (schedule : list action) :
  Forall api_action schedule ->
  forall w, winv api_policy w -> winv api_policy (exec E schedule w).
Proof.
  induction 1 as [|a schedule Ha _ IH]; intros w Hw; [exact Hw|].
  rewrite exec_cons. apply IH. destruct a as [c|t]; cbn [act].
  - destruct Hw as (Hi & Ht & Hc). split; [exact Hi|split; [|exact Hc]].
    intros t tc Hn. cbn [tasks with_tasks] in Hn.
    destruct (Nat.lt_ge_cases t (List.length (tasks w))) as [Hlt|Hge].
    + rewrite nth_error_app1 in Hn by exact Hlt. eapply Ht; eauto.
    + rewrite nth_error_app2 in Hn by exact Hge.
      destruct (t - List.length (tasks w))%nat as [|n]; cbn in Hn;
        [|destruct n; discriminate Hn].
      injection Hn as <-. intros s Hs. cbn [api_action] in Ha.
      destruct Ha as [->|(m & l & al & ->)]; [apply api_stop|apply api_start]; exact Hs.
  - apply (resume_sound E api_policy
             (fun _ s Hs => api_random_loop (loop_fuel E) s Hs)). exact Hw.
Qed.

Lemma default_limits_ok : limits_ok default_limits.
Proof.
  intros channel Hin. cbn in Hin.
  destruct Hin as [<-|[<-|[<-|[]]]]; eexists _, _; (split; [reflexivity|]);
    unfold pair_ok; cbn; lia.
Qed.

Lemma boot_winv (is_connected : bool) : winv api_policy (boot is_connected).
Proof.
  split; [split; [apply default_limits_ok|reflexivity]|split].
  - intros t tc Hn. destruct t; discriminate Hn.
  - constructor.
Qed.

(** X16. Whatever calls of [start] and [stop] are made of a fresh
    controller, with whatever parameters, in whatever order and however
    the loop interleaves the tasks, every call the engine makes of the
    device has arguments the device accepts: the engine never provokes
    the ValueError of [set_speed] or [set_mode]. *)
Theorem engine_calls_accepted (E : env) (is_connected : bool) (schedule : list action) :
  Forall api_action schedule ->
  Forall (fun op => device_check op = None)
    (calls (trace (exec E schedule (boot is_connected)))).
Proof.
  intros Hs.
  destruct (exec_api_sound E schedule Hs (boot is_connected) (boot_winv is_connected))
    as (_ & _ & Hc).
  exact Hc.
Qed.

(** X17. Under the same uses of the API the stored limits always keep the
    range invariant for A, B and C, and [b_channel_timer] is never set:
    the timer cancellation at the end of [stop] never runs. *)
Theorem limits_valid_and_no_timer (E : env) (is_connected : bool)
    (schedule : list action) :
  Forall api_action schedule ->
  limits_ok (limits (ctl (exec E schedule (boot is_connected))))
  /\ b_channel_timer (ctl (exec E schedule (boot is_connected))) = None.
Proof.
  intros Hs.
  destruct (exec_api_sound E schedule Hs (boot is_connected) (boot_winv is_connected))
    as (Hi & _ & _).
  exact Hi.
Qed.

Lemma engine_calls_accepted_witness :
  Forall (fun op => device_check op = None)
    (calls (trace (exec (steady 2)
                     [Invoke (start "speed" example_limits true); Step 0; Step 1; Step 1;
                      Invoke (start "mode" example_limits false); Step 2; Step 1; Step 2;
                      Invoke stop; Step 3; Step 2; Step 3]%nat
                     (boot true)))).
Proof.
  apply (engine_calls_accepted (steady 2) true).
  apply Forall_cons; [right; exists "speed", example_limits, true; reflexivity|].
  do 3 (apply Forall_cons; [exact I|]).
  apply Forall_cons; [right; exists "mode", example_limits, false; reflexivity|].
  do 3 (apply Forall_cons; [exact I|]).
  apply Forall_cons; [left; reflexivity|].
  do 3 (apply Forall_cons; [exact I|]).
  apply Forall_nil.
Defined.

Lemma limits_valid_and_no_timer_witness :
  let w := exec (steady 2)
             [Invoke (start "speed" example_limits true); Step 0; Step 1; Step 1;
              Invoke stop; Step 2; Step 1; Step 2]%nat (boot false) in
  limits_ok (limits (ctl w)) /\ b_channel_timer (ctl w) = None.
Proof.
  apply (limits_valid_and_no_timer (steady 2) false).
  apply Forall_cons; [right; exists "speed", example_limits, true; reflexivity|].
  do 3 (apply Forall_cons; [exact I|]).
  apply Forall_cons; [left; reflexivity|].
  do 3 (apply Forall_cons; [exact I|]).
  apply Forall_nil.
Defined.

(** ** The control panel *)

(** X18. In [ControlPanel.handle_random_control] the random loop never
    gets a turn: [input()] holds the event loop from the return of
    [start] to the call of [stop], which cancels the loop task before its
    first step.  With a link that works, one pass ends with the loop task
    cancelled and no device call made but the three zero commands of
    [stop]. *)
Theorem panel_round_never_cycles (E : env) (cmd : string) (s0 : controller) (d wr : nat) :
  cmd = "speed" \/ cmd = "mode" ->
  link_ok E wr = true -> link_ok E (S wr) = true -> link_ok E (S (S wr)) = true ->
  let w := exec E [Invoke (random_control_round cmd); Step 0; Step 1; Step 0; Step 0;
                   Step 0; Step 0]%nat (mkWorld s0 true [] [] d wr) in
  outcome_of 0%nat w = Some Done
  /\ outcome_of 1%nat w = Some Cancelled
  /\ calls_of 1%nat (trace w) = []
  /\ calls (trace w)
     = (if String.eqb cmd "speed"
        then [set_speed "A" 0; set_speed "B" 0; set_speed "C" 0]
        else [set_mode "A" 0; set_mode "B" 0; set_mode "C" 0])
  /\ is_running (ctl w) = false
  /\ draws w = d.
Proof.
  intros Hcmd L0 L1 L2. cbv zeta.
  destruct Hcmd as [-> | ->]; unfold random_control_round;
    [ change (start "speed" panel_limits true) with (start_session "speed" panel_limits true)
    | change (start "mode" panel_limits true) with (start_session "mode" panel_limits true) ];
    (unfold start_session, stop, __init__;
     match goal with
     | |- context [exec ?E0 ?sch ?w0] =>
         let W := fresh "W" in
         let HW := fresh "HW" in
         evar (W : world);
         assert (HW : exec E0 sch w0 = W);
         [ repeat (rewrite exec_cons; cbn [act];
                   try (unfold resume at 1; world_simpl; cbn [app nth_error];
                        unfold run_task);
                   repeat (progress
                             (run_steps;
                              cbn [app nth_error replace_nth List.length task_done
                                   task_state option_map request_cancel mode_is tasks state must_cancel
                                   mode is_running limits auto_loop task b_channel_timer
                                   set_is_running set_task set_session
                                   String.eqb Ascii.eqb Bool.eqb await_result negb];
                              zero_ok; rewrite ?L0, ?L1, ?L2; world_simpl)));
           rewrite exec_nil; subst W; reflexivity
         | rewrite !HW; subst W; clear HW ]
     end;
     cbn [outcome_of task_state option_map nth_error tasks state ctl trace draws
          is_running set_is_running set_task set_session];
     repeat split).
Qed.

Lemma panel_round_never_cycles_witness :
  let w := exec (steady 5) [Invoke (random_control_round "speed"); Step 0; Step 1; Step 0;
                            Step 0; Step 0; Step 0]%nat (mkWorld __init__ true [] [] 0 0) in
  outcome_of 0%nat w = Some Done
  /\ outcome_of 1%nat w = Some Cancelled
  /\ calls_of 1%nat (trace w) = []
  /\ calls (trace w) = [set_speed "A" 0; set_speed "B" 0; set_speed "C" 0]
  /\ is_running (ctl w) = false
  /\ draws w = 0%nat.
Proof.
  apply (panel_round_never_cycles (steady 5) "speed" __init__ 0 0); try reflexivity.
  left. reflexivity.
Defined.


(** ** The GUI as a caller *)

Lemma gui_refuses_check (l : limits_t) :
  gui_refuses l = match check_items l with Some _ => true | None => false end.
Proof.
  induction l as [|[channel [mn mx]] l IH]; [reflexivity|].
  cbn [gui_refuses check_items].
  destruct (String.eqb channel "A");
    [destruct (negb (chain_ok mn mx 40))|destruct (negb (chain_ok mn mx 20))];
    auto.
Qed.

Lemma gui_mode_valid (m : string) : str_in (gui_mode m) ["speed"; "mode"] = true.
Proof.
  unfold gui_mode. destruct (str_in m ["speed"; "mode"]) eqn:H; cbn [negb]; [exact H|reflexivity].
Qed.

(** X19. [YCYControlGUI.start_random_control] refuses exactly the
    parameters [start] would refuse: when the device is connected it
    hands [start] to the loop unless the limits of the form break the
    range invariant, and a call it hands over passes the checks of
    [start] and opens the session. *)
Theorem gui_start_is_accepted (m : string) (a_min a_max b_min b_max c_min c_max : Z) :
  let limits := gui_limits a_min a_max b_min b_max c_min c_max in
  (start_random_control true m a_min a_max b_min b_max c_min c_max = None
   <-> start_rejects (gui_mode m) limits)
  /\ (forall c,
        start_random_control true m a_min a_max b_min b_max c_min c_max = Some c ->
        c = start_session (gui_mode m) limits true)
  /\ start_random_control false m a_min a_max b_min b_max c_min c_max = None.
Proof.
  cbv zeta. set (limits := gui_limits a_min a_max b_min b_max c_min c_max).
  unfold start_random_control. cbn [negb]. fold limits.
  assert (Hstart : start (gui_mode m) limits true
                   = match check_items limits with
                     | Some e => Raise e
                     | None => start_session (gui_mode m) limits true
                     end).
  { unfold start. rewrite gui_mode_valid. reflexivity. }
  rewrite gui_refuses_check.
  destruct (start_decide (gui_mode m) limits true) as [(Hrej & e & He & _)|(Hacc & He)];
    rewrite He in Hstart;
    destruct (check_items limits) as [e'|] eqn:Hc; try discriminate Hstart.
  - split; [split; auto|split; [discriminate|reflexivity]].
  - split; [split; [discriminate|contradiction]|split; [|reflexivity]].
    intros c Hc'. injection Hc' as <-. exact He.
Qed.

Lemma lookup_store_same {V : Type} (key : string) (value : V) (d : list (string * V)) :
  GUI.lookup key (GUI.store key value d) = Some value.
Proof.
  induction d as [|[k v] d IH]; cbn [GUI.store GUI.lookup].
  - rewrite String.eqb_refl. reflexivity.
  - destruct (String.eqb k key) eqn:Hk; cbn [GUI.lookup]; rewrite Hk; auto.
Qed.

Lemma lookup_store_other {V : Type} (key key' : string) (value : V)
    (d : list (string * V)) :
  key' <> key -> GUI.lookup key' (GUI.store key value d) = GUI.lookup key' d.
Proof.
  intros Hne. induction d as [|[k v] d IH]; cbn [GUI.store GUI.lookup].
  - destruct (String.eqb_spec key key'); [congruence|reflexivity].
  - destruct (String.eqb_spec k key) as [->|Hk]; cbn [GUI.lookup].
    + destruct (String.eqb_spec key key'); [congruence|reflexivity].
    + destruct (String.eqb k key'); auto.
Qed.

Lemma stored_ok_init (channel : string) :
  In channel ["A"; "B"; "C"] -> stored_ok GUI.__init__ channel.
Proof.
  intros Hin. cbn in Hin.
  destruct Hin as [<-|[<-|[<-|[]]]]; exists 0, 0, None; cbn; repeat split; lia.
Qed.

Ltac stored a b c :=
  exists a, b, c; cbn [GUI.speed GUI.mode GUI.last_input GUI.is_connected];
  rewrite ?lookup_store_same;
  repeat match goal with
         | H : ?k' <> ?k |- context [GUI.lookup ?k' (GUI.store ?k _ _)] =>
             rewrite (lookup_store_other k k') by exact H
         end;
  repeat match goal with
         | |- context [String.eqb ?a ?b] =>
             destruct (String.eqb_spec a b); [try congruence|]
         end;
  repeat split; auto; lia.

Lemma stored_ok_step (self : GUI.gui) (ev : gui_event) (channel : string) :
  stored_ok self channel -> stored_ok (gui_step self ev) channel.
Proof.
  intros (sv & mv & lt & Hs & Hm & Hl & Rs & Rm).
  destruct ev as [| |ch value|ch value]; cbn [gui_step].
  - stored sv mv lt.
  - stored sv mv lt.
  - unfold GUI.set_speed.
    destruct (negb (GUI.is_connected self)); [stored sv mv lt|].
    assert (Hcase : forall bound,
              (negb ((0 <=? value) && (value <=? bound)) = false -> 0 <= value <= bound)).
    { intros bound H. apply negb_false_iff, andb_true_iff in H. destruct H as [H0 H1].
      apply Z.leb_le in H0, H1. auto. }
    destruct (if String.eqb ch "A" then negb ((0 <=? value) && (value <=? 40))
              else negb ((0 <=? value) && (value <=? 20))) eqn:Hv; [stored sv mv lt|].
    cbn [GUI.last_input GUI.speed GUI.mode GUI.is_connected].
    destruct (String.eqb_spec channel ch) as [->|Hne].
    + rewrite Hl. cbn [fst].
      destruct (String.eqb ch "A") eqn:HA; apply Hcase in Hv;
        exists value, mv, (Some "speed");
        cbn [GUI.speed GUI.mode GUI.last_input GUI.is_connected];
        rewrite !lookup_store_same, ?HA; repeat split; auto; lia.
    + destruct (GUI.lookup ch (GUI.last_input self)); cbn [fst]; stored sv mv lt.
  - unfold GUI.set_mode.
    destruct (negb (GUI.is_connected self)); [stored sv mv lt|].
    destruct ((0 <=? value) && (value <=? 7)) eqn:Hv; cbn [negb]; [|stored sv mv lt].
    apply andb_true_iff in Hv. destruct Hv as [H0 H1]. apply Z.leb_le in H0, H1.
    cbn [GUI.last_input GUI.speed GUI.mode GUI.is_connected].
    destruct (String.eqb_spec channel ch) as [->|Hne].
    + rewrite Hl. cbn [fst]. exists sv, value, (Some "mode").
      cbn [GUI.speed GUI.mode GUI.last_input GUI.is_connected].
      rewrite !lookup_store_same. repeat split; auto; lia.
    + destruct (GUI.lookup ch (GUI.last_input self)); cbn [fst]; stored sv mv lt.
Qed.

Lemma stored_ok_events (events : list gui_event) (channel : string) :
  forall self, stored_ok self channel -> stored_ok (fold_left gui_step events self) channel.
Proof.
  induction events as [|ev events IH]; intros self H; [exact H|].
  cbn [fold_left]. apply IH. apply stored_ok_step. exact H.
Qed.

Lemma basic_command_ok (channel : string) (speed_value mode_value : Z)
    (last_type : option string) :
  In channel ["A"; "B"; "C"] ->
  0 <= speed_value <= (if String.eqb channel "A" then 40 else 20) ->
  0 <= mode_value <= 7 ->
  match basic_command channel speed_value mode_value last_type with
  | Some op =>
      device_check op = None
      /\ exists v, v <> 0 /\ (op = set_speed channel v \/ op = set_mode channel v)
  | None => speed_value = 0 /\ mode_value = 0
  end.
Proof.
  intros Hin Hs Hm. unfold basic_command.
  assert (Sok : device_check (set_speed channel speed_value) = None)
    by (apply device_check_speed; assumption).
  assert (Mok : device_check (set_mode channel mode_value) = None)
    by (apply device_check_mode; assumption).
  destruct (Z.eqb_spec speed_value 0) as [Hs0|Hs0], (Z.eqb_spec mode_value 0) as [Hm0|Hm0];
    cbn [negb andb]; auto.
  - split; [exact Mok|]. exists mode_value. auto.
  - split; [exact Sok|]. exists speed_value. auto.
  - destruct last_type as [t|]; [|split; [exact Sok|exists speed_value; auto]].
    destruct (String.eqb t "speed"); [split; [exact Sok|exists speed_value; auto]|].
    destruct (String.eqb t "mode");
      [split; [exact Mok|exists mode_value; auto]|split; [exact Sok|exists speed_value; auto]].
Qed.

(** X20. Whatever the user did at the basic-control panel, applying the
    stored configuration ([do_start] of [start_basic_control]) sends each
    channel at most one command, with arguments the device accepts and
    never the value 0: a channel whose stored speed and mode are both 0
    gets no command. *)
Theorem basic_control_commands (events : list gui_event) (channel : string) :
  In channel ["A"; "B"; "C"] ->
  let self := fold_left gui_step events GUI.__init__ in
  (basic_pass self channel = pass
   /\ GUI.lookup channel (GUI.speed self) = Some 0
   /\ GUI.lookup channel (GUI.mode self) = Some 0)
  \/ exists op v,
       basic_pass self channel = await (Device op)
       /\ device_check op = None
       /\ v <> 0
       /\ (op = set_speed channel v \/ op = set_mode channel v).
Proof.
  intros Hin self.
  destruct (stored_ok_events events channel GUI.__init__ (stored_ok_init channel Hin))
    as (sv & mv & lt & Hs & Hm & Hl & Rs & Rm).
  fold self in Hs, Hm, Hl. unfold basic_pass. rewrite Hs, Hm, Hl.
  pose proof (basic_command_ok channel sv mv lt Hin Rs Rm) as Hc.
  destruct (basic_command channel sv mv lt) as [op|].
  - right. destruct Hc as (Hok & v & Hv & Hop). exists op, v. auto.
  - left. destruct Hc as [-> ->]. auto.
Qed.

Lemma basic_control_commands_witness :
  let self := fold_left gui_step [Connected; SetSpeed "A" 25; SetMode "A" 3; SetSpeed "B" 0]
                GUI.__init__ in
  (basic_pass self "A" = pass
   /\ GUI.lookup "A" (GUI.speed self) = Some 0
   /\ GUI.lookup "A" (GUI.mode self) = Some 0)
  \/ exists op v,
       basic_pass self "A" = await (Device op)
       /\ device_check op = None
       /\ v <> 0
       /\ (op = set_speed "A" v \/ op = set_mode "A" v).
Proof.
  apply (basic_control_commands [Connected; SetSpeed "A" 25; SetMode "A" 3; SetSpeed "B" 0] "A").
  cbn. auto.
Defined.

(** ** The engine at work: concrete runs *)

(** C1 (the code at the failing input). A Speed session is running when
    [start] is called in Mode mode: afterwards one task is live, and the
    zero commands that precede the new session's first cycle were issued
    with set_mode, the mode of the second call, not with set_speed, the
    mode of the session being stopped. *)
Theorem restart_zeroes_in_new_mode :
  let w1 := exec (steady 3%nat) first_session (boot true) in
  let w2 := exec (steady 3%nat) second_start w1 in
  is_running (ctl w1) = true
  /\ mode (ctl w1) = Some "speed"
  /\ live w1 = [1%nat]
  /\ live w2 = [3%nat]
  /\ calls (trace w1) = [set_speed "A" 3; set_speed "C" 4; set_speed "B" 9]
  /\ calls (trace w2)
     = [set_speed "A" 3; set_speed "C" 4; set_speed "B" 9;
        set_mode "A" 0; set_mode "B" 0; set_mode "C" 0;
        set_mode "A" 3]
  /\ calls_of 2%nat (trace w2) = [set_mode "A" 0; set_mode "B" 0; set_mode "C" 0]
  /\ outcome_of 2%nat w2 = Some Done.
Proof. vm_compute. repeat split. Qed.

(** C2 (counterexample). A controller that never ran is idle, and [stop]
    on it succeeds after calling set_mode three times. *)
Lemma idle_stop_issues_commands :
  let w := exec (steady 0%nat) (call_stop 0%nat) (boot true) in
  is_running (ctl (boot true)) = false
  /\ outcome_of 0%nat w = Some Done
  /\ calls (trace w) = [set_mode "A" 0; set_mode "B" 0; set_mode "C" 0].
Proof. vm_compute. repeat split. Qed.

(** C3 (counterexample). Limits with a fourth channel D do not contain
    exactly A, B and C, and [start] accepts them. *)
Lemma extra_channel_accepted :
  let w := exec (steady 1%nat) [Invoke (start "speed" four_channels true); Step 0]%nat
             (boot true) in
  ~ exactly_ABC four_channels
  /\ outcome_of 0%nat w = Some Done
  /\ status (ctl w) = mkStatus true (Some "speed") four_channels.
Proof.
  split; [|vm_compute; repeat split].
  intros H. specialize (H "D"). cbn in H.
  destruct H as [H _]. specialize (H ltac:(discriminate)).
  repeat destruct H as [H|H]; try discriminate H. exact H.
Qed.


(** C8 (counterexample). The release write of a cycle fails: the engine has
    commanded channel B to 0 after the hold, and it does not suspend; the
    error is logged and the next cycle begins at once. *)
Lemma release_without_suspension :
  skipn 7 (map snd (trace (exec (fails_at 3%nat 3%nat) one_cycle (boot true))))
  = [Logged INFO (Holding 7); Slept 7;
     Logged INFO CycleEndExhale;
     Logged DEBUG (ExhaleBegin 3);
     Called (set_speed "B" 0);
     Logged ERROR (ExhaleCycleFailed BleakError);
     Logged INFO (NewRound (Some "speed"));
     Called (set_speed "A" 7)].
Proof. reflexivity. Qed.

(** C9 (the code at the failing input). A single-shot Speed session is in
    its hold when [stop] is called; [stop] returns, the call of [start]
    being the only task still alive; when the hold ends, that call goes on
    to write the channel-B release of the stopped session. *)
Theorem release_after_stop :
  let w := exec (steady 0%nat) (single_shot_holding ++ call_stop 1%nat) (boot true) in
  let w' := exec (steady 0%nat) [Step 0]%nat w in
  outcome_of 1%nat w = Some Done
  /\ live w = [0%nat]
  /\ exists l, trace w' = (trace w ++ l)%list
               /\ calls_of 0%nat l = [set_speed "B" 0].
Proof.
  cbv zeta. split; [reflexivity|]. split; [reflexivity|].
  eexists. split; [vm_compute; reflexivity|reflexivity].
Qed.

